(** * AWS Support Case Agent: credential lifecycle, retry discipline and
      role reconciliation

    A shallow embedding of
    - [Agent/support_case_agent.py]: [_run_once], [run_with_retry],
      [refresh_token], [create_streamable_http_transport],
      [strands_agent_bedrock];
    - [Agent/aws_setup.py] and [MCP/aws_setup.py]: [get_existing_role_arn],
      [create_agentcore_role], [ensure_role_policy_updated],
      [_cleanup_existing_role], [_add_managed_policy_to_role],
      [get_or_create_role] and the policy documents.

    The AWS services, the MCP client library and the model behind the agent
    are external collaborators.  Their answers are supplied by an environment
    record of oracles indexed by a logical clock; every theorem quantifies
    over that record.  Only the secret store is given a state of its own,
    because the code under study both writes and re-reads it. *)

From Stdlib Require Import String Ascii List ZArith Bool Arith Lia.
Import ListNotations.
Open Scope string_scope.
Open Scope list_scope.
Set Warnings "-register-all".

(* ===================================================================== *)
(** * Part I: definitions                                                  *)
(* ===================================================================== *)

(** ** Python values shared by all modules *)

Module Py.

(** Exceptions.  Only instances of [Exception] are modelled (the handlers in
    the sources are all [except Exception] or narrower); [KeyboardInterrupt]
    and task cancellation are outside the model.  [ClientError] is botocore's
    error class, carrying [e.response['Error']['Code']]; [message] is what
    [str(e)] returns. *)
Inductive exn : Type :=
| ClientError (code : string) (message : string)
| PyError (message : string).

Definition str (e : exn) : string :=
  match e with
  | ClientError _ m => m
  | PyError m => m
  end.

(** How a call ends: with a value or with a raised exception. *)
Inductive outcome (A : Type) : Type :=
| Return (a : A)
| Raise (e : exn).
Arguments Return {A} a.
Arguments Raise {A} e.

(** JSON documents as [json.loads] returns them.  Objects are Python dicts:
    insertion-ordered, looked up by first match.  Floats are not modelled. *)
Inductive json : Type :=
| JNull
| JBool (b : bool)
| JNum (n : Z)
| JStr (s : string)
| JArr (items : list json)
| JObj (fields : list (string * json)).

Definition dict := list (string * json).

(** [d.get(k)] / [k in d] *)
Fixpoint dict_get (k : string) (d : dict) : option json :=
  match d with
  | [] => None
  | (k', v) :: rest => if String.eqb k k' then Some v else dict_get k rest
  end.

(** [d[k] = v]: overwrite in place when the key is present, append otherwise. *)
Fixpoint dict_set (k : string) (v : json) (d : dict) : dict :=
  match d with
  | [] => [(k, v)]
  | (k', v') :: rest =>
      if String.eqb k k' then (k', v) :: rest else (k', v') :: dict_set k v rest
  end.

(** [v[k]] for a string key [k]: only a dict supports it; a missing key is a
    [KeyError] whose text is the key's repr, anything else a [TypeError]. *)
Definition type_name (v : json) : string :=
  match v with
  | JNull => "NoneType"
  | JBool _ => "bool"
  | JNum _ => "int"
  | JStr _ => "str"
  | JArr _ => "list"
  | JObj _ => "dict"
  end.

Definition subscript (v : json) (k : string) : outcome json :=
  match v with
  | JObj d =>
      match dict_get k d with
      | Some x => Return x
      | None => Raise (PyError ("'" ++ k ++ "'"))
      end
  | JStr _ => Raise (PyError "string indices must be integers, not 'str'")
  | JArr _ => Raise (PyError "list indices must be integers or slices, not str")
  | _ => Raise (PyError ("'" ++ type_name v ++ "' object is not subscriptable"))
  end.

(** [payload.get(k, default)]: a dict method; other values have no [get]. *)
Definition get_default (v : json) (k : string) (default : json) : outcome json :=
  match v with
  | JObj d =>
      match dict_get k d with
      | Some x => Return x
      | None => Return default
      end
  | _ => Raise (PyError ("'" ++ type_name v ++ "' object has no attribute 'get'"))
  end.

(** [str.lower] on ASCII text: [A]..[Z] go to [a]..[z], the rest is kept. *)
Definition lower_char (c : ascii) : ascii :=
  let n := nat_of_ascii c in
  if ((65 <=? n)%nat && (n <=? 90)%nat)%bool then ascii_of_nat (n + 32) else c.

Fixpoint lower (s : string) : string :=
  match s with
  | EmptyString => EmptyString
  | String c rest => String (lower_char c) (lower rest)
  end.

(** [s.startswith(p)] *)
Fixpoint startswith (p s : string) : bool :=
  match p, s with
  | EmptyString, _ => true
  | String _ _, EmptyString => false
  | String a p', String b s' => Ascii.eqb a b && startswith p' s'
  end.

(** [needle in hay] for strings: a match at some offset. *)
Fixpoint contains (needle hay : string) : bool :=
  startswith needle hay ||
  match hay with
  | EmptyString => false
  | String _ rest => contains needle rest
  end.

(** [s.replace(old, new)] for a one-character [old]. *)
Fixpoint replace (old : ascii) (new : string) (s : string) : string :=
  match s with
  | EmptyString => EmptyString
  | String c rest =>
      if Ascii.eqb c old then new ++ replace old new rest
      else String c (replace old new rest)
  end.

(** State-and-exception monad: a function of the sources that may raise and
    that acts on a state [S] (the world it talks to). *)
Definition M (S A : Type) : Type := S -> outcome A * S.

Definition ret {S A} (a : A) : M S A := fun w => (Return a, w).

Definition raise {S A} (e : exn) : M S A := fun w => (Raise e, w).

Definition lift {S A} (o : outcome A) : M S A := fun w => (o, w).

Definition bind {S A B} (m : M S A) (k : A -> M S B) : M S B :=
  fun w =>
    match m w with
    | (Return a, w') => k a w'
    | (Raise e, w') => (Raise e, w')
    end.

Notation "x <- m ;; k" := (bind m (fun x => k))
  (at level 61, m at next level, right associativity).
Notation "m ;;; k" := (bind m (fun _ => k))
  (at level 61, right associativity).

(** [try: m except Exception as e: h e] *)
Definition try_except {S A} (m : M S A) (h : exn -> M S A) : M S A :=
  fun w =>
    match m w with
    | (Return a, w') => (Return a, w')
    | (Raise e, w') => h e w'
    end.

(** [for x in xs: body x] *)
Fixpoint for_each {S A} (xs : list A) (body : A -> M S unit) : M S unit :=
  match xs with
  | [] => ret tt
  | x :: rest => body x ;;; for_each rest body
  end.

End Py.

(** ** [Agent/support_case_agent.py] *)

Module SupportCaseAgent.
Import Py.

Definition SECRET_ID : string := "support_mcp_server/cognito/credentials".
Definition SSM_AGENT_ARN_PARAM : string := "/support_mcp_server/runtime/agent_arn".

(** The arguments [create_streamable_http_transport] hands to
    [streamablehttp_client]; the connection itself is opened later, by the
    MCP client. *)
Record transport : Type := streamablehttp_client {
  mcp_url : string;
  headers : dict;
  timeout_seconds : Z;
  terminate_on_close : bool
}.

(** The [SecretString] kept under [SECRET_ID]: JSON text, held as the document
    [json.loads] returns for it, or text that [json.loads] rejects. *)
Inductive secret_string : Type :=
| JsonText (document : json)
| NotJson (decode_error : string).

Definition json_loads (s : secret_string) : outcome json :=
  match s with
  | JsonText v => Return v
  | NotJson m => Raise (PyError m)
  end.

Definition json_dumps (v : json) : secret_string := JsonText v.

(** What the process does to the outside world, in order.  [Enter_run_once]
    and [Enter_refresh_token] are ghost marks for the entry of the two
    functions; the others are the calls that leave the process. *)
Inductive call : Type :=
| Enter_run_once
| Enter_refresh_token
| Ssm_get_parameter (Name : string)
| Secrets_get_secret_value (SecretId : string)
| Secrets_update_secret (SecretId : string) (SecretString : secret_string)
| Cognito_initiate_auth (ClientId USERNAME PASSWORD : json)
| Mcp_session (factory_result : outcome transport) (user_input : json)
              (system_prompt : string).

(** The secret store holds one document (single request, no other writer);
    [trace] is the history of calls and its length is the logical clock. *)
Record world : Type := {
  secret : secret_string;
  trace : list call
}.

Definition clock (w : world) : nat := length (trace w).

(** The environment.  Every oracle takes the clock, so two calls with equal
    arguments may be answered differently.
    - [REGION]: [boto_session.region_name], [None] when unset;
    - [ssm_get_parameter]: [get_parameter(Name=..)['Parameter']['Value']];
    - [get_secret_value_fault], [update_secret_fault]: a failure of the
      Secrets Manager call (missing secret, throttling, no [SecretString]),
      or [None] when the call goes through;
    - [initiate_auth]: the Cognito response document;
    - [mcp_session]: everything between entering [with MCPClient(..)] and
      leaving it: the events [agent.stream_async] delivers and, when the
      session, the tool listing or the stream fails, the exception;
      it receives the result of the transport factory, which the MCP client
      calls once when the [with] block is entered;
    - [py_str]: Python's rendering of a non-string value inside an f-string;
    - [get_system_prompt]: the prompt text with the wall-clock time in it. *)
Record env : Type := {
  REGION : option string;
  ssm_get_parameter : nat -> string -> outcome string;
  get_secret_value_fault : nat -> string -> option exn;
  update_secret_fault : nat -> string -> secret_string -> option exn;
  initiate_auth : nat -> json -> json -> json -> outcome json;
  mcp_session : nat -> outcome transport -> json -> string -> list dict * option exn;
  py_str : json -> string;
  get_system_prompt : nat -> string
}.

Definition M (A : Type) : Type := Py.M world A.

Definition logged (c : call) (w : world) : world :=
  {| secret := secret w; trace := trace w ++ [c] |}.

Definition record (c : call) : M unit := fun w => (Return tt, logged c w).

(** *** The external calls *)

Definition ssm_get_parameter_value (E : env) (Name : string) : M string :=
  fun w => (ssm_get_parameter E (clock w) Name, logged (Ssm_get_parameter Name) w).

Definition secrets_get_secret_value (E : env) (SecretId : string) : M secret_string :=
  fun w =>
    let w' := logged (Secrets_get_secret_value SecretId) w in
    match get_secret_value_fault E (clock w) SecretId with
    | Some e => (Raise e, w')
    | None => (Return (secret w), w')
    end.

Definition secrets_update_secret (E : env) (SecretId : string)
    (SecretString : secret_string) : M unit :=
  fun w =>
    let c := Secrets_update_secret SecretId SecretString in
    match update_secret_fault E (clock w) SecretId SecretString with
    | Some e => (Raise e, logged c w)
    | None => (Return tt, {| secret := SecretString; trace := trace w ++ [c] |})
    end.

Definition cognito_initiate_auth (E : env) (ClientId USERNAME PASSWORD : json) : M json :=
  fun w => (initiate_auth E (clock w) ClientId USERNAME PASSWORD,
            logged (Cognito_initiate_auth ClientId USERNAME PASSWORD) w).

(** [secret_data[k] = v] *)
Definition setitem (d : json) (k : string) (v : json) : outcome json :=
  match d with
  | JObj fields => Return (JObj (dict_set k v fields))
  | _ => Raise (PyError ("'" ++ type_name d ++ "' object does not support item assignment"))
  end.

(** [f"{v}"] *)
Definition format (E : env) (v : json) : string :=
  match v with
  | JStr s => s
  | _ => py_str E v
  end.

Definition format_region (E : env) : string :=
  match REGION E with
  | Some r => r
  | None => "None"
  end.

(** *** [refresh_token] (lines 156-182) *)
Definition refresh_token (E : env) : M unit :=
  record Enter_refresh_token ;;;
  try_except
    (secret_value <- secrets_get_secret_value E SECRET_ID ;;
     secret_data <- lift (json_loads secret_value) ;;
     client_id <- lift (subscript secret_data "client_id") ;;
     auth_parameters <- lift (subscript secret_data "AuthParameters") ;;
     AuthParameters_username <- lift (subscript auth_parameters "USERNAME") ;;
     auth_parameters' <- lift (subscript secret_data "AuthParameters") ;;
     AuthParameters_password <- lift (subscript auth_parameters' "PASSWORD") ;;
     auth_response <- cognito_initiate_auth E client_id AuthParameters_username
                        AuthParameters_password ;;
     authentication_result <- lift (subscript auth_response "AuthenticationResult") ;;
     refreshed_bearer_token <- lift (subscript authentication_result "AccessToken") ;;
     secret_data' <- lift (setitem secret_data "bearer_token" refreshed_bearer_token) ;;
     secrets_update_secret E SECRET_ID (json_dumps secret_data'))
    (fun e => raise e).

(** *** [create_streamable_http_transport] (lines 184-211) *)
Definition create_streamable_http_transport (E : env) : M transport :=
  try_except
    (agent_arn <- ssm_get_parameter_value E SSM_AGENT_ARN_PARAM ;;
     secret_value <- secrets_get_secret_value E SECRET_ID ;;
     parsed_secret <- lift (json_loads secret_value) ;;
     bearer_token <- lift (subscript parsed_secret "bearer_token") ;;
     let encoded_arn := replace "/" "%2F" (replace ":" "%3A" agent_arn) in
     let mcp_url := ("https://bedrock-agentcore." ++ format_region E
                     ++ ".amazonaws.com/runtimes/" ++ encoded_arn
                     ++ "/invocations?qualifier=DEFAULT")%string in
     let headers := [("authorization", JStr ("Bearer " ++ format E bearer_token));
                     ("Content-Type", JStr "application/json")] in
     ret (streamablehttp_client mcp_url headers 120 false))
    (fun e => raise e).

(** *** Generators

    A generator run to its end: the items it yielded, how it ended, and the
    world it left.  Streams are finite; a stream that never ends is outside
    the model, and so is a consumer that abandons the stream early. *)
Definition Gen (I : Type) : Type := world -> list I * outcome unit * world.

Definition gyield {I} (x : I) : Gen I := fun w => ([x], Return tt, w).

Definition gpass {I} : Gen I := fun w => ([], Return tt, w).

Definition gseq {I} (g1 g2 : Gen I) : Gen I :=
  fun w =>
    match g1 w with
    | (out1, Return _, w1) =>
        match g2 w1 with
        | (out2, r, w2) => (out1 ++ out2, r, w2)
        end
    | (out1, Raise e, w1) => (out1, Raise e, w1)
    end.

(** run a plain function, then continue as a generator *)
Definition gbind {A I} (m : M A) (k : A -> Gen I) : Gen I :=
  fun w =>
    match m w with
    | (Return a, w') => k a w'
    | (Raise e, w') => ([], Raise e, w')
    end.

(** [try: g except Exception as e: h e]; what [g] yielded stays delivered *)
Definition gtry {I} (g : Gen I) (h : exn -> Gen I) : Gen I :=
  fun w =>
    match g w with
    | (out, Return _, w') => (out, Return tt, w')
    | (out, Raise e, w') =>
        match h e w' with
        | (out2, r, w'') => (out ++ out2, r, w'')
        end
    end.

(** the loop body once per item, then the way the iterated stream ended *)
Fixpoint for_items {I J} (body : I -> Gen J) (items : list I)
    (ending : outcome unit) : Gen J :=
  match items with
  | [] => fun w => ([], ending, w)
  | x :: rest => gseq (body x) (for_items body rest ending)
  end.

(** [async for x in g: body x] *)
Definition async_for {I J} (g : Gen I) (body : I -> Gen J) : Gen J :=
  fun w =>
    match g w with
    | (items, ending, w') => for_items body items ending w'
    end.

(** the call of the transport factory made by the MCP client: its result,
    raised or returned, goes to the client, not to our code *)
Definition call_factory (E : env) : M (outcome transport) :=
  fun w =>
    match create_streamable_http_transport E w with
    | (r, w') => (Return r, w')
    end.

(** [with MCPClient(factory): tools = ..; agent = Agent(..);
     async for event in agent.stream_async(user_input)] as a stream of events *)
Definition stream_async (E : env) (factory_result : outcome transport)
    (user_input : json) (system_prompt : string) : Gen dict :=
  fun w =>
    match mcp_session E (clock w) factory_result user_input system_prompt with
    | (events, ending) =>
        (events,
         match ending with None => Return tt | Some e => Raise e end,
         logged (Mcp_session factory_result user_input system_prompt) w)
    end.

(** *** [_run_once] (lines 104-127) *)
Definition _run_once (E : env) (user_input : json) (system_prompt : string) : Gen json :=
  gbind (record Enter_run_once) (fun _ =>
  gbind (call_factory E) (fun factory_result =>
  async_for (stream_async E factory_result user_input system_prompt) (fun event =>
    match dict_get "data" event with
    | Some data => gyield data
    | None => gpass
    end))).

(** the item that ends a failed stream *)
Definition error_item (message type : string) : json :=
  JObj [("error", JStr message); ("type", JStr type)].

(** the test of line 141 *)
Definition token_expired (err_msg : string) : bool :=
  contains "client initialization failed" (lower err_msg).

(** *** [run_with_retry] (lines 130-152) *)
Definition run_with_retry (E : env) (user_input : json) (system_prompt : string) : Gen json :=
  gtry
    (async_for (_run_once E user_input system_prompt) gyield)
    (fun e =>
       let err_msg := str e in
       if token_expired err_msg then
         gtry
           (gbind (refresh_token E) (fun _ =>
            async_for (_run_once E user_input system_prompt) gyield))
           (fun e2 => gyield (error_item (str e2) "stream_error"))
       else
         gyield (error_item err_msg "stream_error")).

(** *** [strands_agent_bedrock] (lines 217-237) *)
Definition strands_agent_bedrock (E : env) (payload : json) : Gen json :=
  gtry
    (gbind (lift (get_default payload "prompt"
                    (JStr "show me the case in the past four weeks?"))) (fun user_input =>
     gbind (fun w => (Return (get_system_prompt E (clock w)), w)) (fun system_prompt =>
     async_for (run_with_retry E user_input system_prompt) gyield)))
    (fun e => gyield (error_item (str e) "entrypoint_error")).

End SupportCaseAgent.

(** ** The IAM and STS services, as both [aws_setup.py] files use them *)

Module Iam.
Import Py.

(** The parts of the boto3 responses that the sources read. *)
Record role_info : Type := { Arn : string }.
Record role_response : Type := { Role : role_info }.
Record attached_policy : Type := { PolicyName : string; PolicyArn : string }.

(** The requests sent, with their keyword arguments. *)
Inductive call : Type :=
| Sts_get_caller_identity
| Get_role (RoleName : string)
| Create_role (RoleName : string) (AssumeRolePolicyDocument : json)
              (Description : option string)
| Put_role_policy (PolicyDocument : json) (PolicyName RoleName : string)
| List_role_policies (RoleName : string) (MaxItems : Z)
| Delete_role_policy (RoleName PolicyName : string)
| Delete_role (RoleName : string)
| List_attached_role_policies (RoleName : string)
| Attach_role_policy (RoleName PolicyArn : string).

(** The services are not given a state: what each request answers is the
    environment's choice, so that other provisioning runs, races and faults
    are all covered.  The clock is the number of requests sent so far.
    - [region_name]: [Session().region_name];
    - [get_caller_identity]: the ["Account"] of the response;
    - [list_role_policies]: the ['PolicyNames'] of the response;
    - [list_attached_role_policies]: its ['AttachedPolicies']. *)
Record env : Type := {
  region_name : option string;
  get_caller_identity : nat -> outcome string;
  get_role : nat -> string -> outcome role_response;
  create_role : nat -> string -> json -> option string -> outcome role_response;
  put_role_policy : nat -> json -> string -> string -> option exn;
  list_role_policies : nat -> string -> Z -> outcome (list string);
  delete_role_policy : nat -> string -> string -> option exn;
  delete_role : nat -> string -> option exn;
  list_attached_role_policies : nat -> string -> outcome (list attached_policy);
  attach_role_policy : nat -> string -> string -> outcome json
}.

(** The state threaded through a provisioning run is the list of requests
    sent so far. *)
Definition Run (A : Type) : Type := M (list call) A.

Definition request {A} (c : call) (answer : nat -> outcome A) : Run A :=
  fun sent => (answer (length sent), sent ++ [c]).

Definition done_or_raise (r : option exn) : outcome unit :=
  match r with
  | None => Return tt
  | Some e => Raise e
  end.

Definition sts_get_caller_identity (E : env) : Run string :=
  request Sts_get_caller_identity (get_caller_identity E).

Definition iam_get_role (E : env) (RoleName : string) : Run role_response :=
  request (Get_role RoleName) (fun t => get_role E t RoleName).

Definition iam_create_role (E : env) (RoleName : string)
    (AssumeRolePolicyDocument : json) (Description : option string) : Run role_response :=
  request (Create_role RoleName AssumeRolePolicyDocument Description)
    (fun t => create_role E t RoleName AssumeRolePolicyDocument Description).

Definition iam_put_role_policy (E : env) (PolicyDocument : json)
    (PolicyName RoleName : string) : Run unit :=
  request (Put_role_policy PolicyDocument PolicyName RoleName)
    (fun t => done_or_raise (put_role_policy E t PolicyDocument PolicyName RoleName)).

Definition iam_list_role_policies (E : env) (RoleName : string) (MaxItems : Z)
    : Run (list string) :=
  request (List_role_policies RoleName MaxItems)
    (fun t => list_role_policies E t RoleName MaxItems).

Definition iam_delete_role_policy (E : env) (RoleName PolicyName : string) : Run unit :=
  request (Delete_role_policy RoleName PolicyName)
    (fun t => done_or_raise (delete_role_policy E t RoleName PolicyName)).

Definition iam_delete_role (E : env) (RoleName : string) : Run unit :=
  request (Delete_role RoleName)
    (fun t => done_or_raise (delete_role E t RoleName)).

Definition iam_list_attached_role_policies (E : env) (RoleName : string)
    : Run (list attached_policy) :=
  request (List_attached_role_policies RoleName)
    (fun t => list_attached_role_policies E t RoleName).

Definition iam_attach_role_policy (E : env) (RoleName PolicyArn : string) : Run json :=
  request (Attach_role_policy RoleName PolicyArn)
    (fun t => attach_role_policy E t RoleName PolicyArn).

(** [f"{region}"] *)
Definition format_region (region : option string) : string :=
  match region with
  | Some r => r
  | None => "None"
  end.

(** [ROLE_NAME_TEMPLATE.format(agent_name=agent_name)], the template being
    ['agentcore-{agent_name}-role'] in both deployments *)
Definition ROLE_NAME_TEMPLATE (agent_name : string) : string :=
  "agentcore-" ++ agent_name ++ "-role".

(** the [if existing_arn:] test on a [str or None] *)
Definition truthy (v : option string) : bool :=
  match v with
  | None => false
  | Some s => negb (String.eqb s "")
  end.

(** [except ClientError as e: if e.response['Error']['Code'] == code] *)
Definition has_code (e : exn) (code : string) : bool :=
  match e with
  | ClientError c _ => String.eqb c code
  | PyError _ => false
  end.

End Iam.

(** ** [Agent/aws_setup.py] *)

Module AgentSetup.
Import Py Iam.

Definition POLICY_NAME : string := "AgentExecutionPolicy".

(** [_get_role_policy] (lines 26-181) and [_get_assume_role_policy] (184-209) *)
Definition _get_role_policy (region : option string) (account_id : string) (agent_name : string) : json :=
  JObj [
    ("Version", JStr "2012-10-17");
    ("Statement", JArr [
      JObj [
        ("Sid", JStr "ECRImageAccess");
        ("Effect", JStr "Allow");
        ("Action", JArr [
          JStr "ecr:BatchGetImage";
          JStr "ecr:GetDownloadUrlForLayer";
          JStr "ecr:GetAuthorizationToken"]);
        ("Resource", JStr "*")];
      JObj [
        ("Sid", JStr "SecretsManagerAccess");
        ("Effect", JStr "Allow");
        ("Action", JArr [
          JStr "secretsmanager:GetSecretValue";
          JStr "secretsmanager:DescribeSecret";
          JStr "secretsmanager:UpdateSecret";
          JStr "secretsmanager:CreateSecret"]);
        ("Resource", JStr "*")];
      JObj [
        ("Sid", JStr "SSMParameterAccess");
        ("Effect", JStr "Allow");
        ("Action", JArr [
          JStr "ssm:GetParameter";
          JStr "ssm:GetParameters";
          JStr "ssm:PutParameter"]);
        ("Resource", JStr "*")];
      JObj [
        ("Sid", JStr "SupportAPIAccess");
        ("Effect", JStr "Allow");
        ("Action", JArr [
          JStr "support:*"]);
        ("Resource", JStr "*")];
      JObj [
        ("Effect", JStr "Allow");
        ("Action", JArr [
          JStr "logs:DescribeLogStreams";
          JStr "logs:CreateLogGroup";
          JStr "logs:CreateLogStream";
          JStr "logs:PutLogEvents";
          JStr "logs:DescribeLogGroups"]);
        ("Resource", JStr "*")];
      JObj [
        ("Effect", JStr "Allow");
        ("Action", JArr [
          JStr "xray:PutTraceSegments";
          JStr "xray:PutTelemetryRecords";
          JStr "xray:GetSamplingRules";
          JStr "xray:GetSamplingTargets"]);
        ("Resource", JStr "*")];
      JObj [
        ("Effect", JStr "Allow");
        ("Resource", JStr "*");
        ("Action", JStr "cloudwatch:PutMetricData");
        ("Condition", JObj [
          ("StringEquals", JObj [
            ("cloudwatch:namespace", JStr "bedrock-agentcore")])])];
      JObj [
        ("Sid", JStr "BedrockAgentCoreRuntime");
        ("Effect", JStr "Allow");
        ("Action", JArr [
          JStr "bedrock-agentcore:InvokeAgentRuntime"]);
        ("Resource", JStr "*")];
      JObj [
        ("Sid", JStr "BedrockAgentCoreMemoryCreateMemory");
        ("Effect", JStr "Allow");
        ("Action", JArr [
          JStr "bedrock-agentcore:CreateMemory"]);
        ("Resource", JStr "*")];
      JObj [
        ("Sid", JStr "BedrockAgentCoreMemory");
        ("Effect", JStr "Allow");
        ("Action", JArr [
          JStr "bedrock-agentcore:CreateEvent";
          JStr "bedrock-agentcore:GetEvent";
          JStr "bedrock-agentcore:GetMemory";
          JStr "bedrock-agentcore:GetMemoryRecord";
          JStr "bedrock-agentcore:ListActors";
          JStr "bedrock-agentcore:ListEvents";
          JStr "bedrock-agentcore:ListMemoryRecords";
          JStr "bedrock-agentcore:ListSessions";
          JStr "bedrock-agentcore:DeleteEvent";
          JStr "bedrock-agentcore:DeleteMemoryRecord";
          JStr "bedrock-agentcore:RetrieveMemoryRecords"]);
        ("Resource", JStr "*")];
      JObj [
        ("Sid", JStr "BedrockAgentCoreIdentityGetResourceApiKey");
        ("Effect", JStr "Allow");
        ("Action", JArr [
          JStr "bedrock-agentcore:GetResourceApiKey"]);
        ("Resource", JStr "*")];
      JObj [
        ("Sid", JStr "BedrockAgentCoreIdentityGetResourceOauth2Token");
        ("Effect", JStr "Allow");
        ("Action", JArr [
          JStr "bedrock-agentcore:GetResourceOauth2Token"]);
        ("Resource", JStr "*")];
      JObj [
        ("Sid", JStr "BedrockAgentCoreIdentityGetWorkloadAccessToken");
        ("Effect", JStr "Allow");
        ("Action", JArr [
          JStr "bedrock-agentcore:GetWorkloadAccessToken";
          JStr "bedrock-agentcore:GetWorkloadAccessTokenForJWT";
          JStr "bedrock-agentcore:GetWorkloadAccessTokenForUserId"]);
        ("Resource", JStr "*")];
      JObj [
        ("Sid", JStr "BedrockModelInvocation");
        ("Effect", JStr "Allow");
        ("Action", JArr [
          JStr "bedrock:InvokeModel";
          JStr "bedrock:InvokeModelWithResponseStream";
          JStr "bedrock:ApplyGuardrail"]);
        ("Resource", JStr "*")]])].

Definition _get_assume_role_policy (region : option string) (account_id : string) : json :=
  JObj [
    ("Version", JStr "2012-10-17");
    ("Statement", JArr [
      JObj [
        ("Effect", JStr "Allow");
        ("Principal", JObj [
          ("Service", JStr "bedrock-agentcore.amazonaws.com")]);
        ("Action", JStr "sts:AssumeRole");
        ("Condition", JObj [
          ("StringEquals", JObj [
            ("aws:SourceAccount", JStr account_id)]);
          ("ArnLike", JObj [
            ("aws:SourceArn", JStr ("arn:aws:bedrock-agentcore:" ++ format_region region ++ ":" ++ account_id ++ ":*"))])])]])].

(** [get_existing_role_arn] (lines 212-230) *)
Definition get_existing_role_arn (E : env) (agent_name : string) : Run (option string) :=
  let role_name := ROLE_NAME_TEMPLATE agent_name in
  try_except
    (response <- iam_get_role E role_name ;;
     ret (Some (Arn (Role response))))
    (fun e => if has_code e "NoSuchEntity" then ret None else raise e).

(** [create_agentcore_role] (lines 233-276); [time.sleep] has no effect here *)
Definition create_agentcore_role (E : env) (agent_name : string) : Run role_response :=
  let role_name := ROLE_NAME_TEMPLATE agent_name in
  let region := region_name E in
  account_id <- sts_get_caller_identity E ;;
  let role_policy := _get_role_policy region account_id agent_name in
  let assume_role_policy := _get_assume_role_policy region account_id in
  try_except
    (role <- iam_create_role E role_name assume_role_policy
               (Some ("Execution role for Bedrock AgentCore agent: " ++ agent_name)%string) ;;
     let policy_name := (POLICY_NAME ++ "-" ++ agent_name)%string in
     iam_put_role_policy E role_policy policy_name role_name ;;;
     ret role)
    (fun e =>
       if has_code e "EntityAlreadyExists" then
         response <- iam_get_role E role_name ;;
         ret response
       else raise e).

(** [ensure_role_policy_updated] (lines 279-299) *)
Definition ensure_role_policy_updated (E : env) (role_name agent_name : string) : Run unit :=
  let region := region_name E in
  account_id <- sts_get_caller_identity E ;;
  let expected_policy := _get_role_policy region account_id agent_name in
  let policy_name := (POLICY_NAME ++ "-" ++ agent_name)%string in
  try_except
    (iam_put_role_policy E expected_policy policy_name role_name)
    (fun e => raise e).

(** [get_or_create_role] (lines 301-324) *)
Definition get_or_create_role (E : env) (agent_name : string) : Run string :=
  let role_name := ROLE_NAME_TEMPLATE agent_name in
  existing_arn <- get_existing_role_arn E agent_name ;;
  if truthy existing_arn then
    ensure_role_policy_updated E role_name agent_name ;;;
    ret (match existing_arn with Some arn => arn | None => "" end)
  else
    role_response <- create_agentcore_role E agent_name ;;
    ret (Arn (Role role_response)).

End AgentSetup.

(** ** [MCP/aws_setup.py] *)

Module McpSetup.
Import Py Iam.

Definition POLICY_NAME : string := "AgentCorePolicy".
Definition ROLE_CREATION_WAIT_SECONDS : Z := 10.
Definition MAX_POLICIES_TO_LIST : Z := 100.

(** [_get_role_policy] (lines 181-280) and [_get_assume_role_policy] (283-309) *)
Definition _get_role_policy (region : option string) (account_id : string) (agent_name : string) : json :=
  JObj [
    ("Version", JStr "2012-10-17");
    ("Statement", JArr [
      JObj [
        ("Sid", JStr "BedrockPermissions");
        ("Effect", JStr "Allow");
        ("Action", JArr [
          JStr "bedrock:InvokeModel";
          JStr "bedrock:InvokeModelWithResponseStream"]);
        ("Resource", JStr "*")];
      JObj [
        ("Sid", JStr "ECRImageAccess");
        ("Effect", JStr "Allow");
        ("Action", JArr [
          JStr "ecr:BatchGetImage";
          JStr "ecr:GetDownloadUrlForLayer";
          JStr "ecr:GetAuthorizationToken"]);
        ("Resource", JArr [
          JStr ("arn:aws:ecr:" ++ format_region region ++ ":" ++ account_id ++ ":repository/*")])];
      JObj [
        ("Effect", JStr "Allow");
        ("Action", JArr [
          JStr "logs:DescribeLogStreams";
          JStr "logs:CreateLogGroup"]);
        ("Resource", JArr [
          JStr ("arn:aws:logs:" ++ format_region region ++ ":" ++ account_id ++ ":log-group:/aws/bedrock-agentcore/runtimes/*")])];
      JObj [
        ("Effect", JStr "Allow");
        ("Action", JArr [
          JStr "logs:DescribeLogGroups"]);
        ("Resource", JArr [
          JStr ("arn:aws:logs:" ++ format_region region ++ ":" ++ account_id ++ ":log-group:*")])];
      JObj [
        ("Effect", JStr "Allow");
        ("Action", JArr [
          JStr "logs:CreateLogStream";
          JStr "logs:PutLogEvents"]);
        ("Resource", JArr [
          JStr ("arn:aws:logs:" ++ format_region region ++ ":" ++ account_id ++ ":log-group:/aws/bedrock-agentcore/runtimes/*:log-stream:*")])];
      JObj [
        ("Sid", JStr "ECRTokenAccess");
        ("Effect", JStr "Allow");
        ("Action", JArr [
          JStr "ecr:GetAuthorizationToken"]);
        ("Resource", JStr "*")];
      JObj [
        ("Effect", JStr "Allow");
        ("Action", JArr [
          JStr "xray:PutTraceSegments";
          JStr "xray:PutTelemetryRecords";
          JStr "xray:GetSamplingRules";
          JStr "xray:GetSamplingTargets"]);
        ("Resource", JArr [
          JStr "*"])];
      JObj [
        ("Effect", JStr "Allow");
        ("Resource", JStr "*");
        ("Action", JStr "cloudwatch:PutMetricData");
        ("Condition", JObj [
          ("StringEquals", JObj [
            ("cloudwatch:namespace", JStr "bedrock-agentcore")])])];
      JObj [
        ("Sid", JStr "GetAgentAccessToken");
        ("Effect", JStr "Allow");
        ("Action", JArr [
          JStr "bedrock-agentcore:GetWorkloadAccessToken";
          JStr "bedrock-agentcore:GetWorkloadAccessTokenForJWT";
          JStr "bedrock-agentcore:GetWorkloadAccessTokenForUserId"]);
        ("Resource", JArr [
          JStr ("arn:aws:bedrock-agentcore:" ++ format_region region ++ ":" ++ account_id ++ ":workload-identity-directory/default");
          JStr ("arn:aws:bedrock-agentcore:" ++ format_region region ++ ":" ++ account_id ++ ":workload-identity-directory/default/workload-identity/" ++ agent_name ++ "-*")])]])].

Definition _get_assume_role_policy (region : option string) (account_id : string) : json :=
  JObj [
    ("Version", JStr "2012-10-17");
    ("Statement", JArr [
      JObj [
        ("Sid", JStr "AssumeRolePolicy");
        ("Effect", JStr "Allow");
        ("Principal", JObj [
          ("Service", JStr "bedrock-agentcore.amazonaws.com")]);
        ("Action", JStr "sts:AssumeRole");
        ("Condition", JObj [
          ("StringEquals", JObj [
            ("aws:SourceAccount", JStr account_id)]);
          ("ArnLike", JObj [
            ("aws:SourceArn", JStr ("arn:aws:bedrock-agentcore:" ++ format_region region ++ ":" ++ account_id ++ ":*"))])])]])].

Section WithConfig.

(** [config.AWS_SUPPORT_ACCESS_MANAGED_POLICY_ARN] is imported by the module
    but [config.py] does not define it; its value is left open. *)
Variable AWS_SUPPORT_ACCESS_MANAGED_POLICY_ARN : string.

(** [_cleanup_existing_role] (lines 312-332) *)
Definition _cleanup_existing_role (E : env) (role_name : string) : Run unit :=
  policies <- iam_list_role_policies E role_name MAX_POLICIES_TO_LIST ;;
  for_each policies (fun policy_name =>
    iam_delete_role_policy E role_name policy_name) ;;;
  iam_delete_role E role_name.

(** [_add_managed_policy_to_role] (lines 335-366); the loop returns at the
    first attached policy whose ARN is [policy_arn] *)
Definition _add_managed_policy_to_role (E : env) (role_name policy_arn : string)
    : Run (option json) :=
  try_except
    (attached_policies <- iam_list_attached_role_policies E role_name ;;
     if existsb (fun policy => String.eqb (PolicyArn policy) policy_arn) attached_policies
     then ret None
     else
       response <- iam_attach_role_policy E role_name policy_arn ;;
       ret (Some response))
    (fun e => raise e).

(** [create_agentcore_role] (lines 369-417) *)
Definition create_agentcore_role (E : env) (agent_name : string) : Run role_response :=
  let role_name := ROLE_NAME_TEMPLATE agent_name in
  let region := region_name E in
  account_id <- sts_get_caller_identity E ;;
  let role_policy := _get_role_policy region account_id agent_name in
  let assume_role_policy := _get_assume_role_policy region account_id in
  role <- try_except
    (iam_create_role E role_name assume_role_policy None)
    (fun e =>
       if has_code e "EntityAlreadyExists" then
         _cleanup_existing_role E role_name ;;;
         iam_create_role E role_name assume_role_policy None
       else raise e) ;;
  try_except
    (iam_put_role_policy E role_policy POLICY_NAME role_name)
    (fun e => raise e) ;;;
  _add_managed_policy_to_role E role_name AWS_SUPPORT_ACCESS_MANAGED_POLICY_ARN ;;;
  ret role.

(** [get_existing_role_arn] (lines 420-436) *)
Definition get_existing_role_arn (E : env) (agent_name : string) : Run (option string) :=
  let role_name := ROLE_NAME_TEMPLATE agent_name in
  try_except
    (response <- iam_get_role E role_name ;;
     ret (Some (Arn (Role response))))
    (fun e => if has_code e "NoSuchEntity" then ret None else raise e).

(** [get_or_create_role] (lines 439-458) *)
Definition get_or_create_role (E : env) (agent_name : string) : Run string :=
  existing_arn <- get_existing_role_arn E agent_name ;;
  if truthy existing_arn then
    ret (match existing_arn with Some arn => arn | None => "" end)
  else
    role_response <- create_agentcore_role E agent_name ;;
    ret (Arn (Role role_response)).

End WithConfig.

End McpSetup.

(** ** The specification's wording, as predicates of its own *)

Module Spec.
Import Py.

(** two texts are equal when case is ignored *)
Definition eq_ignoring_case (a b : string) : Prop := lower a = lower b.

(** [msg] contains [needle], compared case-insensitively *)
Definition contains_ignoring_case (needle msg : string) : Prop :=
  exists pre mid post : string,
    msg = (pre ++ mid ++ post)%string /\ eq_ignoring_case mid needle.

(** *** Observations on a run of the agent *)

Import SupportCaseAgent.

Definition is_attempt (c : call) : bool :=
  match c with Enter_run_once => true | _ => false end.

Definition is_refresh (c : call) : bool :=
  match c with Enter_refresh_token => true | _ => false end.

(** a call that is neither a function entry nor an MCP session *)
Definition is_plain (c : call) : bool :=
  match c with
  | Enter_run_once | Enter_refresh_token | Mcp_session _ _ _ => false
  | _ => true
  end.

(** how many times [_run_once] / [refresh_token] were entered *)
Definition attempts (calls : list call) : nat := length (filter is_attempt calls).
Definition refreshes (calls : list call) : nat := length (filter is_refresh calls).

(** what the transport factory gave to each MCP session, in order *)
Definition sessions (calls : list call) : list (outcome transport) :=
  flat_map (fun c => match c with Mcp_session f _ _ => [f] | _ => [] end) calls.

(** the [authorization] header of a transport *)
Definition authorization (tr : transport) : option json :=
  dict_get "authorization" (headers tr).

(** the [bearer_token] field of the stored bundle *)
Definition stored_bearer_token (w : world) : option json :=
  match secret w with
  | JsonText (JObj d) => dict_get "bearer_token" d
  | _ => None
  end.

(** the ["data"] values of a list of events: the content chunks *)
Definition data_chunks (events : list dict) : list json :=
  flat_map (fun event => match dict_get "data" event with
                         | Some data => [data]
                         | None => []
                         end) events.

(** the content chunks delivered by the sessions among [calls], the first of
    which was made at time [t] *)
Fixpoint delivered (E : env) (t : nat) (calls : list call) : list json :=
  match calls with
  | [] => []
  | c :: rest =>
      match c with
      | Mcp_session f user_input system_prompt =>
          data_chunks (fst (mcp_session E t f user_input system_prompt))
      | _ => []
      end ++ delivered E (S t) rest
  end.

(** C9 as worded: a non-empty run of content chunks closed normally, or
    exactly one error item; [chunks] is what the sessions delivered. *)
Definition chunks_or_single_error (chunks out : list json) : Prop :=
  (out <> [] /\ out = chunks) \/
  (exists message type, out = [error_item message type]).

(** how a run ended, read off the calls it made, the first of them at time
    [t]: the last call is an MCP session, which ended with [ending] ([None]
    when the stream closed normally, [Some e] when it failed with [e]) *)
Definition last_session_ended (E : env) (t : nat) (calls : list call)
    (ending : option exn) : Prop :=
  exists before f user_input system_prompt,
    calls = before ++ [Mcp_session f user_input system_prompt] /\
    snd (mcp_session E (t + length before) f user_input system_prompt) = ending.

(** the run from [w] to [w'] ended inside [refresh_token]: the refresh was
    entered after the calls [before], made plain calls only, and raised [e] *)
Definition refresh_failed (E : env) (w w' : world) (calls : list call) (e : exn)
    : Prop :=
  exists before rest,
    calls = before ++ Enter_refresh_token :: rest /\
    forallb is_plain rest = true /\
    refresh_token E {| secret := secret w; trace := trace w ++ before |}
      = (Raise e, w').

End Spec.

(** ** The reconciler claims as worded, and observations on a provisioning run *)

Module SetupSpec.
Import Py Iam.

(** a request that deletes a role or one of its inline policies *)
Definition is_destructive (c : call) : bool :=
  match c with
  | Delete_role _ | Delete_role_policy _ _ => true
  | _ => false
  end.

(** a request that writes an inline policy onto role [role_name] *)
Definition writes_policy (role_name : string) (c : call) : bool :=
  match c with
  | Put_role_policy _ _ r => String.eqb r role_name
  | _ => false
  end.


(** C4 as worded, for an [ensure] operation started on an empty log: when the
    lookup finds the role, an identifier is returned only after an inline
    policy has been written onto that role. *)
Definition writes_policy_when_found (ensure : env -> string -> Run string) : Prop :=
  forall (E : env) (agent_name : string) (found : role_response) (arn : string)
         (sent : list call),
    get_role E 0 (ROLE_NAME_TEMPLATE agent_name) = Return found ->
    Arn (Role found) <> "" ->
    ensure E agent_name [] = (Return arn, sent) ->
    existsb (writes_policy (ROLE_NAME_TEMPLATE agent_name)) sent = true.

End SetupSpec.

(** ** Concrete provisioning runs *)

Module SetupScenario.
Import Py Iam.

Definition agent : string := "awssupportcaseagent".
Definition role_name : string := "agentcore-awssupportcaseagent-role".
Definition account : string := "123456789012".
Definition support_access : string := "arn:aws:iam::aws:policy/AWSSupportAccess".

Definition the_role : role_response :=
  {| Role := {| Arn := "arn:aws:iam::123456789012:role/agentcore-awssupportcaseagent-role" |} |}.

Definition no_such_entity : exn :=
  ClientError "NoSuchEntity"
    "An error occurred (NoSuchEntity) when calling the GetRole operation: The role with name agentcore-awssupportcaseagent-role cannot be found.".

Definition entity_already_exists : exn :=
  ClientError "EntityAlreadyExists"
    "An error occurred (EntityAlreadyExists) when calling the CreateRole operation: Role with name agentcore-awssupportcaseagent-role already exists.".

(** services that answer every request; the role lookups and creations are
    given per scenario *)
Definition make_env (lookup : nat -> outcome role_response)
    (creation : nat -> outcome role_response) : env :=
  {| region_name := Some "us-east-1";
     get_caller_identity := fun _ => Return account;
     get_role := fun t _ => lookup t;
     create_role := fun t _ _ _ => creation t;
     put_role_policy := fun _ _ _ _ => None;
     list_role_policies := fun _ _ _ => Return ["AgentCorePolicy"];
     delete_role_policy := fun _ _ _ => None;
     delete_role := fun _ _ => None;
     list_attached_role_policies := fun _ _ => Return [];
     attach_role_policy := fun _ _ _ => Return (JObj []) |}.

(** the role is there from the start *)
Definition found : env :=
  make_env (fun _ => Return the_role) (fun _ => Raise entity_already_exists).

(** nobody has the role yet *)
Definition fresh : env :=
  make_env (fun _ => Raise no_such_entity) (fun _ => Return the_role).

(** another run creates the role between our lookup (request 0) and our
    creation (request 2) *)
Definition raced : env :=
  make_env
    (fun t => if Nat.eqb t 0 then Raise no_such_entity else Return the_role)
    (fun t => if Nat.eqb t 2 then Raise entity_already_exists else Return the_role).

End SetupScenario.

(** ** Concrete runs: a stored bundle and a few environments *)

Module Scenario.
Import Py SupportCaseAgent.

(** the bundle as [setup_cognito_user_pool] of [MCP/aws_setup.py] lays it out *)
Definition bundle0 : dict :=
  [("pool_id", JStr "us-east-1_Ab12Cd34E");
   ("client_id", JStr "4h57gqa2r1example");
   ("bearer_token", JStr "token-old");
   ("discovery_url", JStr "https://cognito-idp.us-east-1.amazonaws.com/us-east-1_Ab12Cd34E/.well-known/openid-configuration");
   ("AuthParameters", JObj [("USERNAME", JStr "testuser"); ("PASSWORD", JStr "MyPassword123!")])].

Definition world0 : world := {| secret := JsonText (JObj bundle0); trace := [] |}.

Definition prompt : json := JStr "show me the case in the past four weeks?".

Definition issued (token : string) : outcome json :=
  Return (JObj [("AuthenticationResult",
                 JObj [("AccessToken", JStr token); ("TokenType", JStr "Bearer")])]).

Definition init_failure : exn := PyError "the client initialization failed".

(** an environment whose AWS calls all go through; the session is answered
    from the [authorization] header it is opened with *)
Definition make_env (auth : outcome json)
    (session : option json -> list dict * option exn) : env :=
  {| REGION := Some "us-east-1";
     ssm_get_parameter := fun _ _ =>
       Return "arn:aws:bedrock-agentcore:us-east-1:123456789012:runtime/support_mcp-Zx9";
     get_secret_value_fault := fun _ _ => None;
     update_secret_fault := fun _ _ _ => None;
     initiate_auth := fun _ _ _ _ => auth;
     mcp_session := fun _ f _ _ =>
       match f with
       | Return tr => session (dict_get "authorization" (headers tr))
       | Raise e => ([], Some init_failure)
       end;
     py_str := fun _ => "<object>";
     get_system_prompt := fun _ => "# AWS Support Case Management Agent" |}.

Definition has_token (token : string) (header : option json) : bool :=
  match header with
  | Some (JStr h) => String.eqb h ("Bearer " ++ token)
  | _ => false
  end.

Definition answer : list dict :=
  [[("init_event_loop", JBool true)];
   [("data", JStr "You have ")];
   [("data", JStr "3 open cases.")]].

(** the old token is refused after one chunk, the new one is served *)
Definition expired_then_fresh : env :=
  make_env (issued "token-new")
    (fun header =>
       if has_token "token-new" header then (answer, None)
       else ([[("data", JStr "You have ")]], Some init_failure)).

(** every token is refused at session start *)
Definition always_expired : env :=
  make_env (issued "token-new") (fun _ => ([], Some init_failure)).

(** the token is refused and the issuer rejects the stored password *)
Definition refresh_rejected : env :=
  make_env
    (Raise (ClientError "NotAuthorizedException"
       "An error occurred (NotAuthorizedException) when calling the InitiateAuth operation: Incorrect username or password."))
    (fun _ => ([], Some init_failure)).

(** the stream breaks for a reason that has nothing to do with the token *)
Definition connection_lost : env :=
  make_env (issued "token-new")
    (fun _ => ([[("data", JStr "You have ")]], Some (PyError "Connection reset by peer"))).

(** the stream closes normally without a single ["data"] event *)
Definition no_data : env :=
  make_env (issued "token-new")
    (fun _ => ([[("init_event_loop", JBool true)]; [("complete", JBool true)]], None)).

(** the worlds a run goes through: after the first attempt, after the
    refresh, after the second attempt *)
Definition after_first (E : env) : world :=
  snd (_run_once E prompt "sp" world0).
Definition after_refresh (E : env) : world :=
  snd (refresh_token E (after_first E)).
Definition after_second (E : env) : world :=
  snd (_run_once E prompt "sp" (after_refresh E)).

End Scenario.

(** ** [MCP/aws_setup.py]: the Cognito user pool *)

Module McpCognito.
Import Py.

Definition POOL_NAME : string := "AWS-Support-MCPServerPool".
Definition CLIENT_NAME : string := "AWS-Support-MCP-Server-PoolClient".
Definition USERNAME : string := "testuser".
Definition PASSWORD : string := "MyPassword123!".
Definition MAX_POOLS_TO_LIST : Z := 60.

(** [COGNITO_DISCOVERY_URL_TEMPLATE.format(region=.., pool_id=..)] *)
Definition COGNITO_DISCOVERY_URL_TEMPLATE (region : option string) (pool_id : string)
    : string :=
  "https://cognito-idp." ++ Iam.format_region region ++ ".amazonaws.com/"
  ++ pool_id ++ "/.well-known/openid-configuration".

(** The parts of the Cognito responses that the source reads. *)
Record user_pool : Type := { Name : string; Id : string }.
Record user_pool_client : Type := { ClientName : string; ClientId : string }.

Inductive call : Type :=
| List_user_pools (MaxResults : Z)
| List_user_pool_clients (UserPoolId : string)
| Create_user_pool (PoolName : string) (MinimumLength : Z)
| Create_user_pool_client (UserPoolId ClientName : string) (GenerateSecret : bool)
                          (ExplicitAuthFlows : list string)
| Admin_create_user (UserPoolId Username TemporaryPassword MessageAction : string)
| Admin_set_user_password (UserPoolId Username Password : string) (Permanent : bool)
| Initiate_auth (ClientId AuthFlow AuthUSERNAME AuthPASSWORD : string).

(** The Cognito service, answered by the environment like IAM is; the clock
    is the number of requests sent so far.
    - [list_user_pools]: the ['UserPools'] of the response;
    - [list_user_pool_clients]: its ['UserPoolClients'];
    - [create_user_pool]: its ['UserPool']['Id'];
    - [create_user_pool_client]: its ['UserPoolClient']['ClientId'];
    - [initiate_auth]: the whole response document. *)
Record env : Type := {
  region_name : option string;
  list_user_pools : nat -> Z -> outcome (list user_pool);
  list_user_pool_clients : nat -> string -> outcome (list user_pool_client);
  create_user_pool : nat -> string -> Z -> outcome string;
  create_user_pool_client : nat -> string -> string -> outcome string;
  admin_create_user : nat -> string -> string -> option exn;
  admin_set_user_password : nat -> string -> string -> string -> option exn;
  initiate_auth : nat -> string -> string -> string -> outcome json
}.

Definition Run (A : Type) : Type := M (list call) A.

Definition request {A} (c : call) (answer : nat -> outcome A) : Run A :=
  fun sent => (answer (length sent), sent ++ [c]).

(** [_authenticate_user] (lines 33-48) *)
Definition _authenticate_user (E : env) (client_id : string) : Run json :=
  auth_response <-
    request (Initiate_auth client_id "USER_PASSWORD_AUTH" USERNAME PASSWORD)
      (fun t => initiate_auth E t client_id USERNAME PASSWORD) ;;
  authentication_result <- lift (subscript auth_response "AuthenticationResult") ;;
  lift (subscript authentication_result "AccessToken").

(** the inner loop of [_find_existing_pool]: the first client named
    [CLIENT_NAME] *)
Fixpoint find_client (clients : list user_pool_client) : option string :=
  match clients with
  | [] => None
  | client :: rest =>
      if String.eqb (ClientName client) CLIENT_NAME then Some (ClientId client)
      else find_client rest
  end.

(** the outer loop of [_find_existing_pool] *)
Fixpoint find_pool (E : env) (pools : list user_pool)
    : Run (option string * option string) :=
  match pools with
  | [] => ret (None, None)
  | pool :: rest =>
      if String.eqb (Name pool) POOL_NAME then
        clients <- request (List_user_pool_clients (Id pool))
                     (fun t => list_user_pool_clients E t (Id pool)) ;;
        match find_client clients with
        | Some client_id => ret (Some (Id pool), Some client_id)
        | None => find_pool E rest
        end
      else find_pool E rest
  end.

(** [_find_existing_pool] (lines 51-69) *)
Definition _find_existing_pool (E : env) : Run (option string * option string) :=
  pools <- request (List_user_pools MAX_POOLS_TO_LIST)
             (fun t => list_user_pools E t MAX_POOLS_TO_LIST) ;;
  find_pool E pools.

(** [_create_user_pool] (lines 72-114) *)
Definition _create_user_pool (E : env) : Run (string * string) :=
  pool_id <- request (Create_user_pool POOL_NAME 8)
               (fun t => create_user_pool E t POOL_NAME 8) ;;
  client_id <- request
                 (Create_user_pool_client pool_id CLIENT_NAME false
                    ["ALLOW_USER_PASSWORD_AUTH"; "ALLOW_REFRESH_TOKEN_AUTH"])
                 (fun t => create_user_pool_client E t pool_id CLIENT_NAME) ;;
  request (Admin_create_user pool_id USERNAME "Temp123!" "SUPPRESS")
    (fun t => Iam.done_or_raise (admin_create_user E t pool_id USERNAME)) ;;;
  request (Admin_set_user_password pool_id USERNAME PASSWORD true)
    (fun t => Iam.done_or_raise (admin_set_user_password E t pool_id USERNAME PASSWORD)) ;;;
  ret (pool_id, client_id).

(** [boto3.client('cognito-idp', region_name=region)] with the region of the
    session: botocore refuses to build a client when no region is configured
    ([NoRegionError]); no request is sent. *)
Definition cognito_client (E : env) : Run unit :=
  match region_name E with
  | Some _ => ret tt
  | None => raise (PyError "You must specify a region.")
  end.

(** [setup_cognito_user_pool] (lines 117-164); the client is built before the
    [try] (line 124), so its failure is not caught; [None] is the
    [return None] of the handler *)
Definition setup_cognito_user_pool (E : env) : Run (option json) :=
  let region := region_name E in
  cognito_client E ;;;
  try_except
    (found <- _find_existing_pool E ;;
     ids <- (if Iam.truthy (fst found) && Iam.truthy (snd found) then
               ret (match fst found with Some pool_id => pool_id | None => "" end,
                    match snd found with Some client_id => client_id | None => "" end)
             else _create_user_pool E) ;;
     let pool_id := fst ids in
     let client_id := snd ids in
     bearer_token <- _authenticate_user E client_id ;;
     let discovery_url := COGNITO_DISCOVERY_URL_TEMPLATE region pool_id in
     let config :=
       JObj [("pool_id", JStr pool_id);
             ("client_id", JStr client_id);
             ("bearer_token", bearer_token);
             ("discovery_url", JStr discovery_url);
             ("AuthParameters",
              JObj [("USERNAME", JStr USERNAME); ("PASSWORD", JStr PASSWORD)])] in
     ret (Some config))
    (fun e => ret None).

(** [reauthenticate_user] (lines 167-178) *)
Definition reauthenticate_user (E : env) (client_id : string) : Run json :=
  cognito_client E ;;;
  _authenticate_user E client_id.

End McpCognito.

(** ** [MCP/mcp_client_test.py]: the URL and the headers of the test client *)

Module McpClientTest.
Import Py.

(** [config.AGENTCORE_URL_TEMPLATE.format(region=.., encoded_arn=..)] *)
Definition AGENTCORE_URL_TEMPLATE (region : option string) (encoded_arn : string)
    : string :=
  "https://bedrock-agentcore." ++ Iam.format_region region ++ ".amazonaws.com/"
  ++ "runtimes/" ++ encoded_arn ++ "/invocations?qualifier=DEFAULT".

(** [_build_mcp_url] (lines 68-82) *)
Definition _build_mcp_url (agent_arn : string) (region : option string) : string :=
  let encoded_arn := replace "/" "%2F" (replace ":" "%3A" agent_arn) in
  AGENTCORE_URL_TEMPLATE region encoded_arn.

(** [_get_request_headers] (lines 85-97), for a token that is a [str] *)
Definition _get_request_headers (bearer_token : string) : dict :=
  [("authorization", JStr ("Bearer " ++ bearer_token));
   ("Content-Type", JStr "application/json")].

End McpClientTest.

(** ** Concrete user-pool setups *)

Module CognitoScenario.
Import Py McpCognito.

Definition issued (token : string) : outcome json :=
  Return (JObj [("AuthenticationResult",
                 JObj [("AccessToken", JStr token); ("TokenType", JStr "Bearer")])]).

(** a Cognito that answers every request, with the given pools and clients *)
Definition make_env (pools : list user_pool)
    (clients : string -> list user_pool_client) : env :=
  {| region_name := Some "us-east-1";
     list_user_pools := fun _ _ => Return pools;
     list_user_pool_clients := fun _ pool_id => Return (clients pool_id);
     create_user_pool := fun _ _ _ => Return "us-east-1_New000001";
     create_user_pool_client := fun _ _ _ => Return "7newclient0example";
     admin_create_user := fun _ _ _ => None;
     admin_set_user_password := fun _ _ _ _ => None;
     initiate_auth := fun _ _ _ _ => issued "token-setup" |}.

(** the pool and its client are there already, after a pool of another name *)
Definition existing : env :=
  make_env
    [{| Name := "SomeOtherPool"; Id := "us-east-1_Zz99Yy88X" |};
     {| Name := POOL_NAME; Id := "us-east-1_Ab12Cd34E" |}]
    (fun _ => [{| ClientName := "web"; ClientId := "1webclientexample" |};
               {| ClientName := CLIENT_NAME; ClientId := "4h57gqa2r1example" |}]).

(** no pool at all *)
Definition nothing_yet : env := make_env [] (fun _ => []).

(** the same Cognito as [existing], reached from a machine on which no region
    is configured *)
Definition no_region : env :=
  {| region_name := None;
     list_user_pools := list_user_pools existing;
     list_user_pool_clients := list_user_pool_clients existing;
     create_user_pool := create_user_pool existing;
     create_user_pool_client := create_user_pool_client existing;
     admin_create_user := admin_create_user existing;
     admin_set_user_password := admin_set_user_password existing;
     initiate_auth := initiate_auth existing |}.

End CognitoScenario.

(** ** Further observations *)

Module Observe.
Import Py.

(** character [c] occurs in [s] *)
Fixpoint occurs (c : ascii) (s : string) : bool :=
  match s with
  | EmptyString => false
  | String a rest => Ascii.eqb a c || occurs c rest
  end.

(** requests of a provisioning run, by kind *)
Definition is_create_role (c : Iam.call) : bool :=
  match c with Iam.Create_role _ _ _ => true | _ => false end.

Definition is_delete_role (c : Iam.call) : bool :=
  match c with Iam.Delete_role _ => true | _ => false end.

Definition is_attach (c : Iam.call) : bool :=
  match c with Iam.Attach_role_policy _ _ => true | _ => false end.

Definition count (p : Iam.call -> bool) (sent : list Iam.call) : nat :=
  length (filter p sent).

(** calls of the agent, by kind *)
Definition is_initiate_auth (c : SupportCaseAgent.call) : bool :=
  match c with SupportCaseAgent.Cognito_initiate_auth _ _ _ => true | _ => false end.

Definition is_update_secret (c : SupportCaseAgent.call) : bool :=
  match c with SupportCaseAgent.Secrets_update_secret _ _ => true | _ => false end.

(** requests to Cognito that only list: pools, or the clients of a pool *)
Definition is_listing (c : McpCognito.call) : bool :=
  match c with
  | McpCognito.List_user_pools _
  | McpCognito.List_user_pool_clients _ => true
  | _ => false
  end.

End Observe.

(* ===================================================================== *)
(** * Part II: theorems                                                    *)
(* ===================================================================== *)

(** ** Strings *)

Module PyFacts.
Import Py.

Lemma startswith_spec (p s : string) :
  startswith p s = true <-> exists rest, s = (p ++ rest)%string.
Proof.
  revert s; induction p as [|a p IH]; intros s; simpl.
  - split; [intros _; exists s; reflexivity | reflexivity].
  - destruct s as [|b s]; simpl.
    + split; [discriminate | intros [rest H]; discriminate].
    + rewrite andb_true_iff, Ascii.eqb_eq, IH. split.
      * intros [-> [rest ->]]. exists rest; reflexivity.
      * intros [rest H]. injection H as -> ->. split; [reflexivity | eauto].
Qed.

Lemma contains_spec (needle hay : string) :
  contains needle hay = true <->
  exists pre post, hay = (pre ++ needle ++ post)%string.
Proof.
  induction hay as [|c hay IH].
  - simpl. rewrite orb_false_r, startswith_spec. split.
    + intros [rest H]. exists EmptyString, rest. exact H.
    + intros [pre [post H]]. destruct pre; [eauto | discriminate].
  - cbn [contains]. rewrite orb_true_iff, startswith_spec, IH. split.
    + intros [[rest H] | [pre [post H]]].
      * exists EmptyString, rest. exact H.
      * exists (String c pre), post. simpl. rewrite H. reflexivity.
    + intros [pre [post H]]. destruct pre as [|a pre]; simpl in H.
      * left. eauto.
      * right. injection H as _ H. eauto.
Qed.

Lemma lower_app (a b : string) : lower (a ++ b) = (lower a ++ lower b)%string.
Proof. induction a as [|c a IH]; simpl; [reflexivity | rewrite IH; reflexivity]. Qed.

Lemma lower_split (s a b : string) :
  lower s = (a ++ b)%string ->
  exists s1 s2, s = (s1 ++ s2)%string /\ lower s1 = a /\ lower s2 = b.
Proof.
  revert s; induction a as [|c a IH]; intros s H; simpl in H.
  - exists EmptyString, s. auto.
  - destruct s as [|d s]; simpl in H; [discriminate |].
    injection H as Hc Hs. destruct (IH _ Hs) as [s1 [s2 [-> [H1 H2]]]].
    exists (String d s1), s2. simpl. rewrite Hc, H1. auto.
Qed.

Lemma dict_get_set_same (k : string) (v : json) (d : dict) :
  dict_get k (dict_set k v d) = Some v.
Proof.
  induction d as [|[k' v'] d IH]; simpl.
  - rewrite String.eqb_refl. reflexivity.
  - destruct (String.eqb k k') eqn:Hk; simpl; rewrite Hk; [reflexivity | exact IH].
Qed.

Lemma dict_get_set_other (k k' : string) (v : json) (d : dict) :
  k' <> k -> dict_get k' (dict_set k v d) = dict_get k' d.
Proof.
  intros Hne. induction d as [|[k0 v0] d IH]; simpl.
  - destruct (String.eqb k' k) eqn:Hk; [apply String.eqb_eq in Hk; contradiction | reflexivity].
  - destruct (String.eqb k k0) eqn:Hk; simpl.
    + apply String.eqb_eq in Hk. subst k0.
      destruct (String.eqb k' k) eqn:Hk'; [apply String.eqb_eq in Hk'; contradiction | reflexivity].
    + rewrite IH. reflexivity.
Qed.

End PyFacts.

(** ** [support_case_agent.py] *)

Module SupportCaseAgentFacts.
Import Py PyFacts SupportCaseAgent.

(** *** Generators *)

Lemma for_items_yield {I} (items : list I) (ending : outcome unit) (w : world) :
  for_items gyield items ending w = (items, ending, w).
Proof.
  revert w; induction items as [|x items IH]; intros w; simpl; [reflexivity |].
  unfold gseq. change (gyield x w) with ([x], Return tt, w).
  cbv iota beta. rewrite IH. reflexivity.
Qed.

Lemma async_for_yield {I} (g : Gen I) (w : world) : async_for g gyield w = g w.
Proof.
  unfold async_for. destruct (g w) as [[items ending] w'].
  apply for_items_yield.
Qed.

Lemma for_items_data (events : list dict) (ending : outcome unit) (w : world) :
  for_items (fun event => match dict_get "data" event with
                          | Some data => gyield data
                          | None => gpass
                          end) events ending w
  = (Spec.data_chunks events, ending, w).
Proof.
  revert w; induction events as [|ev events IH]; intros w; simpl; [reflexivity |].
  unfold gseq. destruct (dict_get "data" ev) as [data|].
  - change (gyield data w) with ([data], Return tt, w).
    cbv iota beta. rewrite IH. reflexivity.
  - change (@gpass json w) with (@nil json, Return tt, w).
    cbv iota beta. rewrite IH. reflexivity.
Qed.

(** [_run_once] in one piece: mark the entry, let the client call the
    factory, run the session, keep the ["data"] of its events. *)
Lemma run_once_eq (E : env) (user_input : json) (system_prompt : string) (w : world) :
  _run_once E user_input system_prompt w =
  match create_streamable_http_transport E (logged Enter_run_once w) with
  | (f, w1) =>
      match mcp_session E (clock w1) f user_input system_prompt with
      | (events, ending) =>
          (Spec.data_chunks events,
           match ending with None => Return tt | Some e => Raise e end,
           logged (Mcp_session f user_input system_prompt) w1)
      end
  end.
Proof.
  unfold _run_once, gbind, record, call_factory, async_for, stream_async.
  destruct (create_streamable_http_transport E (logged Enter_run_once w)) as [f w1].
  destruct (mcp_session E (clock w1) f user_input system_prompt) as [events ending].
  apply for_items_data.
Qed.

(** *** Counting on traces *)

Lemma attempts_app (a b : list call) :
  Spec.attempts (a ++ b) = Spec.attempts a + Spec.attempts b.
Proof. unfold Spec.attempts. rewrite filter_app, length_app. reflexivity. Qed.

Lemma refreshes_app (a b : list call) :
  Spec.refreshes (a ++ b) = Spec.refreshes a + Spec.refreshes b.
Proof. unfold Spec.refreshes. rewrite filter_app, length_app. reflexivity. Qed.

Lemma sessions_app (a b : list call) :
  Spec.sessions (a ++ b) = Spec.sessions a ++ Spec.sessions b.
Proof. unfold Spec.sessions. apply flat_map_app. Qed.

Lemma delivered_app (E : env) (t : nat) (a b : list call) :
  Spec.delivered E t (a ++ b) =
  Spec.delivered E t a ++ Spec.delivered E (t + length a) b.
Proof.
  revert t; induction a as [|c a IH]; intros t; simpl.
  - rewrite Nat.add_0_r. reflexivity.
  - rewrite IH, <- app_assoc.
    replace (t + S (length a)) with (S t + length a) by lia. reflexivity.
Qed.

Lemma plain_silent (E : env) (d : list call) :
  forallb Spec.is_plain d = true ->
  Spec.attempts d = 0 /\ Spec.refreshes d = 0 /\ Spec.sessions d = [] /\
  forall t, Spec.delivered E t d = [].
Proof.
  induction d as [|c d IH]; simpl; [auto |].
  rewrite andb_true_iff. intros [Hc Hd]. destruct (IH Hd) as (Ha & Hr & Hs & Hv).
  unfold Spec.attempts, Spec.refreshes in *.
  destruct c; try discriminate Hc; simpl; auto.
Qed.

(** *** What the two plain functions do to the world *)

Ltac break_matches :=
  repeat match goal with
    | H : (_, _) = (_, _) |- _ => inversion H; subst; clear H
    | H : context [match ?x with _ => _ end] |- _ => destruct x eqn:?
    end.

Ltac trace_suffix :=
  simpl; rewrite <- ?app_assoc; simpl;
  eexists; split; [reflexivity | reflexivity].

(** The factory leaves the secret as it is and only reads. *)
Lemma factory_effect (E : env) (w w' : world) (r : outcome transport) :
  create_streamable_http_transport E w = (r, w') ->
  secret w' = secret w /\
  exists d, trace w' = trace w ++ d /\ forallb Spec.is_plain d = true.
Proof.
  unfold create_streamable_http_transport, try_except, bind, lift, ret, raise,
    ssm_get_parameter_value, secrets_get_secret_value.
  intros H. break_matches; (split; [reflexivity | trace_suffix]).
Qed.

(** [refresh_token] marks its entry and then makes plain calls only. *)
Lemma refresh_effect (E : env) (w w' : world) (r : outcome unit) :
  refresh_token E w = (r, w') ->
  exists d, trace w' = trace w ++ Enter_refresh_token :: d /\
            forallb Spec.is_plain d = true.
Proof.
  unfold refresh_token, try_except, bind, lift, ret, raise, record,
    secrets_get_secret_value, cognito_initiate_auth, secrets_update_secret.
  intros H. break_matches; trace_suffix.
Qed.

Lemma subscript_Return (v x : json) (k : string) :
  subscript v k = Return x -> exists d, v = JObj d /\ dict_get k d = Some x.
Proof.
  destruct v; simpl; try discriminate.
  destruct (dict_get k fields) eqn:Hk; [|discriminate].
  intros H; injection H as ->. eauto.
Qed.

Lemma subscript_JObj (d : dict) (x : json) (k : string) :
  subscript (JObj d) k = Return x -> dict_get k d = Some x.
Proof.
  simpl. destruct (dict_get k d); [intros H; injection H as ->; reflexivity | discriminate].
Qed.

Lemma json_loads_Return (s : secret_string) (v : json) :
  json_loads s = Return v -> s = JsonText v.
Proof. destruct s; simpl; [intros H; injection H as ->; reflexivity | discriminate]. Qed.

(** C8. A successful [refresh_token] reads the bundle, asks the issuer for a
    token with the bundle's own [client_id], [USERNAME] and [PASSWORD], and
    writes the whole bundle back in one [update_secret] with [bearer_token]
    set to the [AccessToken] just issued: [bearer_token] then holds the new
    token and every other field, [client_id] and [AuthParameters] among them,
    reads as before.  A failed [refresh_token] leaves the stored bundle as it
    was. *)
Theorem refresh_token_overwrites_only_bearer_token
    (E : env) (w w' : world) (r : outcome unit) :
  refresh_token E w = (r, w') ->
  match r with
  | Return _ =>
      exists (bundle : dict) (client_id auth_parameters username password : json)
             (auth_response authentication_result new_token : json),
        secret w = JsonText (JObj bundle) /\
        dict_get "client_id" bundle = Some client_id /\
        dict_get "AuthParameters" bundle = Some auth_parameters /\
        subscript auth_parameters "USERNAME" = Return username /\
        subscript auth_parameters "PASSWORD" = Return password /\
        initiate_auth E (clock w + 2) client_id username password = Return auth_response /\
        subscript auth_response "AuthenticationResult" = Return authentication_result /\
        subscript authentication_result "AccessToken" = Return new_token /\
        let bundle' := dict_set "bearer_token" new_token bundle in
        secret w' = JsonText (JObj bundle') /\
        trace w' = trace w ++
          [Enter_refresh_token;
           Secrets_get_secret_value SECRET_ID;
           Cognito_initiate_auth client_id username password;
           Secrets_update_secret SECRET_ID (JsonText (JObj bundle'))] /\
        dict_get "bearer_token" bundle' = Some new_token /\
        dict_get "client_id" bundle' = Some client_id /\
        dict_get "AuthParameters" bundle' = Some auth_parameters /\
        (forall k, k <> "bearer_token" -> dict_get k bundle' = dict_get k bundle)
  | Raise _ => secret w' = secret w
  end.
Proof.
  unfold refresh_token, try_except, bind, lift, ret, raise, record,
    secrets_get_secret_value, cognito_initiate_auth, secrets_update_secret.
  intros H. destruct r as [u|e].
  - break_matches.
    repeat match goal with
      | H : json_loads _ = Return _ |- _ => apply json_loads_Return in H
      | H : subscript ?v _ = Return _ |- _ =>
          is_var v; let d := fresh "d" in
          destruct (subscript_Return _ _ _ H) as [d [-> _]]
      | H : setitem (JObj _) _ _ = Return _ |- _ => simpl in H; injection H as <-
      end.
    do 8 eexists.
    split; [eassumption |].
    split; [apply subscript_JObj; eassumption |].
    split; [apply subscript_JObj; eassumption |].
    split; [eassumption |].
    split; [eassumption |].
    split.
    { match goal with
      | H : initiate_auth E ?t _ _ _ = _ |- _ =>
          replace (clock w + 2) with t;
          [exact H | unfold clock, logged; simpl; rewrite !length_app; simpl; lia]
      end. }
    split; [eassumption |].
    split; [eassumption |].
    cbv zeta. split; [reflexivity |].
    split; [simpl; rewrite <- !app_assoc; reflexivity |].
    split; [apply dict_get_set_same |].
    split; [rewrite dict_get_set_other by discriminate;
            apply subscript_JObj; eassumption |].
    split; [rewrite dict_get_set_other by discriminate;
            apply subscript_JObj; eassumption |].
    intros k Hk. apply dict_get_set_other. exact Hk.
  - break_matches; reflexivity.
Qed.

(** After a successful refresh the store holds a bearer token. *)
Lemma refresh_stores_token (E : env) (w w' : world) (u : unit) :
  refresh_token E w = (Return u, w') ->
  exists new_token, Spec.stored_bearer_token w' = Some new_token.
Proof.
  unfold refresh_token, try_except, bind, lift, ret, raise, record,
    secrets_get_secret_value, cognito_initiate_auth, secrets_update_secret.
  intros H. break_matches.
  repeat match goal with
    | H : subscript ?v _ = Return _ |- _ =>
        is_var v; let d := fresh "d" in
        destruct (subscript_Return _ _ _ H) as [d [-> _]]
    | H : setitem (JObj _) _ _ = Return _ |- _ => simpl in H; injection H as <-
    end.
  eexists. unfold Spec.stored_bearer_token. simpl. apply dict_get_set_same.
Qed.

(** *** The five ways through [run_with_retry] *)

Section RunWithRetry.

Variable E : env.
Variable user_input : json.
Variable system_prompt : string.

Lemma run_first_attempt_succeeds (w w1 : world) (out1 : list json) (u : unit) :
  _run_once E user_input system_prompt w = (out1, Return u, w1) ->
  run_with_retry E user_input system_prompt w = (out1, Return tt, w1).
Proof.
  intros H. unfold run_with_retry, gtry.
  rewrite async_for_yield. rewrite H. reflexivity.
Qed.

Lemma run_other_failure (w w1 : world) (out1 : list json) (e : exn) :
  _run_once E user_input system_prompt w = (out1, Raise e, w1) ->
  token_expired (str e) = false ->
  run_with_retry E user_input system_prompt w =
    (out1 ++ [error_item (str e) "stream_error"], Return tt, w1).
Proof.
  intros H Hc. unfold run_with_retry, gtry at 1.
  rewrite async_for_yield. rewrite H, Hc. reflexivity.
Qed.

Lemma run_refresh_fails (w w1 w2 : world) (out1 : list json) (e e2 : exn) :
  _run_once E user_input system_prompt w = (out1, Raise e, w1) ->
  token_expired (str e) = true ->
  refresh_token E w1 = (Raise e2, w2) ->
  run_with_retry E user_input system_prompt w =
    (out1 ++ [error_item (str e2) "stream_error"], Return tt, w2).
Proof.
  intros H Hc Hr. unfold run_with_retry, gtry at 1.
  rewrite async_for_yield. rewrite H, Hc.
  unfold gtry, gbind. rewrite Hr. reflexivity.
Qed.

Lemma run_second_attempt_succeeds (w w1 w2 w3 : world) (out1 out2 : list json)
    (e : exn) (u u' : unit) :
  _run_once E user_input system_prompt w = (out1, Raise e, w1) ->
  token_expired (str e) = true ->
  refresh_token E w1 = (Return u, w2) ->
  _run_once E user_input system_prompt w2 = (out2, Return u', w3) ->
  run_with_retry E user_input system_prompt w =
    (out1 ++ out2, Return tt, w3).
Proof.
  intros H Hc Hr H2. unfold run_with_retry, gtry at 1.
  rewrite async_for_yield. rewrite H, Hc.
  unfold gtry, gbind. rewrite Hr, async_for_yield. rewrite H2.
  reflexivity.
Qed.

Lemma run_second_attempt_fails (w w1 w2 w3 : world) (out1 out2 : list json)
    (e e2 : exn) (u : unit) :
  _run_once E user_input system_prompt w = (out1, Raise e, w1) ->
  token_expired (str e) = true ->
  refresh_token E w1 = (Return u, w2) ->
  _run_once E user_input system_prompt w2 = (out2, Raise e2, w3) ->
  run_with_retry E user_input system_prompt w =
    (out1 ++ out2 ++ [error_item (str e2) "stream_error"], Return tt, w3).
Proof.
  intros H Hc Hr H2. unfold run_with_retry, gtry at 1.
  rewrite async_for_yield. rewrite H, Hc.
  unfold gtry, gbind. rewrite Hr, async_for_yield. rewrite H2.
  reflexivity.
Qed.

(** Every run ends normally, along one of the five ways. *)
Lemma run_with_retry_inv (w w' : world) (out : list json) (r : outcome unit) :
  run_with_retry E user_input system_prompt w = (out, r, w') ->
  r = Return tt /\
  ((exists u, _run_once E user_input system_prompt w = (out, Return u, w')) \/
   (exists out1 e,
      _run_once E user_input system_prompt w = (out1, Raise e, w') /\
      token_expired (str e) = false /\
      out = out1 ++ [error_item (str e) "stream_error"]) \/
   (exists out1 e w1 e2,
      _run_once E user_input system_prompt w = (out1, Raise e, w1) /\
      token_expired (str e) = true /\
      refresh_token E w1 = (Raise e2, w') /\
      out = out1 ++ [error_item (str e2) "stream_error"]) \/
   (exists out1 e w1 u w2 out2 u',
      _run_once E user_input system_prompt w = (out1, Raise e, w1) /\
      token_expired (str e) = true /\
      refresh_token E w1 = (Return u, w2) /\
      _run_once E user_input system_prompt w2 = (out2, Return u', w') /\
      out = out1 ++ out2) \/
   (exists out1 e w1 u w2 out2 e2,
      _run_once E user_input system_prompt w = (out1, Raise e, w1) /\
      token_expired (str e) = true /\
      refresh_token E w1 = (Return u, w2) /\
      _run_once E user_input system_prompt w2 = (out2, Raise e2, w') /\
      out = out1 ++ out2 ++ [error_item (str e2) "stream_error"])).
Proof.
  intros H.
  destruct (_run_once E user_input system_prompt w) as [[out1 r1] w1] eqn:H1.
  destruct r1 as [u|e].
  - rewrite (run_first_attempt_succeeds _ _ _ _ H1) in H.
    injection H as <- <- <-. split; [reflexivity | left; eauto].
  - destruct (token_expired (str e)) eqn:Hc.
    + destruct (refresh_token E w1) as [[u|e2] w2] eqn:Hr.
      * destruct (_run_once E user_input system_prompt w2) as [[out2 [u'|e2]] w3] eqn:H2.
        -- rewrite (run_second_attempt_succeeds _ _ _ _ _ _ _ _ _ H1 Hc Hr H2) in H.
           injection H as <- <- <-. split; [reflexivity |].
           right; right; right; left. repeat eexists; eauto.
        -- rewrite (run_second_attempt_fails _ _ _ _ _ _ _ _ _ H1 Hc Hr H2) in H.
           injection H as <- <- <-. split; [reflexivity |].
           right; right; right; right. repeat eexists; eauto.
      * rewrite (run_refresh_fails _ _ _ _ _ _ H1 Hc Hr) in H.
        injection H as <- <- <-. split; [reflexivity |].
        right; right; left. repeat eexists; eauto.
    + rewrite (run_other_failure _ _ _ _ H1 Hc) in H.
      injection H as <- <- <-. split; [reflexivity |].
      right; left. repeat eexists; eauto.
Qed.

End RunWithRetry.

(** One attempt: the entry mark, the factory's reads, one session; the secret
    is not touched and the output is the data of that session's events. *)
Lemma run_once_effect (E : env) (user_input : json) (system_prompt : string)
    (w w' : world) (out : list json) (r : outcome unit) :
  _run_once E user_input system_prompt w = (out, r, w') ->
  secret w' = secret w /\
  exists d f,
    forallb Spec.is_plain d = true /\
    fst (create_streamable_http_transport E (logged Enter_run_once w)) = f /\
    trace w' = trace w ++ Enter_run_once :: d ++ [Mcp_session f user_input system_prompt] /\
    out = Spec.data_chunks
            (fst (mcp_session E (clock w + 1 + length d) f user_input system_prompt)).
Proof.
  rewrite run_once_eq.
  destruct (create_streamable_http_transport E (logged Enter_run_once w))
    as [f w1] eqn:Hf.
  destruct (factory_effect _ _ _ _ Hf) as [Hs [d [Ht Hd]]].
  assert (Hclock : clock w1 = clock w + 1 + length d).
  { unfold clock. rewrite Ht. simpl. rewrite !length_app. simpl. lia. }
  rewrite Hclock.
  destruct (mcp_session E (clock w + 1 + length d) f user_input system_prompt)
    as [events ending] eqn:Hm.
  intros H. injection H as <- <- <-. simpl. split; [exact Hs |].
  exists d, f. split; [exact Hd |]. split; [reflexivity |].
  split; [| rewrite Hm; reflexivity].
  rewrite Ht. simpl. rewrite <- !app_assoc. reflexivity.
Qed.

(** Counts over one attempt and over one refresh. *)
Lemma run_once_counts (E : env) (user_input : json) (system_prompt : string)
    (w w' : world) (out : list json) (r : outcome unit) :
  _run_once E user_input system_prompt w = (out, r, w') ->
  exists d, trace w' = trace w ++ d /\
            Spec.attempts d = 1 /\ Spec.refreshes d = 0 /\
            Spec.delivered E (clock w) d = out.
Proof.
  intros H. destruct (run_once_effect _ _ _ _ _ _ _ H) as [_ [d [f [Hd [_ [Ht Ho]]]]]].
  destruct (plain_silent E d Hd) as (Ha & Hr & Hs & Hv).
  eexists; split; [exact Ht |].
  change (Enter_run_once :: d ++ [Mcp_session f user_input system_prompt])
    with ([Enter_run_once] ++ d ++ [Mcp_session f user_input system_prompt]).
  rewrite !attempts_app, !refreshes_app, !delivered_app, Ha, Hr, Hv.
  simpl. rewrite app_nil_r. repeat split.
  symmetry. exact Ho.
Qed.

Lemma refresh_counts (E : env) (w w' : world) (r : outcome unit) :
  refresh_token E w = (r, w') ->
  exists d, trace w' = trace w ++ d /\
            Spec.attempts d = 0 /\ Spec.refreshes d = 1 /\
            forall t, Spec.delivered E t d = [].
Proof.
  intros H. destruct (refresh_effect _ _ _ _ H) as [d [Ht Hd]].
  destruct (plain_silent E d Hd) as (Ha & Hr & Hs & Hv).
  eexists; split; [exact Ht |].
  change (Enter_refresh_token :: d) with ([Enter_refresh_token] ++ d).
  rewrite !attempts_app, !refreshes_app, Ha, Hr. repeat split.
  intros t. simpl. apply Hv.
Qed.

Lemma run_once_totals (E : env) (user_input : json) (system_prompt : string)
    (w w' : world) (out : list json) (r : outcome unit) :
  _run_once E user_input system_prompt w = (out, r, w') ->
  Spec.attempts (trace w') = Spec.attempts (trace w) + 1 /\
  Spec.refreshes (trace w') = Spec.refreshes (trace w).
Proof.
  intros H. destruct (run_once_counts _ _ _ _ _ _ _ H) as [d [Ht [Ha [Hr _]]]].
  rewrite Ht, attempts_app, refreshes_app. lia.
Qed.

Lemma refresh_totals (E : env) (w w' : world) (r : outcome unit) :
  refresh_token E w = (r, w') ->
  Spec.attempts (trace w') = Spec.attempts (trace w) /\
  Spec.refreshes (trace w') = Spec.refreshes (trace w) + 1.
Proof.
  intros H. destruct (refresh_counts _ _ _ _ H) as [d [Ht [Ha [Hr _]]]].
  rewrite Ht, attempts_app, refreshes_app. lia.
Qed.

(** *** The retry discipline *)

(** C1. In any run of [run_with_retry], [refresh_token] is entered at most
    once and [_run_once] at most twice.  When the first attempt fails with an
    expired-credential message, the refresh succeeds and the second attempt
    fails with an expired-credential message again, the run ends normally
    with the error item of the second failure as its last item, after exactly
    two attempts and one refresh. *)
Theorem run_with_retry_refreshes_at_most_once
    (E : env) (user_input : json) (system_prompt : string) (w : world) :
  (forall out r w',
     run_with_retry E user_input system_prompt w = (out, r, w') ->
     Spec.refreshes (trace w') <= Spec.refreshes (trace w) + 1 /\
     Spec.attempts (trace w') <= Spec.attempts (trace w) + 2) /\
  (forall out1 e1 w1 u w2 out2 e2 w3,
     _run_once E user_input system_prompt w = (out1, Raise e1, w1) ->
     token_expired (str e1) = true ->
     refresh_token E w1 = (Return u, w2) ->
     _run_once E user_input system_prompt w2 = (out2, Raise e2, w3) ->
     token_expired (str e2) = true ->
     run_with_retry E user_input system_prompt w =
       (out1 ++ out2 ++ [error_item (str e2) "stream_error"], Return tt, w3) /\
     Spec.attempts (trace w3) = Spec.attempts (trace w) + 2 /\
     Spec.refreshes (trace w3) = Spec.refreshes (trace w) + 1).
Proof.
  split.
  - intros out r w' H.
    destruct (run_with_retry_inv _ _ _ _ _ _ _ H) as [_ Hway].
    destruct Hway as [[u H1] | [(out1 & e & H1 & _) | [(out1 & e & w1 & e2 & H1 & _ & Hr & _)
      | [(out1 & e & w1 & u & w2 & out2 & u' & H1 & _ & Hr & H2 & _)
        | (out1 & e & w1 & u & w2 & out2 & e2 & H1 & _ & Hr & H2 & _)]]]];
      repeat match goal with
        | H : _run_once _ _ _ _ = _ |- _ => apply run_once_totals in H; destruct H
        | H : refresh_token _ _ = _ |- _ => apply refresh_totals in H; destruct H
        end; lia.
  - intros out1 e1 w1 u w2 out2 e2 w3 H1 Hc Hr H2 _.
    split; [exact (run_second_attempt_fails _ _ _ _ _ _ _ _ _ _ _ _ H1 Hc Hr H2) |].
    apply run_once_totals in H1, H2. apply refresh_totals in Hr. lia.
Qed.

Lemma run_with_retry_refreshes_at_most_once_witness :
  let E := Scenario.always_expired in
  let e := Scenario.init_failure in
  let w1 := Scenario.after_first E in
  let w2 := Scenario.after_refresh E in
  let w3 := Scenario.after_second E in
  (_run_once E Scenario.prompt "sp" Scenario.world0 = ([], Raise e, w1) /\
   token_expired (str e) = true /\
   refresh_token E w1 = (Return tt, w2) /\
   _run_once E Scenario.prompt "sp" w2 = ([], Raise e, w3)) /\
  (run_with_retry E Scenario.prompt "sp" Scenario.world0 =
     ([] ++ [] ++ [error_item (str e) "stream_error"], Return tt, w3) /\
   Spec.attempts (trace w3) = Spec.attempts (trace Scenario.world0) + 2 /\
   Spec.refreshes (trace w3) = Spec.refreshes (trace Scenario.world0) + 1).
Proof.
  intros E e w1 w2 w3.
  assert (H1 : _run_once E Scenario.prompt "sp" Scenario.world0 = ([], Raise e, w1))
    by (vm_compute; reflexivity).
  assert (Hc : token_expired (str e) = true) by (vm_compute; reflexivity).
  assert (Hr : refresh_token E w1 = (Return tt, w2)) by (vm_compute; reflexivity).
  assert (H2 : _run_once E Scenario.prompt "sp" w2 = ([], Raise e, w3))
    by (vm_compute; reflexivity).
  split; [auto |].
  exact (proj2 (run_with_retry_refreshes_at_most_once E Scenario.prompt "sp" Scenario.world0)
           [] e w1 tt w2 [] e w3 H1 Hc Hr H2 Hc).
Defined.

(** C6. When the first attempt fails with a message that is not taken for an
    expired credential, the run ends right after that attempt: the output is
    what the attempt had delivered followed by one error item carrying that
    message, the world is the one the attempt left (no refresh, no second
    attempt), and the run ends normally. *)
Theorem run_with_retry_other_failure_is_terminal
    (E : env) (user_input : json) (system_prompt : string)
    (w w1 : world) (out1 : list json) (e : exn) :
  _run_once E user_input system_prompt w = (out1, Raise e, w1) ->
  token_expired (str e) = false ->
  run_with_retry E user_input system_prompt w =
    (out1 ++ [error_item (str e) "stream_error"], Return tt, w1) /\
  Spec.refreshes (trace w1) = Spec.refreshes (trace w) /\
  Spec.attempts (trace w1) = Spec.attempts (trace w) + 1.
Proof.
  intros H1 Hc.
  split; [exact (run_other_failure _ _ _ _ _ _ _ H1 Hc) |].
  apply run_once_totals in H1. lia.
Qed.

Lemma run_with_retry_other_failure_is_terminal_witness :
  let E := Scenario.connection_lost in
  let e := PyError "Connection reset by peer" in
  let w1 := Scenario.after_first E in
  (_run_once E Scenario.prompt "sp" Scenario.world0 = ([JStr "You have "], Raise e, w1) /\
   token_expired (str e) = false) /\
  (run_with_retry E Scenario.prompt "sp" Scenario.world0 =
     ([JStr "You have "] ++ [error_item (str e) "stream_error"], Return tt, w1) /\
   Spec.refreshes (trace w1) = Spec.refreshes (trace Scenario.world0) /\
   Spec.attempts (trace w1) = Spec.attempts (trace Scenario.world0) + 1).
Proof.
  intros E e w1.
  assert (H1 : _run_once E Scenario.prompt "sp" Scenario.world0
               = ([JStr "You have "], Raise e, w1)) by (vm_compute; reflexivity).
  assert (Hc : token_expired (str e) = false) by (vm_compute; reflexivity).
  split; [auto |].
  exact (run_with_retry_other_failure_is_terminal E Scenario.prompt "sp"
           Scenario.world0 w1 [JStr "You have "] e H1 Hc).
Defined.

(** C5. When the first attempt fails with an expired-credential message and
    [refresh_token] then fails, the run ends normally (nothing is raised to
    the caller); its last item is an error item whose message is the text of
    the refresh failure, and no second attempt is made. *)
Theorem run_with_retry_reports_refresh_failure
    (E : env) (user_input : json) (system_prompt : string)
    (w w1 w2 : world) (out1 : list json) (e e2 : exn) :
  _run_once E user_input system_prompt w = (out1, Raise e, w1) ->
  token_expired (str e) = true ->
  refresh_token E w1 = (Raise e2, w2) ->
  run_with_retry E user_input system_prompt w =
    (out1 ++ [error_item (str e2) "stream_error"], Return tt, w2) /\
  Spec.attempts (trace w2) = Spec.attempts (trace w) + 1 /\
  Spec.refreshes (trace w2) = Spec.refreshes (trace w) + 1.
Proof.
  intros H1 Hc Hr.
  split; [exact (run_refresh_fails _ _ _ _ _ _ _ _ _ H1 Hc Hr) |].
  apply run_once_totals in H1. apply refresh_totals in Hr. lia.
Qed.

Lemma run_with_retry_reports_refresh_failure_witness :
  let E := Scenario.refresh_rejected in
  let e := Scenario.init_failure in
  let e2 := ClientError "NotAuthorizedException"
    "An error occurred (NotAuthorizedException) when calling the InitiateAuth operation: Incorrect username or password." in
  let w1 := Scenario.after_first E in
  let w2 := Scenario.after_refresh E in
  (_run_once E Scenario.prompt "sp" Scenario.world0 = ([], Raise e, w1) /\
   token_expired (str e) = true /\
   refresh_token E w1 = (Raise e2, w2)) /\
  (run_with_retry E Scenario.prompt "sp" Scenario.world0 =
     ([] ++ [error_item (str e2) "stream_error"], Return tt, w2) /\
   Spec.attempts (trace w2) = Spec.attempts (trace Scenario.world0) + 1 /\
   Spec.refreshes (trace w2) = Spec.refreshes (trace Scenario.world0) + 1).
Proof.
  intros E e e2 w1 w2.
  assert (H1 : _run_once E Scenario.prompt "sp" Scenario.world0 = ([], Raise e, w1))
    by (vm_compute; reflexivity).
  assert (Hc : token_expired (str e) = true) by (vm_compute; reflexivity).
  assert (Hr : refresh_token E w1 = (Raise e2, w2)) by (vm_compute; reflexivity).
  split; [auto |].
  exact (run_with_retry_reports_refresh_failure E Scenario.prompt "sp"
           Scenario.world0 w1 w2 [] e e2 H1 Hc Hr).
Defined.

(** C10. When the first attempt delivers k >= 1 chunks and then fails with an
    expired-credential message, the refresh succeeds and the second attempt
    runs to its end, the output is those k chunks followed by the whole
    output of the second attempt: nothing delivered is taken back, so a
    second attempt that starts over with the same chunks shows them twice. *)
Theorem run_with_retry_keeps_partial_output
    (E : env) (user_input : json) (system_prompt : string)
    (w w1 w2 w3 : world) (out1 out2 : list json) (e : exn) (u u' : unit) :
  _run_once E user_input system_prompt w = (out1, Raise e, w1) ->
  1 <= length out1 ->
  token_expired (str e) = true ->
  refresh_token E w1 = (Return u, w2) ->
  _run_once E user_input system_prompt w2 = (out2, Return u', w3) ->
  let out := fst (fst (run_with_retry E user_input system_prompt w)) in
  run_with_retry E user_input system_prompt w = (out1 ++ out2, Return tt, w3) /\
  firstn (length out1) out = out1 /\
  skipn (length out1) out = out2 /\
  (forall rest, out2 = out1 ++ rest -> out = out1 ++ out1 ++ rest).
Proof.
  intros H1 _ Hc Hr H2 out. subst out.
  rewrite (run_second_attempt_succeeds _ _ _ _ _ _ _ _ _ _ _ _ H1 Hc Hr H2).
  simpl. split; [reflexivity |]. split; [| split].
  - rewrite firstn_app, Nat.sub_diag, firstn_all. simpl. apply app_nil_r.
  - rewrite skipn_app, Nat.sub_diag, skipn_all. reflexivity.
  - intros rest ->. reflexivity.
Qed.

Lemma run_with_retry_keeps_partial_output_witness :
  let E := Scenario.expired_then_fresh in
  let e := Scenario.init_failure in
  let out1 := [JStr "You have "] in
  let out2 := [JStr "You have "; JStr "3 open cases."] in
  let w1 := Scenario.after_first E in
  let w2 := Scenario.after_refresh E in
  let w3 := Scenario.after_second E in
  (_run_once E Scenario.prompt "sp" Scenario.world0 = (out1, Raise e, w1) /\
   1 <= length out1 /\
   token_expired (str e) = true /\
   refresh_token E w1 = (Return tt, w2) /\
   _run_once E Scenario.prompt "sp" w2 = (out2, Return tt, w3)) /\
  (run_with_retry E Scenario.prompt "sp" Scenario.world0 =
     ([JStr "You have "; JStr "You have "; JStr "3 open cases."], Return tt, w3)).
Proof.
  intros E e out1 out2 w1 w2 w3.
  assert (H1 : _run_once E Scenario.prompt "sp" Scenario.world0 = (out1, Raise e, w1))
    by (vm_compute; reflexivity).
  assert (Hk : 1 <= length out1) by (simpl; lia).
  assert (Hc : token_expired (str e) = true) by (vm_compute; reflexivity).
  assert (Hr : refresh_token E w1 = (Return tt, w2)) by (vm_compute; reflexivity).
  assert (H2 : _run_once E Scenario.prompt "sp" w2 = (out2, Return tt, w3))
    by (vm_compute; reflexivity).
  split; [auto 6 |].
  exact (proj1 (run_with_retry_keeps_partial_output E Scenario.prompt "sp"
                  Scenario.world0 w1 w2 w3 out1 out2 e tt tt H1 Hk Hc Hr H2)).
Defined.

Lemma refresh_token_overwrites_only_bearer_token_witness :
  let E := Scenario.expired_then_fresh in
  let w1 := Scenario.after_first E in
  let w2 := Scenario.after_refresh E in
  refresh_token E w1 = (Return tt, w2) /\
  exists new_token,
    initiate_auth E (clock w1 + 2) (JStr "4h57gqa2r1example") (JStr "testuser")
      (JStr "MyPassword123!") = Scenario.issued "token-new" /\
    new_token = JStr "token-new" /\
    secret w2 = JsonText (JObj (dict_set "bearer_token" new_token Scenario.bundle0)).
Proof.
  intros E w1 w2.
  assert (H : refresh_token E w1 = (Return tt, w2)) by (vm_compute; reflexivity).
  split; [exact H |].
  destruct (refresh_token_overwrites_only_bearer_token E w1 w2 (Return tt) H)
    as (bundle & cid & ap & user & pass & resp & ar & tok & Hs & _).
  exists (JStr "token-new"). repeat split; vm_compute; reflexivity.
Defined.

(** *** The transport is rebuilt from the store for every attempt *)

(** A transport the factory returns carries the token stored at that time. *)
Lemma factory_reads_store (E : env) (w w' : world) (tr : transport) :
  create_streamable_http_transport E w = (Return tr, w') ->
  exists token,
    Spec.stored_bearer_token w = Some token /\
    Spec.authorization tr = Some (JStr ("Bearer " ++ format E token)).
Proof.
  unfold create_streamable_http_transport, try_except, bind, lift, ret, raise,
    ssm_get_parameter_value, secrets_get_secret_value.
  intros H. break_matches.
  repeat match goal with
    | H : json_loads _ = Return _ |- _ => apply json_loads_Return in H
    | H : subscript ?v _ = Return _ |- _ =>
        is_var v; let d := fresh "d" in
        destruct (subscript_Return _ _ _ H) as [d [-> _]]
    end.
  eexists. split; [| reflexivity].
  unfold Spec.stored_bearer_token.
  match goal with H : secret _ = JsonText _ |- _ => simpl in H; rewrite H end.
  apply subscript_JObj. eassumption.
Qed.

Lemma bearer_header_injective (a b : string) :
  JStr ("Bearer " ++ a) = JStr ("Bearer " ++ b) -> a = b.
Proof. simpl. intros H. injection H as H. exact H. Qed.

(** C2. Each attempt has the MCP client call the factory on the world as it
    is at that moment, and the factory reads the bearer token from the store
    then.  So when the first attempt fails with an expired-credential message
    and [refresh_token] succeeds, the two sessions of the run are opened with
    the factory's results before and after the refresh; the second transport,
    when built, carries the token the refresh stored, and its [authorization]
    header differs from the first one's whenever the stored token changed. *)
Theorem second_attempt_uses_refreshed_token
    (E : env) (user_input : json) (system_prompt : string)
    (w w1 w2 : world) (out1 : list json) (e : exn) (u : unit) :
  _run_once E user_input system_prompt w = (out1, Raise e, w1) ->
  token_expired (str e) = true ->
  refresh_token E w1 = (Return u, w2) ->
  exists (new_token : json) (f1 f2 : outcome transport)
         (out : list json) (w3 : world),
    run_with_retry E user_input system_prompt w = (out, Return tt, w3) /\
    Spec.stored_bearer_token w2 = Some new_token /\
    f1 = fst (create_streamable_http_transport E (logged Enter_run_once w)) /\
    f2 = fst (create_streamable_http_transport E (logged Enter_run_once w2)) /\
    Spec.sessions (trace w3) = Spec.sessions (trace w) ++ [f1; f2] /\
    (forall tr2, f2 = Return tr2 ->
       Spec.authorization tr2 = Some (JStr ("Bearer " ++ format E new_token))) /\
    (forall tr1, f1 = Return tr1 ->
       exists old_token,
         Spec.stored_bearer_token w = Some old_token /\
         Spec.authorization tr1 = Some (JStr ("Bearer " ++ format E old_token)) /\
         (forall tr2, f2 = Return tr2 ->
            format E new_token <> format E old_token ->
            Spec.authorization tr2 <> Spec.authorization tr1)).
Proof.
  intros H1 Hc Hr.
  destruct (refresh_stores_token _ _ _ _ Hr) as [new_token Hnew].
  destruct (_run_once E user_input system_prompt w2) as [[out2 r2] w3] eqn:H2.
  destruct (run_once_effect _ _ _ _ _ _ _ H1) as [_ (d1 & f1 & Hd1 & Hf1 & Ht1 & _)].
  destruct (run_once_effect _ _ _ _ _ _ _ H2) as [_ (d2 & f2 & Hd2 & Hf2 & Ht2 & _)].
  destruct (refresh_effect _ _ _ _ Hr) as (dr & Htr & Hdr).
  assert (Hsess : Spec.sessions (trace w3) = Spec.sessions (trace w) ++ [f1; f2]).
  { destruct (plain_silent E d1 Hd1) as (_ & _ & Hs1 & _).
    destruct (plain_silent E d2 Hd2) as (_ & _ & Hs2 & _).
    destruct (plain_silent E dr Hdr) as (_ & _ & Hsr & _).
    rewrite Ht2, Htr, Ht1.
    change (Enter_run_once :: d2 ++ [Mcp_session f2 user_input system_prompt])
      with ([Enter_run_once] ++ d2 ++ [Mcp_session f2 user_input system_prompt]).
    change (Enter_run_once :: d1 ++ [Mcp_session f1 user_input system_prompt])
      with ([Enter_run_once] ++ d1 ++ [Mcp_session f1 user_input system_prompt]).
    change (Enter_refresh_token :: dr) with ([Enter_refresh_token] ++ dr).
    rewrite !sessions_app, Hs1, Hs2, Hsr. simpl.
    rewrite <- !app_assoc. reflexivity. }
  assert (Hsecond : forall tr2, f2 = Return tr2 ->
            Spec.authorization tr2 = Some (JStr ("Bearer " ++ format E new_token))).
  { intros tr2 ->.
    destruct (create_streamable_http_transport E (logged Enter_run_once w2))
      as [f w2'] eqn:Hf. simpl in Hf2. subst f.
    destruct (factory_reads_store _ _ _ _ Hf) as [token [Hst Hauth]].
    change (Spec.stored_bearer_token (logged Enter_run_once w2))
      with (Spec.stored_bearer_token w2) in Hst.
    rewrite Hnew in Hst. injection Hst as <-. exact Hauth. }
  exists new_token, f1, f2,
    (match r2 with
     | Return _ => out1 ++ out2
     | Raise e2 => out1 ++ out2 ++ [error_item (str e2) "stream_error"]
     end), w3.
  split.
  { destruct r2 as [u'|e2].
    - exact (run_second_attempt_succeeds _ _ _ _ _ _ _ _ _ _ _ _ H1 Hc Hr H2).
    - exact (run_second_attempt_fails _ _ _ _ _ _ _ _ _ _ _ _ H1 Hc Hr H2). }
  split; [exact Hnew |].
  split; [symmetry; exact Hf1 |].
  split; [symmetry; exact Hf2 |].
  split; [exact Hsess |].
  split; [exact Hsecond |].
  intros tr1 ->.
  destruct (create_streamable_http_transport E (logged Enter_run_once w))
    as [f w0'] eqn:Hf. simpl in Hf1. subst f.
  destruct (factory_reads_store _ _ _ _ Hf) as [old_token [Hst Hauth]].
  change (Spec.stored_bearer_token (logged Enter_run_once w))
    with (Spec.stored_bearer_token w) in Hst.
  exists old_token. split; [exact Hst |]. split; [exact Hauth |].
  intros tr2 Htr2 Hne Heq.
  rewrite (Hsecond tr2 Htr2), Hauth in Heq.
  injection Heq as Heq. apply Hne.
  apply bearer_header_injective. rewrite Heq. reflexivity.
Qed.

Lemma second_attempt_uses_refreshed_token_witness :
  let E := Scenario.expired_then_fresh in
  let e := Scenario.init_failure in
  let w1 := Scenario.after_first E in
  let w2 := Scenario.after_refresh E in
  (_run_once E Scenario.prompt "sp" Scenario.world0 = ([JStr "You have "], Raise e, w1) /\
   token_expired (str e) = true /\
   refresh_token E w1 = (Return tt, w2)) /\
  exists new_token f2,
    Spec.stored_bearer_token w2 = Some new_token /\
    f2 = fst (create_streamable_http_transport E (logged Enter_run_once w2)) /\
    forall tr2, f2 = Return tr2 ->
      Spec.authorization tr2 = Some (JStr ("Bearer " ++ format E new_token)).
Proof.
  intros E e w1 w2.
  assert (H1 : _run_once E Scenario.prompt "sp" Scenario.world0
               = ([JStr "You have "], Raise e, w1)) by (vm_compute; reflexivity).
  assert (Hc : token_expired (str e) = true) by (vm_compute; reflexivity).
  assert (Hr : refresh_token E w1 = (Return tt, w2)) by (vm_compute; reflexivity).
  split; [auto |].
  destruct (second_attempt_uses_refreshed_token E Scenario.prompt "sp"
              Scenario.world0 w1 w2 [JStr "You have "] e tt H1 Hc Hr)
    as (new_token & f1 & f2 & out & w3 & _ & Hnew & _ & Hf2 & _ & Hsecond & _).
  exists new_token, f2. auto.
Defined.

(** the same run, evaluated: the two sessions are opened with the old and
    with the new token *)
Example expired_then_fresh_headers :
  map (fun f => match f with
                | Return tr => Spec.authorization tr
                | Raise _ => None
                end)
      (Spec.sessions
         (trace (snd (run_with_retry Scenario.expired_then_fresh Scenario.prompt "sp"
                        Scenario.world0))))
  = [Some (JStr "Bearer token-old"); Some (JStr "Bearer token-new")].
Proof. vm_compute. reflexivity. Qed.

(** *** What the caller of the entry point receives *)

Lemma clock_app (w w' : world) (d : list call) :
  trace w' = trace w ++ d -> clock w' = clock w + length d.
Proof. unfold clock. intros ->. apply length_app. Qed.

(** One attempt in full: what it adds to the trace, what it delivers, and
    that it ends the way its session ends. *)
Lemma run_once_full (E : env) (user_input : json) (system_prompt : string)
    (w w' : world) (out : list json) (r : outcome unit) :
  _run_once E user_input system_prompt w = (out, r, w') ->
  secret w' = secret w /\
  exists before f,
    trace w' = trace w ++ before ++ [Mcp_session f user_input system_prompt] /\
    Spec.delivered E (clock w) (before ++ [Mcp_session f user_input system_prompt])
      = out /\
    r = match snd (mcp_session E (clock w + length before) f user_input system_prompt) with
        | None => Return tt
        | Some e => Raise e
        end.
Proof.
  rewrite run_once_eq.
  destruct (create_streamable_http_transport E (logged Enter_run_once w))
    as [f w1] eqn:Hf.
  destruct (factory_effect _ _ _ _ Hf) as [Hs [d [Ht Hd]]].
  assert (Hclock : clock w1 = clock w + length (Enter_run_once :: d)).
  { unfold clock. rewrite Ht. simpl. rewrite !length_app. simpl. lia. }
  rewrite Hclock.
  destruct (mcp_session E (clock w + length (Enter_run_once :: d)) f
              user_input system_prompt) as [events ending] eqn:Hm.
  intros H. injection H as <- <- <-. simpl secret. split; [exact Hs |].
  exists (Enter_run_once :: d), f.
  split; [simpl; rewrite Ht; simpl; rewrite <- !app_assoc; reflexivity |].
  split; [| rewrite Hm; reflexivity].
  destruct (plain_silent E d Hd) as (_ & _ & _ & Hv).
  rewrite delivered_app. simpl Spec.delivered at 1. rewrite Hv.
  cbn [Spec.delivered app]. rewrite Hm. simpl. apply app_nil_r.
Qed.

(** The endings exclude one another: a run has one last session at most,
    which ended in one way, and a run that ended inside a refresh has no
    last session. *)
Lemma last_session_ended_once (E : env) (t : nat) (calls : list call)
    (ending ending' : option exn) :
  Spec.last_session_ended E t calls ending ->
  Spec.last_session_ended E t calls ending' ->
  ending = ending'.
Proof.
  intros (b & f & u & sp & -> & <-) (b' & f' & u' & sp' & Heq & <-).
  apply app_inj_tail in Heq. destruct Heq as [-> Heq].
  injection Heq as -> -> ->. reflexivity.
Qed.

Lemma refresh_failed_has_no_last_session (E : env) (w w' : world)
    (calls : list call) (e : exn) (t : nat) (ending : option exn) :
  Spec.refresh_failed E w w' calls e ->
  Spec.last_session_ended E t calls ending ->
  False.
Proof.
  intros (before & rest & -> & Hplain & _) (b & f & u & sp & Heq & _).
  destruct rest as [|c rest _] using rev_ind.
  - apply app_inj_tail in Heq. destruct Heq as [_ Heq]. discriminate Heq.
  - rewrite forallb_app in Hplain. apply andb_true_iff in Hplain.
    destruct Hplain as [_ Hc]. simpl in Hc.
    change (before ++ Enter_refresh_token :: rest ++ [c])
      with (before ++ (Enter_refresh_token :: rest) ++ [c]) in Heq.
    rewrite app_assoc in Heq.
    apply app_inj_tail in Heq. destruct Heq as [_ ->]. discriminate Hc.
Qed.

(** How [run_with_retry] ends: after a session that closed normally, with
    the chunks alone; after a session that failed, or inside a refresh that
    failed, with the chunks and then the error item of that failure. *)
Lemma run_with_retry_ending (E : env) (user_input : json) (system_prompt : string)
    (w w' : world) (out : list json) (r : outcome unit) :
  run_with_retry E user_input system_prompt w = (out, r, w') ->
  r = Return tt /\
  exists d, trace w' = trace w ++ d /\
    let chunks := Spec.delivered E (clock w) d in
    (Spec.last_session_ended E (clock w) d None /\ out = chunks) \/
    (exists e, Spec.last_session_ended E (clock w) d (Some e) /\
               out = chunks ++ [error_item (str e) "stream_error"]) \/
    (exists e, Spec.refresh_failed E w w' d e /\
               out = chunks ++ [error_item (str e) "stream_error"]).
Proof.
  intros H. destruct (run_with_retry_inv _ _ _ _ _ _ _ H) as [Hr Hway].
  split; [exact Hr |]. cbv zeta.
  destruct Hway as [[u H1] | [(out1 & e & H1 & _ & ->) | [(out1 & e & w1 & e2 & H1 & _ & Hf & ->)
    | [(out1 & e & w1 & u & w2 & out2 & u' & H1 & _ & Hf & H2 & ->)
      | (out1 & e & w1 & u & w2 & out2 & e2 & H1 & _ & Hf & H2 & ->)]]]].
  - destruct (run_once_full _ _ _ _ _ _ _ H1) as (_ & b1 & f1 & Ht1 & Hv1 & Hr1).
    destruct (snd (mcp_session E (clock w + length b1) f1 user_input system_prompt))
      as [e1|] eqn:Hend; [discriminate Hr1 |].
    eexists. split; [exact Ht1 |]. left.
    split; [| symmetry; exact Hv1].
    exists b1, f1, user_input, system_prompt. split; [reflexivity | exact Hend].
  - destruct (run_once_full _ _ _ _ _ _ _ H1) as (_ & b1 & f1 & Ht1 & Hv1 & Hr1).
    destruct (snd (mcp_session E (clock w + length b1) f1 user_input system_prompt))
      as [e1|] eqn:Hend; [| discriminate Hr1].
    injection Hr1 as ->.
    eexists. split; [exact Ht1 |]. right; left. exists e1.
    split; [| rewrite Hv1; reflexivity].
    exists b1, f1, user_input, system_prompt. split; [reflexivity | exact Hend].
  - destruct (run_once_full _ _ _ _ _ _ _ H1) as (Hs1 & b1 & f1 & Ht1 & Hv1 & _).
    destruct (refresh_effect _ _ _ _ Hf) as (dr & Htr & Hdr).
    destruct (plain_silent E dr Hdr) as (_ & _ & _ & Hvr).
    exists ((b1 ++ [Mcp_session f1 user_input system_prompt])
            ++ Enter_refresh_token :: dr).
    split; [rewrite Htr, Ht1, <- !app_assoc; reflexivity |].
    right; right. exists e2. split.
    + exists (b1 ++ [Mcp_session f1 user_input system_prompt]), dr.
      split; [reflexivity |]. split; [exact Hdr |].
      rewrite <- Hs1, <- Ht1. destruct w1. exact Hf.
    + rewrite delivered_app, Hv1. simpl Spec.delivered. rewrite Hvr.
      rewrite app_nil_r. reflexivity.
  - destruct (run_once_full _ _ _ _ _ _ _ H1) as (_ & b1 & f1 & Ht1 & Hv1 & _).
    destruct (refresh_effect _ _ _ _ Hf) as (dr & Htr & Hdr).
    destruct (plain_silent E dr Hdr) as (_ & _ & _ & Hvr).
    destruct (run_once_full _ _ _ _ _ _ _ H2) as (_ & b2 & f2 & Ht2 & Hv2 & Hr2).
    rewrite (clock_app _ _ _ Htr), (clock_app _ _ _ Ht1) in Hv2, Hr2.
    match type of Hr2 with
    | context [snd ?m] => destruct (snd m) as [e2|] eqn:Hend; [discriminate Hr2 |]
    end.
    exists (((b1 ++ [Mcp_session f1 user_input system_prompt])
             ++ (Enter_refresh_token :: dr) ++ b2)
            ++ [Mcp_session f2 user_input system_prompt]).
    split; [rewrite Ht2, Htr, Ht1, <- !app_assoc; reflexivity |].
    left. split.
    + eexists _, f2, user_input, system_prompt. split; [reflexivity |].
      rewrite <- Hend. rewrite !length_app, !Nat.add_assoc. reflexivity.
    + rewrite <- (app_assoc (b1 ++ [Mcp_session f1 user_input system_prompt])).
      rewrite <- (app_assoc (Enter_refresh_token :: dr)).
      rewrite delivered_app, Hv1.
      rewrite (delivered_app E _ (Enter_refresh_token :: dr)).
      simpl Spec.delivered at 1. rewrite Hvr. simpl app at 1.
      rewrite Hv2. reflexivity.
  - destruct (run_once_full _ _ _ _ _ _ _ H1) as (_ & b1 & f1 & Ht1 & Hv1 & _).
    destruct (refresh_effect _ _ _ _ Hf) as (dr & Htr & Hdr).
    destruct (plain_silent E dr Hdr) as (_ & _ & _ & Hvr).
    destruct (run_once_full _ _ _ _ _ _ _ H2) as (_ & b2 & f2 & Ht2 & Hv2 & Hr2).
    rewrite (clock_app _ _ _ Htr), (clock_app _ _ _ Ht1) in Hv2, Hr2.
    match type of Hr2 with
    | context [snd ?m] => destruct (snd m) as [e3|] eqn:Hend; [| discriminate Hr2]
    end.
    injection Hr2 as ->.
    exists (((b1 ++ [Mcp_session f1 user_input system_prompt])
             ++ (Enter_refresh_token :: dr) ++ b2)
            ++ [Mcp_session f2 user_input system_prompt]).
    split; [rewrite Ht2, Htr, Ht1, <- !app_assoc; reflexivity |].
    right; left. exists e3. split.
    + eexists _, f2, user_input, system_prompt. split; [reflexivity |].
      rewrite <- Hend. rewrite !length_app, !Nat.add_assoc. reflexivity.
    + rewrite <- (app_assoc (b1 ++ [Mcp_session f1 user_input system_prompt])).
      rewrite <- (app_assoc (Enter_refresh_token :: dr)).
      rewrite delivered_app, Hv1.
      rewrite (delivered_app E _ (Enter_refresh_token :: dr)).
      simpl Spec.delivered at 1. rewrite Hvr. simpl app at 1.
      rewrite Hv2. rewrite <- app_assoc. reflexivity.
Qed.

(** C9, as the code has it.  Whatever the payload, the stream of
    [strands_agent_bedrock] ends normally, and what the caller receives is
    settled by how the run ended:
    - the payload is not an object: nothing is called and the caller gets one
      item, of type [entrypoint_error];
    - the last session closed normally: the content chunks the sessions
      delivered, in order, and no error item; the chunks may be none at all;
    - the last session failed: those chunks, then one error item of type
      [stream_error] carrying that failure;
    - the run ended inside a failed refresh: likewise, with the failure of
      the refresh.
    So an error item comes exactly when the run failed, it is the last item,
    and chunks already delivered stay in front of it. *)
Theorem entrypoint_yields_chunks_then_error_when_failed
    (E : env) (payload : json) (w w' : world) (out : list json) (r : outcome unit) :
  strands_agent_bedrock E payload w = (out, r, w') ->
  r = Return tt /\
  exists d, trace w' = trace w ++ d /\
    let chunks := Spec.delivered E (clock w) d in
    ((forall fields, payload <> JObj fields) /\ d = [] /\
     out = [error_item ("'" ++ type_name payload ++ "' object has no attribute 'get'")
              "entrypoint_error"]) \/
    ((exists fields, payload = JObj fields) /\
     ((Spec.last_session_ended E (clock w) d None /\ out = chunks) \/
      (exists e, Spec.last_session_ended E (clock w) d (Some e) /\
                 out = chunks ++ [error_item (str e) "stream_error"]) \/
      (exists e, Spec.refresh_failed E w w' d e /\
                 out = chunks ++ [error_item (str e) "stream_error"]))).
Proof.
  unfold strands_agent_bedrock, gtry, gbind, lift.
  destruct (get_default payload "prompt"
              (JStr "show me the case in the past four weeks?")) as [user_input|e] eqn:Hget.
  - rewrite async_for_yield.
    destruct (run_with_retry E user_input (get_system_prompt E (clock w)) w)
      as [[out0 r0] w0] eqn:Hrun.
    destruct (run_with_retry_ending _ _ _ _ _ _ _ Hrun) as [-> (d & Ht & Hend)].
    intros H. injection H as <- <- <-. split; [reflexivity |].
    exists d. split; [exact Ht |]. right. split; [| exact Hend].
    destruct payload; try discriminate Hget. eauto.
  - unfold gyield. intros H. injection H as <- <- <-. split; [reflexivity |].
    exists []. split; [rewrite app_nil_r; reflexivity |].
    left. destruct payload; simpl in Hget; try (destruct (dict_get _ _); discriminate Hget);
      injection Hget as <-;
      (split; [intros fields Hf; discriminate Hf | split; reflexivity]).
Qed.

Lemma entrypoint_yields_chunks_then_error_when_failed_witness :
  let E := Scenario.connection_lost in
  let payload := JObj [("prompt", JStr "list my open cases")] in
  let res := strands_agent_bedrock E payload Scenario.world0 in
  strands_agent_bedrock E payload Scenario.world0
    = ([JStr "You have "; error_item "Connection reset by peer" "stream_error"],
       Return tt, snd res) /\
  exists d, trace (snd res) = trace Scenario.world0 ++ d /\
    let chunks := Spec.delivered E (clock Scenario.world0) d in
    let out := [JStr "You have "; error_item "Connection reset by peer" "stream_error"] in
    ((forall fields, payload <> JObj fields) /\ d = [] /\
     out = [error_item ("'" ++ type_name payload ++ "' object has no attribute 'get'")
              "entrypoint_error"]) \/
    ((exists fields, payload = JObj fields) /\
     ((Spec.last_session_ended E (clock Scenario.world0) d None /\ out = chunks) \/
      (exists e, Spec.last_session_ended E (clock Scenario.world0) d (Some e) /\
                 out = chunks ++ [error_item (str e) "stream_error"]) \/
      (exists e, Spec.refresh_failed E Scenario.world0 (snd res) d e /\
                 out = chunks ++ [error_item (str e) "stream_error"]))).
Proof.
  intros E payload res.
  assert (H : strands_agent_bedrock E payload Scenario.world0
    = ([JStr "You have "; error_item "Connection reset by peer" "stream_error"],
       Return tt, snd res)) by (vm_compute; reflexivity).
  split; [exact H |].
  exact (proj2 (entrypoint_yields_chunks_then_error_when_failed E payload
                  Scenario.world0 (snd res) _ _ H)).
Defined.

(** C9 as worded fails: with a stream that closes normally without any
    ["data"] event the caller receives nothing at all, neither a chunk nor an
    error item. *)
Lemma entrypoint_may_yield_nothing :
  let E := Scenario.no_data in
  let payload := JObj [("prompt", JStr "list my open cases")] in
  let res := strands_agent_bedrock E payload Scenario.world0 in
  fst res = ([], Return tt) /\
  ~ Spec.chunks_or_single_error
      (Spec.delivered E (clock Scenario.world0) (trace (snd res)))
      (fst (fst res)).
Proof.
  intros E payload res. split; [vm_compute; reflexivity |].
  replace (fst (fst res)) with (@nil json) by (vm_compute; reflexivity).
  intros [[Hne _] | (m & t & H)]; [apply Hne; reflexivity | discriminate H].
Qed.

(** C7. The failure of the first attempt is taken for an expired credential
    exactly when its message contains "client initialization failed",
    compared case-insensitively; every other message gets the other
    classification (the test is two-valued). *)
Theorem token_expired_iff_contains_ignoring_case (err_msg : string) :
  (token_expired err_msg = true <->
   Spec.contains_ignoring_case "client initialization failed" err_msg) /\
  (token_expired err_msg = false <->
   ~ Spec.contains_ignoring_case "client initialization failed" err_msg).
Proof.
  assert (H : token_expired err_msg = true <->
              Spec.contains_ignoring_case "client initialization failed" err_msg).
  { unfold token_expired, Spec.contains_ignoring_case, Spec.eq_ignoring_case.
    rewrite contains_spec. split.
    - intros [pre [post H]].
      destruct (lower_split _ _ _ H) as [s1 [s23 [-> [H1 H23]]]].
      destruct (lower_split _ _ _ H23) as [s2 [s3 [-> [H2 H3]]]].
      exists s1, s2, s3. split; [reflexivity | rewrite H2; reflexivity].
    - intros [pre [mid [post [-> Hmid]]]].
      exists (lower pre), (lower post).
      rewrite !lower_app, Hmid. reflexivity. }
  split; [exact H |].
  rewrite <- H. destruct (token_expired err_msg); split; congruence.
Qed.

Example token_expired_on_library_message :
  token_expired "the client initialization failed" = true.
Proof. reflexivity. Qed.

Example token_expired_ignores_case :
  token_expired "MCPClientInitializationError: The Client Initialization FAILED" = true.
Proof. reflexivity. Qed.

Example token_expired_rejects_other_message :
  token_expired "Connection reset by peer" = false.
Proof. reflexivity. Qed.

End SupportCaseAgentFacts.

(** ** [aws_setup.py], both deployments *)

Module SetupFacts.
Import Py Iam.

Ltac run_requests :=
  unfold AgentSetup.get_or_create_role, AgentSetup.get_existing_role_arn,
    AgentSetup.create_agentcore_role, AgentSetup.ensure_role_policy_updated,
    McpSetup.get_or_create_role, McpSetup.get_existing_role_arn,
    McpSetup.create_agentcore_role, McpSetup._cleanup_existing_role,
    McpSetup._add_managed_policy_to_role,
    iam_get_role, iam_create_role, iam_put_role_policy, iam_list_role_policies,
    iam_delete_role, sts_get_caller_identity,
    iam_list_attached_role_policies, iam_attach_role_policy,
    request, try_except, bind, ret, raise.





Lemma truthy_nonempty (arn : string) : arn <> "" -> truthy (Some arn) = true.
Proof.
  intros H. unfold truthy. destruct (String.eqb arn "") eqn:Heq; [| reflexivity].
  apply String.eqb_eq in Heq. contradiction.
Qed.

(** C4, as the code has it.  Started on an empty log:
    - [Agent/aws_setup.py], role found: after the lookup it asks STS for the
      account and sends one [put_role_policy] with the document computed from
      (region, account, agent name), reading no policy first; the ARN found is
      returned only when that write went through;
    - [Agent/aws_setup.py], role not found and created: the same document is
      written right after the creation;
    - [MCP/aws_setup.py], role found: the ARN is returned after the lookup
      alone; no policy is written. *)
Theorem policy_written_when_found_by_agent_not_by_mcp
    (E : env) (agent_name : string) :
  let role_name := ROLE_NAME_TEMPLATE agent_name in
  let policy_name := (AgentSetup.POLICY_NAME ++ "-" ++ agent_name)%string in
  let desired account := AgentSetup._get_role_policy (region_name E) account agent_name in
  (forall found,
     get_role E 0 role_name = Return found ->
     Arn (Role found) <> "" ->
     AgentSetup.get_or_create_role E agent_name [] =
       match get_caller_identity E 1 with
       | Raise e => (Raise e, [Get_role role_name; Sts_get_caller_identity])
       | Return account =>
           (match put_role_policy E 2 (desired account) policy_name role_name with
            | None => Return (Arn (Role found))
            | Some e => Raise e
            end,
            [Get_role role_name; Sts_get_caller_identity;
             Put_role_policy (desired account) policy_name role_name])
       end /\
     forall support_arn,
       McpSetup.get_or_create_role support_arn E agent_name [] =
         (Return (Arn (Role found)), [Get_role role_name])) /\
  (forall not_found account created,
     get_role E 0 role_name = Raise (ClientError "NoSuchEntity" not_found) ->
     get_caller_identity E 1 = Return account ->
     create_role E 2 role_name
       (AgentSetup._get_assume_role_policy (region_name E) account)
       (Some ("Execution role for Bedrock AgentCore agent: " ++ agent_name)%string)
       = Return created ->
     put_role_policy E 3 (desired account) policy_name role_name = None ->
     AgentSetup.get_or_create_role E agent_name [] =
       (Return (Arn (Role created)),
        [Get_role role_name; Sts_get_caller_identity;
         Create_role role_name
           (AgentSetup._get_assume_role_policy (region_name E) account)
           (Some ("Execution role for Bedrock AgentCore agent: " ++ agent_name)%string);
         Put_role_policy (desired account) policy_name role_name])).
Proof.
  intros role_name policy_name desired. split.
  - intros found Hl Hne. apply truthy_nonempty in Hne. split.
    + run_requests. unfold done_or_raise. simpl. fold role_name. rewrite Hl. simpl.
      simpl in Hne. rewrite Hne. simpl.
      destruct (get_caller_identity E 1) as [account|e]; simpl; [| reflexivity].
      subst policy_name desired. simpl.
      match goal with
      | |- context [put_role_policy E 2 ?doc ?name ?role] =>
          destruct (put_role_policy E 2 doc name role)
      end; reflexivity.
    + intros support_arn. run_requests. simpl. fold role_name. rewrite Hl. simpl.
      simpl in Hne. rewrite Hne. reflexivity.
  - intros not_found account created Hl Hs Hc Hp.
    run_requests. unfold done_or_raise. simpl. fold role_name. rewrite Hl. simpl.
    rewrite Hs. simpl. simpl in Hc. rewrite Hc. simpl.
    subst policy_name desired. simpl in Hp |- *. rewrite Hp. reflexivity.
Qed.

Lemma policy_written_when_found_by_agent_not_by_mcp_witness :
  let role_name := SetupScenario.role_name in
  let arn := Arn (Role SetupScenario.the_role) in
  let desired :=
    AgentSetup._get_role_policy (Some "us-east-1") SetupScenario.account
      SetupScenario.agent in
  let policy_name := "AgentExecutionPolicy-awssupportcaseagent" in
  ((get_role SetupScenario.found 0 role_name = Return SetupScenario.the_role /\
    arn <> "") /\
   AgentSetup.get_or_create_role SetupScenario.found SetupScenario.agent [] =
     (Return arn,
      [Get_role role_name; Sts_get_caller_identity;
       Put_role_policy desired policy_name role_name]) /\
   McpSetup.get_or_create_role SetupScenario.support_access SetupScenario.found
     SetupScenario.agent [] = (Return arn, [Get_role role_name])) /\
  ((get_role SetupScenario.fresh 0 role_name = Raise SetupScenario.no_such_entity /\
    get_caller_identity SetupScenario.fresh 1 = Return SetupScenario.account /\
    put_role_policy SetupScenario.fresh 3 desired policy_name role_name = None) /\
   AgentSetup.get_or_create_role SetupScenario.fresh SetupScenario.agent [] =
     (Return arn,
      [Get_role role_name; Sts_get_caller_identity;
       Create_role role_name
         (AgentSetup._get_assume_role_policy (Some "us-east-1") SetupScenario.account)
         (Some "Execution role for Bedrock AgentCore agent: awssupportcaseagent");
       Put_role_policy desired policy_name role_name])).
Proof.
  intros role_name arn desired policy_name.
  assert (Hne : arn <> "") by discriminate.
  destruct (policy_written_when_found_by_agent_not_by_mcp
              SetupScenario.found SetupScenario.agent) as [Hfound _].
  destruct (Hfound SetupScenario.the_role eq_refl Hne) as [HA HM].
  destruct (policy_written_when_found_by_agent_not_by_mcp
              SetupScenario.fresh SetupScenario.agent) as [_ Hcreated].
  split.
  - split; [split; [reflexivity | exact Hne] |].
    split; [exact HA | exact (HM SetupScenario.support_access)].
  - split; [repeat split |].
    exact (Hcreated _ SetupScenario.account SetupScenario.the_role
             eq_refl eq_refl eq_refl eq_refl).
Defined.

(** C4 as worded fails for [MCP/aws_setup.py]: a role that the lookup finds is
    returned without any policy write. *)
Lemma mcp_returns_found_role_without_policy_write :
  ~ SetupSpec.writes_policy_when_found
      (McpSetup.get_or_create_role SetupScenario.support_access).
Proof.
  intros H.
  assert (Hne : Arn (Role SetupScenario.the_role) <> "") by discriminate.
  specialize (H SetupScenario.found SetupScenario.agent SetupScenario.the_role
                (Arn (Role SetupScenario.the_role))
                [Get_role SetupScenario.role_name] eq_refl Hne eq_refl).
  vm_compute in H. discriminate H.
Qed.

End SetupFacts.

(** ** More on [support_case_agent.py] *)

Module AgentMoreFacts.
Import Py PyFacts SupportCaseAgent SupportCaseAgentFacts.

(** *** Percent-encoding of the agent ARN *)

Lemma occurs_app (c : ascii) (a b : string) :
  Observe.occurs c (a ++ b) = (Observe.occurs c a || Observe.occurs c b)%bool.
Proof.
  induction a as [|x a IH]; simpl; [reflexivity |].
  rewrite IH. apply orb_assoc.
Qed.

Lemma replace_removes (old : ascii) (new s : string) :
  Observe.occurs old new = false ->
  Observe.occurs old (replace old new s) = false.
Proof.
  intros Hnew. induction s as [|x s IH]; simpl; [reflexivity |].
  destruct (Ascii.eqb x old) eqn:Hx.
  - rewrite occurs_app, Hnew, IH. reflexivity.
  - simpl. rewrite Hx, IH. reflexivity.
Qed.

Lemma replace_keeps_absent (c old : ascii) (new s : string) :
  Observe.occurs c new = false ->
  Observe.occurs c s = false ->
  Observe.occurs c (replace old new s) = false.
Proof.
  intros Hnew. induction s as [|x s IH]; simpl; [reflexivity |].
  rewrite orb_false_iff. intros [Hx Hs].
  destruct (Ascii.eqb x old).
  - rewrite occurs_app, Hnew, (IH Hs). reflexivity.
  - simpl. rewrite Hx, (IH Hs). reflexivity.
Qed.

Lemma replace_absent (old : ascii) (new s : string) :
  Observe.occurs old s = false -> replace old new s = s.
Proof.
  induction s as [|x s IH]; simpl; [reflexivity |].
  rewrite orb_false_iff. intros [Hx Hs]. rewrite Hx, (IH Hs). reflexivity.
Qed.

(** the [try] of the factory, opened up *)
Ltac open_factory :=
  unfold create_streamable_http_transport, try_except, bind, lift, ret, raise,
    ssm_get_parameter_value, secrets_get_secret_value.

(** X1. The URL of a transport the factory returns is the fixed prefix with
    the region, the encoded agent ARN and the fixed suffix; the encoded ARN
    has no [:] and no [/] left, and an ARN without those two characters is
    passed through as it is. *)
Theorem transport_url_is_percent_encoded
    (E : env) (w w' : world) (tr : transport) :
  create_streamable_http_transport E w = (Return tr, w') ->
  exists agent_arn encoded : string,
    ssm_get_parameter E (clock w) SSM_AGENT_ARN_PARAM = Return agent_arn /\
    mcp_url tr = ("https://bedrock-agentcore." ++ format_region E
                  ++ ".amazonaws.com/runtimes/" ++ encoded
                  ++ "/invocations?qualifier=DEFAULT")%string /\
    Observe.occurs ":" encoded = false /\
    Observe.occurs "/" encoded = false /\
    (Observe.occurs ":" agent_arn = false ->
     Observe.occurs "/" agent_arn = false -> encoded = agent_arn).
Proof.
  open_factory. intros H. break_matches.
  match goal with
  | H : ssm_get_parameter E _ _ = Return ?arn |- _ =>
      exists arn, (replace "/" "%2F" (replace ":" "%3A" arn))
  end.
  split; [first [assumption | reflexivity] |]. split; [reflexivity |].
  split; [apply replace_keeps_absent; [reflexivity | apply replace_removes; reflexivity] |].
  split; [apply replace_removes; reflexivity |].
  intros Hc Hs. rewrite (replace_absent ":" _ _ Hc). apply replace_absent. exact Hs.
Qed.

Lemma transport_url_is_percent_encoded_witness :
  let E := Scenario.expired_then_fresh in
  let w := Scenario.world0 in
  let res := create_streamable_http_transport E w in
  (exists tr, res = (Return tr, snd res)) /\
  (forall tr, res = (Return tr, snd res) ->
     mcp_url tr = "https://bedrock-agentcore.us-east-1.amazonaws.com/runtimes/arn%3Aaws%3Abedrock-agentcore%3Aus-east-1%3A123456789012%3Aruntime%2Fsupport_mcp-Zx9/invocations?qualifier=DEFAULT").
Proof.
  intros E w res. split; [eexists; vm_compute; reflexivity |].
  intros tr H.
  destruct (transport_url_is_percent_encoded E w (snd res) tr H)
    as (arn & enc & _ & Hurl & _).
  vm_compute in H. injection H as <-. reflexivity.
Defined.




(** X4. The transport of the agent and the one [MCP/mcp_client_test.py] builds
    for the same ARN, region and token agree: same URL, and, for a token that
    is a string, same headers. *)
Theorem transport_agrees_with_test_client
    (E : env) (w w' : world) (tr : transport) :
  create_streamable_http_transport E w = (Return tr, w') ->
  exists agent_arn,
    ssm_get_parameter E (clock w) SSM_AGENT_ARN_PARAM = Return agent_arn /\
    mcp_url tr = McpClientTest._build_mcp_url agent_arn (REGION E) /\
    forall token, Spec.stored_bearer_token w = Some (JStr token) ->
      headers tr = McpClientTest._get_request_headers token.
Proof.
  intros H. destruct (factory_reads_store _ _ _ _ H) as [tok [Hst _]].
  revert H. open_factory. intros H. break_matches.
  eexists. split; [reflexivity |]. split; [reflexivity |].
  intros token Htoken. rewrite Htoken in Hst. injection Hst as <-.
  match goal with H : json_loads _ = Return _ |- _ => apply json_loads_Return in H end.
  unfold Spec.stored_bearer_token in Htoken.
  match goal with H : secret w = _ |- _ => rewrite H in Htoken end.
  match goal with
  | H : subscript ?v _ = Return ?x |- _ =>
      destruct (subscript_Return _ _ _ H) as [d [-> Hd]]
  end.
  rewrite Hd in Htoken. injection Htoken as ->. reflexivity.
Qed.

Lemma transport_agrees_with_test_client_witness :
  let E := Scenario.expired_then_fresh in
  let res := create_streamable_http_transport E Scenario.world0 in
  exists tr,
    res = (Return tr, snd res) /\
    mcp_url tr = McpClientTest._build_mcp_url
                   "arn:aws:bedrock-agentcore:us-east-1:123456789012:runtime/support_mcp-Zx9"
                   (Some "us-east-1") /\
    headers tr = McpClientTest._get_request_headers "token-old".
Proof.
  intros E res.
  assert (H : res = (Return (match fst res with
                             | Return tr => tr
                             | Raise _ => streamablehttp_client "" [] 0 false
                             end), snd res)) by (vm_compute; reflexivity).
  eexists. split; [exact H |].
  destruct (transport_agrees_with_test_client E Scenario.world0 _ _ H)
    as (arn & Harn & Hurl & Hhead).
  vm_compute in Harn. injection Harn as <-.
  split; [exact Hurl | apply Hhead; reflexivity].
Defined.

(** *** [refresh_token]: what it sends, and when *)



(** *** [run_with_retry] and [strands_agent_bedrock]: what the caller can rely on *)

(** X6. [run_with_retry] never raises, always makes at least one attempt, and
    leaves the stored bundle untouched unless it entered [refresh_token]. *)
Theorem run_with_retry_never_raises
    (E : env) (user_input : json) (system_prompt : string)
    (w w' : world) (out : list json) (r : outcome unit) :
  run_with_retry E user_input system_prompt w = (out, r, w') ->
  r = Return tt /\
  Spec.attempts (trace w) < Spec.attempts (trace w') /\
  (Spec.refreshes (trace w') = Spec.refreshes (trace w) -> secret w' = secret w).
Proof.
  intros H. destruct (run_with_retry_inv _ _ _ _ _ _ _ H) as [Hr Hway].
  split; [exact Hr |].
  destruct Hway as [[u H1] | [(out1 & e & H1 & _) | [(out1 & e & w1 & e2 & H1 & _ & Hf & _)
    | [(out1 & e & w1 & u & w2 & out2 & u' & H1 & _ & Hf & H2 & _)
      | (out1 & e & w1 & u & w2 & out2 & e2 & H1 & _ & Hf & H2 & _)]]]].
  - destruct (run_once_effect _ _ _ _ _ _ _ H1) as [Hs _].
    apply run_once_totals in H1. split; [lia | intros _; exact Hs].
  - destruct (run_once_effect _ _ _ _ _ _ _ H1) as [Hs _].
    apply run_once_totals in H1. split; [lia | intros _; exact Hs].
  - apply run_once_totals in H1. apply refresh_totals in Hf. split; lia.
  - apply run_once_totals in H1, H2. apply refresh_totals in Hf. split; lia.
  - apply run_once_totals in H1, H2. apply refresh_totals in Hf. split; lia.
Qed.

Lemma run_with_retry_never_raises_witness :
  let E := Scenario.connection_lost in
  let res := run_with_retry E Scenario.prompt "sp" Scenario.world0 in
  res = (fst (fst res), snd (fst res), snd res) /\
  snd (fst res) = Return tt /\
  secret (snd res) = secret Scenario.world0.
Proof.
  intros E res.
  assert (H : res = (fst (fst res), snd (fst res), snd res))
    by (vm_compute; reflexivity).
  split; [exact H |].
  destruct (run_with_retry_never_raises E Scenario.prompt "sp" Scenario.world0
              (snd res) (fst (fst res)) (snd (fst res)) H) as (Hr & _ & Hs).
  split; [exact Hr | apply Hs; vm_compute; reflexivity].
Defined.

(** X7. When the first attempt runs to its end, the run is that attempt and
    nothing more: same output with no error item added, one attempt, no
    refresh, one session, and the stored bundle as before. *)
Theorem run_with_retry_first_attempt_success
    (E : env) (user_input : json) (system_prompt : string)
    (w w1 : world) (out1 : list json) (u : unit) :
  _run_once E user_input system_prompt w = (out1, Return u, w1) ->
  run_with_retry E user_input system_prompt w = (out1, Return tt, w1) /\
  secret w1 = secret w /\
  Spec.attempts (trace w1) = Spec.attempts (trace w) + 1 /\
  Spec.refreshes (trace w1) = Spec.refreshes (trace w) /\
  length (Spec.sessions (trace w1)) = length (Spec.sessions (trace w)) + 1.
Proof.
  intros H1.
  split; [exact (run_first_attempt_succeeds _ _ _ _ _ _ _ H1) |].
  destruct (run_once_effect _ _ _ _ _ _ _ H1) as [Hs (d & f & Hd & _ & Ht & _)].
  destruct (plain_silent E d Hd) as (_ & _ & Hsd & _).
  split; [exact Hs |].
  apply run_once_totals in H1. split; [lia |]. split; [lia |].
  rewrite Ht.
  change (Enter_run_once :: d ++ [Mcp_session f user_input system_prompt])
    with ([Enter_run_once] ++ d ++ [Mcp_session f user_input system_prompt]).
  rewrite !sessions_app, Hsd, !length_app. reflexivity.
Qed.

Lemma run_with_retry_first_attempt_success_witness :
  let E := Scenario.no_data in
  let w1 := Scenario.after_first E in
  _run_once E Scenario.prompt "sp" Scenario.world0 = ([], Return tt, w1) /\
  run_with_retry E Scenario.prompt "sp" Scenario.world0 = ([], Return tt, w1).
Proof.
  intros E w1.
  assert (H : _run_once E Scenario.prompt "sp" Scenario.world0 = ([], Return tt, w1))
    by (vm_compute; reflexivity).
  split; [exact H |].
  exact (proj1 (run_with_retry_first_attempt_success E Scenario.prompt "sp"
                  Scenario.world0 w1 [] tt H)).
Defined.

(** X8. A payload that is not a JSON object has no [get]: the entry point
    yields exactly one error item of type [entrypoint_error] and touches
    nothing, neither SSM nor the secret nor the MCP server. *)
Theorem entrypoint_rejects_non_object_payload
    (E : env) (payload : json) (w : world) :
  (forall fields, payload <> JObj fields) ->
  strands_agent_bedrock E payload w =
    ([error_item ("'" ++ type_name payload ++ "' object has no attribute 'get'")
        "entrypoint_error"],
     Return tt, w).
Proof.
  intros H. unfold strands_agent_bedrock, gtry, gbind, lift, gyield.
  destruct payload; try reflexivity. elim (H fields). reflexivity.
Qed.

Lemma entrypoint_rejects_non_object_payload_witness :
  strands_agent_bedrock Scenario.expired_then_fresh (JArr [JStr "prompt"]) Scenario.world0 =
    ([error_item "'list' object has no attribute 'get'" "entrypoint_error"],
     Return tt, Scenario.world0).
Proof.
  apply (entrypoint_rejects_non_object_payload Scenario.expired_then_fresh
           (JArr [JStr "prompt"]) Scenario.world0).
  intros fields H. discriminate H.
Defined.

(** X9. For a payload that is a JSON object the entry point adds nothing to
    [run_with_retry]: its stream and its effects are those of
    [run_with_retry] on the payload's ["prompt"], or on the default question
    when the key is missing, so no item of type [entrypoint_error] is made. *)
Theorem entrypoint_is_run_with_retry_on_objects
    (E : env) (fields : dict) (w : world) :
  strands_agent_bedrock E (JObj fields) w =
    run_with_retry E
      (match dict_get "prompt" fields with
       | Some user_input => user_input
       | None => JStr "show me the case in the past four weeks?"
       end)
      (get_system_prompt E (clock w)) w.
Proof.
  unfold strands_agent_bedrock, gtry, gbind, lift, get_default.
  destruct (dict_get "prompt" fields) as [user_input|];
    rewrite async_for_yield;
    match goal with
    | |- context [run_with_retry E ?u ?sp w] =>
        destruct (run_with_retry E u sp w) as [[out r] w'] eqn:Hrun;
        destruct (run_with_retry_inv _ _ _ _ _ _ _ Hrun) as [-> _]
    end; reflexivity.
Qed.

Lemma string_app_assoc (a b c : string) :
  ((a ++ b) ++ c = a ++ (b ++ c))%string.
Proof. induction a as [|x a IH]; simpl; [reflexivity | rewrite IH; reflexivity]. Qed.

(** X10. Wrapping does not change the classification: a message that passes
    the test of line 141 still passes it with any text put before and after
    it, and the test does not depend on the case of the message. *)
Theorem token_expired_survives_wrapping (err_msg before after : string) :
  (token_expired err_msg = true ->
   token_expired (before ++ err_msg ++ after) = true) /\
  token_expired (lower err_msg) = token_expired err_msg.
Proof.
  split.
  - unfold token_expired. rewrite !contains_spec.
    intros (pre & post & H).
    exists (lower before ++ pre)%string, (post ++ lower after)%string.
    rewrite !lower_app, H.
    rewrite !string_app_assoc. reflexivity.
  - unfold token_expired. f_equal.
    induction err_msg as [|c s IH]; simpl; [reflexivity |].
    rewrite IH. f_equal.
    unfold lower_char.
    destruct ((65 <=? nat_of_ascii c)%nat && (nat_of_ascii c <=? 90)%nat)%bool eqn:Hc.
    + apply andb_true_iff in Hc. destruct Hc as [H1 H2].
      apply Nat.leb_le in H1, H2.
      rewrite nat_ascii_embedding by lia.
      replace ((65 <=? nat_of_ascii c + 32)%nat && (nat_of_ascii c + 32 <=? 90)%nat)%bool
        with false; [reflexivity |].
      symmetry. apply andb_false_iff. right. apply Nat.leb_gt. lia.
    + rewrite Hc. reflexivity.
Qed.

Lemma token_expired_survives_wrapping_witness :
  token_expired "the client initialization failed" = true /\
  token_expired ("MCPClientInitializationError: " ++ "the client initialization failed"
                 ++ " (caused by 401)") = true.
Proof.
  assert (H : token_expired "the client initialization failed" = true) by reflexivity.
  split; [exact H |].
  exact (proj1 (token_expired_survives_wrapping "the client initialization failed"
                  "MCPClientInitializationError: " " (caused by 401)") H).
Defined.

(** *** [_run_once]: what reaches the caller *)





Lemma plain_has_no_session (d : list call) :
  forallb Spec.is_plain d = true ->
  forall f u sp, ~ In (Mcp_session f u sp) d.
Proof.
  induction d as [|c d IH]; simpl; [intros _ f u sp [] |].
  rewrite andb_true_iff. intros [Hc Hd] f u sp [Heq | Hin].
  - subst c. discriminate Hc.
  - exact (IH Hd f u sp Hin).
Qed.

(** X27. The retry replays the same request: every MCP session opened during
    a run of [run_with_retry], the first and the one after a refresh alike,
    is opened with the user input and the system prompt the run was given. *)
Theorem run_with_retry_replays_same_request
    (E : env) (user_input : json) (system_prompt : string)
    (w w' : world) (out : list json) (r : outcome unit) :
  run_with_retry E user_input system_prompt w = (out, r, w') ->
  exists d,
    trace w' = trace w ++ d /\
    forall f u sp, In (Mcp_session f u sp) d -> u = user_input /\ sp = system_prompt.
Proof.
  assert (Hone : forall w0 w1 o r0,
            _run_once E user_input system_prompt w0 = (o, r0, w1) ->
            exists d, trace w1 = trace w0 ++ d /\
              forall f u sp, In (Mcp_session f u sp) d ->
                u = user_input /\ sp = system_prompt).
  { intros w0 w1 o r0 H.
    destruct (run_once_effect _ _ _ _ _ _ _ H) as [_ (d & f & Hd & _ & Ht & _)].
    eexists. split; [exact Ht |].
    intros f' u sp [Heq | Hin]; [discriminate Heq |].
    apply in_app_or in Hin. destruct Hin as [Hin | [Heq | []]].
    - elim (plain_has_no_session d Hd _ _ _ Hin).
    - injection Heq as _ <- <-. auto. }
  assert (Hrefresh : forall w0 w1 r0,
            refresh_token E w0 = (r0, w1) ->
            exists d, trace w1 = trace w0 ++ d /\
              forall f u sp, ~ In (Mcp_session f u sp) d).
  { intros w0 w1 r0 H. destruct (refresh_effect _ _ _ _ H) as (d & Ht & Hd).
    eexists. split; [exact Ht |].
    intros f u sp [Heq | Hin]; [discriminate Heq |].
    exact (plain_has_no_session d Hd _ _ _ Hin). }
  intros H. destruct (run_with_retry_inv _ _ _ _ _ _ _ H) as [_ Hway].
  destruct Hway as [[u H1] | [(out1 & e & H1 & _) | [(out1 & e & w1 & e2 & H1 & _ & Hf & _)
    | [(out1 & e & w1 & u & w2 & out2 & u' & H1 & _ & Hf & H2 & _)
      | (out1 & e & w1 & u & w2 & out2 & e2 & H1 & _ & Hf & H2 & _)]]]].
  - exact (Hone _ _ _ _ H1).
  - exact (Hone _ _ _ _ H1).
  - destruct (Hone _ _ _ _ H1) as (d1 & Ht1 & Hs1).
    destruct (Hrefresh _ _ _ Hf) as (dr & Htr & Hsr).
    exists (d1 ++ dr). split; [rewrite Htr, Ht1, app_assoc; reflexivity |].
    intros f u0 sp Hin. apply in_app_or in Hin. destruct Hin as [Hin | Hin].
    + exact (Hs1 _ _ _ Hin).
    + elim (Hsr _ _ _ Hin).
  - destruct (Hone _ _ _ _ H1) as (d1 & Ht1 & Hs1).
    destruct (Hrefresh _ _ _ Hf) as (dr & Htr & Hsr).
    destruct (Hone _ _ _ _ H2) as (d2 & Ht2 & Hs2).
    exists (d1 ++ dr ++ d2).
    split; [rewrite Ht2, Htr, Ht1, <- !app_assoc; reflexivity |].
    intros f u0 sp Hin. apply in_app_or in Hin. destruct Hin as [Hin | Hin].
    + exact (Hs1 _ _ _ Hin).
    + apply in_app_or in Hin. destruct Hin as [Hin | Hin].
      * elim (Hsr _ _ _ Hin).
      * exact (Hs2 _ _ _ Hin).
  - destruct (Hone _ _ _ _ H1) as (d1 & Ht1 & Hs1).
    destruct (Hrefresh _ _ _ Hf) as (dr & Htr & Hsr).
    destruct (Hone _ _ _ _ H2) as (d2 & Ht2 & Hs2).
    exists (d1 ++ dr ++ d2).
    split; [rewrite Ht2, Htr, Ht1, <- !app_assoc; reflexivity |].
    intros f u0 sp Hin. apply in_app_or in Hin. destruct Hin as [Hin | Hin].
    + exact (Hs1 _ _ _ Hin).
    + apply in_app_or in Hin. destruct Hin as [Hin | Hin].
      * elim (Hsr _ _ _ Hin).
      * exact (Hs2 _ _ _ Hin).
Qed.

Lemma run_with_retry_replays_same_request_witness :
  let E := Scenario.expired_then_fresh in
  let res := run_with_retry E Scenario.prompt "sp" Scenario.world0 in
  res = (fst (fst res), snd (fst res), snd res) /\
  length (Spec.sessions (trace (snd res))) = 2 /\
  exists d, trace (snd res) = trace Scenario.world0 ++ d /\
    forall f u sp, In (Mcp_session f u sp) d -> u = Scenario.prompt /\ sp = "sp".
Proof.
  intros E res.
  assert (H : res = (fst (fst res), snd (fst res), snd res))
    by (vm_compute; reflexivity).
  split; [exact H |]. split; [vm_compute; reflexivity |].
  exact (run_with_retry_replays_same_request E Scenario.prompt "sp" Scenario.world0
           (snd res) (fst (fst res)) (snd (fst res)) H).
Defined.

End AgentMoreFacts.

(** ** More on the role reconciler, both deployments *)

Module SetupMoreFacts.
Import Py Iam SetupFacts.

(** X11. A lookup failure other than "no such entity" is fatal in both
    deployments: [get_or_create_role] raises it unchanged and sends nothing
    after the lookup. *)
Theorem lookup_failure_is_raised_unchanged
    (E : env) (agent_name support_arn : string) (e : exn) :
  get_role E 0 (ROLE_NAME_TEMPLATE agent_name) = Raise e ->
  has_code e "NoSuchEntity" = false ->
  AgentSetup.get_or_create_role E agent_name [] =
    (Raise e, [Get_role (ROLE_NAME_TEMPLATE agent_name)]) /\
  McpSetup.get_or_create_role support_arn E agent_name [] =
    (Raise e, [Get_role (ROLE_NAME_TEMPLATE agent_name)]).
Proof.
  intros Hl Hc. split; run_requests; simpl; rewrite Hl; simpl; rewrite Hc; reflexivity.
Qed.

Lemma lookup_failure_is_raised_unchanged_witness :
  let denied := ClientError "AccessDenied"
    "An error occurred (AccessDenied) when calling the GetRole operation: not authorized" in
  let E := SetupScenario.make_env (fun _ => Raise denied)
             (fun _ => Return SetupScenario.the_role) in
  (get_role E 0 (ROLE_NAME_TEMPLATE SetupScenario.agent) = Raise denied /\
   has_code denied "NoSuchEntity" = false) /\
  AgentSetup.get_or_create_role E SetupScenario.agent [] =
    (Raise denied, [Get_role (ROLE_NAME_TEMPLATE SetupScenario.agent)]) /\
  McpSetup.get_or_create_role SetupScenario.support_access E SetupScenario.agent [] =
    (Raise denied, [Get_role (ROLE_NAME_TEMPLATE SetupScenario.agent)]).
Proof.
  intros denied E. split; [split; reflexivity |].
  exact (lookup_failure_is_raised_unchanged E SetupScenario.agent
           SetupScenario.support_access denied eq_refl eq_refl).
Defined.

(** X12. A creation failure other than "already exists" is fatal in both
    deployments: after a lookup that found nothing, the error of [create_role]
    is raised unchanged and no policy is written. *)
Theorem creation_failure_is_raised_unchanged
    (E : env) (agent_name support_arn account not_found : string) (e : exn) :
  let role_name := ROLE_NAME_TEMPLATE agent_name in
  get_role E 0 role_name = Raise (ClientError "NoSuchEntity" not_found) ->
  get_caller_identity E 1 = Return account ->
  (forall document description,
     create_role E 2 role_name document description = Raise e) ->
  has_code e "EntityAlreadyExists" = false ->
  AgentSetup.get_or_create_role E agent_name [] =
    (Raise e,
     [Get_role role_name; Sts_get_caller_identity;
      Create_role role_name
        (AgentSetup._get_assume_role_policy (region_name E) account)
        (Some ("Execution role for Bedrock AgentCore agent: " ++ agent_name)%string)]) /\
  McpSetup.get_or_create_role support_arn E agent_name [] =
    (Raise e,
     [Get_role role_name; Sts_get_caller_identity;
      Create_role role_name
        (McpSetup._get_assume_role_policy (region_name E) account) None]).
Proof.
  intros role_name Hl Hs Hc He.
  split; run_requests; simpl; fold role_name; rewrite Hl; simpl; rewrite Hs; simpl;
    rewrite Hc; simpl; rewrite He; reflexivity.
Qed.

Lemma creation_failure_is_raised_unchanged_witness :
  let limit := ClientError "LimitExceeded"
    "An error occurred (LimitExceeded) when calling the CreateRole operation: Cannot exceed quota for RolesPerAccount" in
  let E := SetupScenario.make_env (fun _ => Raise SetupScenario.no_such_entity)
             (fun _ => Raise limit) in
  fst (AgentSetup.get_or_create_role E SetupScenario.agent []) = Raise limit /\
  fst (McpSetup.get_or_create_role SetupScenario.support_access E SetupScenario.agent [])
    = Raise limit.
Proof.
  intros limit E.
  destruct (creation_failure_is_raised_unchanged E SetupScenario.agent
              SetupScenario.support_access SetupScenario.account _ limit
              eq_refl eq_refl (fun _ _ => eq_refl) eq_refl) as [HA HM].
  rewrite HA, HM. split; reflexivity.
Defined.

(** X13. In [Agent/aws_setup.py] the role is created before its policy is
    written, in two requests: when the write fails (with any code but
    "EntityAlreadyExists") the error is raised and the role stays created
    without its inline policy; nothing is rolled back. *)
Theorem agent_policy_write_failure_leaves_role
    (E : env) (agent_name account not_found : string) (created : role_response)
    (e : exn) :
  let role_name := ROLE_NAME_TEMPLATE agent_name in
  let assume := AgentSetup._get_assume_role_policy (region_name E) account in
  let description :=
    Some ("Execution role for Bedrock AgentCore agent: " ++ agent_name)%string in
  let desired := AgentSetup._get_role_policy (region_name E) account agent_name in
  let policy_name := (AgentSetup.POLICY_NAME ++ "-" ++ agent_name)%string in
  get_role E 0 role_name = Raise (ClientError "NoSuchEntity" not_found) ->
  get_caller_identity E 1 = Return account ->
  create_role E 2 role_name assume description = Return created ->
  put_role_policy E 3 desired policy_name role_name = Some e ->
  has_code e "EntityAlreadyExists" = false ->
  AgentSetup.get_or_create_role E agent_name [] =
    (Raise e,
     [Get_role role_name; Sts_get_caller_identity;
      Create_role role_name assume description;
      Put_role_policy desired policy_name role_name]).
Proof.
  intros role_name assume description desired policy_name Hl Hs Hc Hp He.
  subst assume description desired policy_name.
  run_requests. unfold done_or_raise. simpl. fold role_name. rewrite Hl. simpl.
  rewrite Hs. simpl. simpl in Hc. rewrite Hc. simpl. simpl in Hp. rewrite Hp.
  simpl. rewrite He. reflexivity.
Qed.

Lemma agent_policy_write_failure_leaves_role_witness :
  let denied := ClientError "AccessDenied"
    "An error occurred (AccessDenied) when calling the PutRolePolicy operation: not authorized" in
  let E :=
    {| region_name := Some "us-east-1";
       get_caller_identity := fun _ => Return SetupScenario.account;
       get_role := fun _ _ => Raise SetupScenario.no_such_entity;
       create_role := fun _ _ _ _ => Return SetupScenario.the_role;
       put_role_policy := fun _ _ _ _ => Some denied;
       list_role_policies := fun _ _ _ => Return [];
       delete_role_policy := fun _ _ _ => None;
       delete_role := fun _ _ => None;
       list_attached_role_policies := fun _ _ => Return [];
       attach_role_policy := fun _ _ _ => Return (JObj []) |} in
  fst (AgentSetup.get_or_create_role E SetupScenario.agent []) = Raise denied /\
  Observe.count Observe.is_create_role
    (snd (AgentSetup.get_or_create_role E SetupScenario.agent [])) = 1.
Proof.
  intros denied E.
  rewrite (agent_policy_write_failure_leaves_role E SetupScenario.agent
             SetupScenario.account _ SetupScenario.the_role denied
             eq_refl eq_refl eq_refl eq_refl eq_refl).
  split; reflexivity.
Defined.

(** *** [_cleanup_existing_role] *)

(** the deletion loop either gets through the whole list or stops at the
    first deletion that fails *)
Lemma delete_policies_cases (E : env) (role_name : string) (names : list string)
    (sent sent' : list call) (r : outcome unit) :
  for_each names (fun policy_name => iam_delete_role_policy E role_name policy_name) sent
    = (r, sent') ->
  (r = Return tt /\
   sent' = sent ++ map (Delete_role_policy role_name) names /\
   forall i name, nth_error names i = Some name ->
     delete_role_policy E (length sent + i) role_name name = None) \/
  (exists k name e,
     nth_error names k = Some name /\
     delete_role_policy E (length sent + k) role_name name = Some e /\
     (forall i other, i < k -> nth_error names i = Some other ->
        delete_role_policy E (length sent + i) role_name other = None) /\
     r = Raise e /\
     sent' = sent ++ map (Delete_role_policy role_name) (firstn (S k) names)).
Proof.
  revert sent; induction names as [|name names IH]; intros sent; simpl.
  - unfold ret. intros H. injection H as <- <-. left.
    split; [reflexivity |]. split; [rewrite app_nil_r; reflexivity |].
    intros [|i] other H; discriminate H.
  - unfold bind at 1. unfold iam_delete_role_policy at 1, request, done_or_raise.
    destruct (delete_role_policy E (length sent) role_name name) as [e|] eqn:Hd.
    + intros H. injection H as <- <-. right. exists 0, name, e.
      rewrite Nat.add_0_r. split; [reflexivity |]. split; [exact Hd |].
      split; [intros i other Hi; exfalso; lia |]. split; reflexivity.
    + intros H. destruct (IH _ H) as [(-> & -> & Hall) | (k & n & e & Hn & He & Hbefore & -> & ->)].
      * left. split; [reflexivity |]. split; [rewrite <- app_assoc; reflexivity |].
        intros [|i] other Hi; simpl in Hi.
        -- injection Hi as <-. rewrite Nat.add_0_r. exact Hd.
        -- specialize (Hall i other Hi). rewrite length_app in Hall. simpl in Hall.
           replace (length sent + S i) with (length sent + 1 + i) by lia. exact Hall.
      * right. exists (S k), n, e. rewrite length_app in He. simpl in He.
        split; [exact Hn |].
        split; [replace (length sent + S k) with (length sent + 1 + k) by lia; exact He |].
        split.
        -- intros [|i] other Hi Hnth; simpl in Hnth.
           ++ injection Hnth as <-. rewrite Nat.add_0_r. exact Hd.
           ++ assert (Hi' : i < k) by lia. specialize (Hbefore i other Hi' Hnth).
              rewrite length_app in Hbefore. simpl in Hbefore.
              replace (length sent + S i) with (length sent + 1 + i) by lia.
              exact Hbefore.
        -- split; [reflexivity |]. rewrite <- app_assoc. reflexivity.
Qed.

Lemma policy_deletions_keep_role (role_name : string) (names : list string) :
  filter Observe.is_delete_role (map (Delete_role_policy role_name) names) = [].
Proof. induction names as [|x l IH]; simpl; [reflexivity | exact IH]. Qed.

(** X14. [_cleanup_existing_role] deletes the role only after the listing and
    every deletion of a listed inline policy went through.  A failed listing
    stops it at once; the first failed deletion stops it with that error, the
    later policies and the role itself left in place. *)
Theorem cleanup_deletes_role_last
    (E : env) (role_name : string) (sent sent' : list call) (r : outcome unit) :
  McpSetup._cleanup_existing_role E role_name sent = (r, sent') ->
  let listing := List_role_policies role_name McpSetup.MAX_POLICIES_TO_LIST in
  match list_role_policies E (length sent) role_name McpSetup.MAX_POLICIES_TO_LIST with
  | Raise e => r = Raise e /\ sent' = sent ++ [listing]
  | Return names =>
      (sent' = sent ++ [listing] ++ map (Delete_role_policy role_name) names
                    ++ [Delete_role role_name] /\
       (forall i name, nth_error names i = Some name ->
          delete_role_policy E (length sent + 1 + i) role_name name = None) /\
       r = Iam.done_or_raise (delete_role E (length sent + 1 + length names) role_name)) \/
      (exists k name e,
         nth_error names k = Some name /\
         delete_role_policy E (length sent + 1 + k) role_name name = Some e /\
         r = Raise e /\
         sent' = sent ++ [listing]
                      ++ map (Delete_role_policy role_name) (firstn (S k) names) /\
         Observe.count Observe.is_delete_role sent' = Observe.count Observe.is_delete_role sent)
  end.
Proof.
  unfold McpSetup._cleanup_existing_role, iam_list_role_policies, iam_delete_role.
  unfold bind at 1. unfold request at 1.
  destruct (list_role_policies E (length sent) role_name McpSetup.MAX_POLICIES_TO_LIST)
    as [names|e]; intros H; cbv zeta.
  - unfold bind in H.
    destruct (for_each names
                (fun policy_name => iam_delete_role_policy E role_name policy_name)
                (sent ++ [List_role_policies role_name McpSetup.MAX_POLICIES_TO_LIST]))
      as [r0 sent0] eqn:Hloop.
    destruct (delete_policies_cases _ _ _ _ _ _ Hloop)
      as [(-> & -> & Hall) | (k & n & e & Hn & He & _ & -> & ->)].
    + left. unfold request in H. injection H as <- <-.
      rewrite length_app in Hall. simpl in Hall.
      split; [rewrite <- !app_assoc; reflexivity |]. split; [exact Hall |].
      rewrite !length_app, length_map. reflexivity.
    + right. injection H as <- <-. rewrite length_app in He. simpl in He.
      exists k, n, e. split; [exact Hn |]. split; [exact He |].
      split; [reflexivity |]. split; [rewrite <- app_assoc; reflexivity |].
      unfold Observe.count.
      rewrite !filter_app, !length_app, policy_deletions_keep_role.
      simpl. lia.
  - injection H as <- <-. split; reflexivity.
Qed.

Lemma cleanup_deletes_role_last_witness :
  let throttled := ClientError "Throttling"
    "An error occurred (Throttling) when calling the DeleteRolePolicy operation: Rate exceeded" in
  let E :=
    {| region_name := Some "us-east-1";
       get_caller_identity := fun _ => Return SetupScenario.account;
       get_role := fun _ _ => Return SetupScenario.the_role;
       create_role := fun _ _ _ _ => Return SetupScenario.the_role;
       put_role_policy := fun _ _ _ _ => None;
       list_role_policies := fun _ _ _ => Return ["First"; "Second"; "Third"];
       delete_role_policy := fun _ _ name =>
         if String.eqb name "Second" then Some throttled else None;
       delete_role := fun _ _ => None;
       list_attached_role_policies := fun _ _ => Return [];
       attach_role_policy := fun _ _ _ => Return (JObj []) |} in
  let res := McpSetup._cleanup_existing_role E SetupScenario.role_name [] in
  res = (Raise throttled,
         [List_role_policies SetupScenario.role_name 100;
          Delete_role_policy SetupScenario.role_name "First";
          Delete_role_policy SetupScenario.role_name "Second"]) /\
  Observe.count Observe.is_delete_role (snd res) = 0.
Proof.
  intros throttled E res.
  assert (H : res = (fst res, snd res)) by reflexivity.
  pose proof (cleanup_deletes_role_last E SetupScenario.role_name [] (snd res) (fst res) H)
    as Hcases.
  split; reflexivity.
Defined.

(** *** [_add_managed_policy_to_role] *)

(** X15. [_add_managed_policy_to_role] attaches the managed policy only when
    the role does not have it yet: with the ARN among the attached policies it
    sends no [attach_role_policy] and returns [None]; otherwise it sends
    exactly one, and a failure of it is raised. *)
Theorem managed_policy_attached_only_when_missing
    (E : env) (role_name policy_arn : string) (sent : list call)
    (attached : list attached_policy) :
  list_attached_role_policies E (length sent) role_name = Return attached ->
  ((exists policy, In policy attached /\ PolicyArn policy = policy_arn) ->
   McpSetup._add_managed_policy_to_role E role_name policy_arn sent =
     (Return None, sent ++ [List_attached_role_policies role_name])) /\
  ((forall policy, In policy attached -> PolicyArn policy <> policy_arn) ->
   McpSetup._add_managed_policy_to_role E role_name policy_arn sent =
     (match attach_role_policy E (length sent + 1) role_name policy_arn with
      | Return response => Return (Some response)
      | Raise e => Raise e
      end,
      sent ++ [List_attached_role_policies role_name;
               Attach_role_policy role_name policy_arn])).
Proof.
  intros Hlist. split.
  - intros (policy & Hin & Harn).
    assert (Hex : existsb (fun p => String.eqb (PolicyArn p) policy_arn) attached = true).
    { apply existsb_exists. exists policy. split; [exact Hin |].
      apply String.eqb_eq. exact Harn. }
    run_requests. rewrite Hlist. simpl. rewrite Hex. reflexivity.
  - intros Hnone.
    assert (Hex : existsb (fun p => String.eqb (PolicyArn p) policy_arn) attached = false).
    { destruct (existsb _ attached) eqn:Hb; [| reflexivity].
      apply existsb_exists in Hb. destruct Hb as (p & Hin & Heq).
      apply String.eqb_eq in Heq. elim (Hnone p Hin Heq). }
    run_requests. rewrite Hlist. simpl. rewrite Hex. simpl.
    rewrite length_app. simpl.
    destruct (attach_role_policy E (length sent + 1) role_name policy_arn);
      rewrite <- app_assoc; reflexivity.
Qed.

Lemma managed_policy_attached_only_when_missing_witness :
  let already :=
    [{| PolicyName := "AWSSupportAccess"; PolicyArn := SetupScenario.support_access |}] in
  let E :=
    {| region_name := Some "us-east-1";
       get_caller_identity := fun _ => Return SetupScenario.account;
       get_role := fun _ _ => Return SetupScenario.the_role;
       create_role := fun _ _ _ _ => Return SetupScenario.the_role;
       put_role_policy := fun _ _ _ _ => None;
       list_role_policies := fun _ _ _ => Return [];
       delete_role_policy := fun _ _ _ => None;
       delete_role := fun _ _ => None;
       list_attached_role_policies := fun _ _ => Return already;
       attach_role_policy := fun _ _ _ => Return (JObj []) |} in
  McpSetup._add_managed_policy_to_role E SetupScenario.role_name
    SetupScenario.support_access [] =
    (Return None, [List_attached_role_policies SetupScenario.role_name]) /\
  McpSetup._add_managed_policy_to_role SetupScenario.fresh SetupScenario.role_name
    SetupScenario.support_access [] =
    (Return (Some (JObj [])),
     [List_attached_role_policies SetupScenario.role_name;
      Attach_role_policy SetupScenario.role_name SetupScenario.support_access]).
Proof.
  intros already E. split.
  - apply (proj1 (managed_policy_attached_only_when_missing E
                    SetupScenario.role_name SetupScenario.support_access [] already eq_refl)).
    eexists. split; [left; reflexivity | reflexivity].
  - apply (proj2 (managed_policy_attached_only_when_missing SetupScenario.fresh
                    SetupScenario.role_name SetupScenario.support_access [] [] eq_refl)).
    intros policy [].
Defined.

(** *** Names *)

Lemma string_length_app (a b : string) :
  String.length (a ++ b) = String.length a + String.length b.
Proof. induction a as [|c a IH]; simpl; [reflexivity | rewrite IH; reflexivity]. Qed.

Lemma string_app_inv_tail (a b s : string) :
  (a ++ s = b ++ s)%string -> a = b.
Proof.
  revert b; induction a as [|c a IH]; intros [|d b] H; simpl in H.
  - reflexivity.
  - apply (f_equal String.length) in H. simpl in H.
    rewrite string_length_app in H. lia.
  - apply (f_equal String.length) in H. simpl in H.
    rewrite string_length_app in H. lia.
  - injection H as -> H. rewrite (IH _ H). reflexivity.
Qed.

(** X16. Two agents never share a role or, in [Agent/aws_setup.py], an
    inline policy name: the role name and the policy name determine the
    agent name they were made from. *)
Theorem names_determine_agent (a b : string) :
  a <> b ->
  ROLE_NAME_TEMPLATE a <> ROLE_NAME_TEMPLATE b /\
  (AgentSetup.POLICY_NAME ++ "-" ++ a)%string
    <> (AgentSetup.POLICY_NAME ++ "-" ++ b)%string.
Proof.
  intros Hne. split; intros H; apply Hne.
  - unfold ROLE_NAME_TEMPLATE in H. simpl in H.
    repeat match type of H with String _ _ = String _ _ => injection H as H end.
    exact (string_app_inv_tail _ _ _ H).
  - unfold AgentSetup.POLICY_NAME in H. simpl in H.
    repeat match type of H with String _ _ = String _ _ => injection H as H end.
    exact H.
Qed.

Lemma names_determine_agent_witness :
  "awssupportcaseagent" <> "awssupportmcpserver" /\
  ROLE_NAME_TEMPLATE "awssupportcaseagent" <> ROLE_NAME_TEMPLATE "awssupportmcpserver".
Proof.
  assert (H : "awssupportcaseagent" <> "awssupportmcpserver") by discriminate.
  split; [exact H |].
  exact (proj1 (names_determine_agent _ _ H)).
Defined.

(** *** Bounds on what a reconciliation sends *)

Ltac split_cases :=
  repeat match goal with
    | |- context [match ?x with _ => _ end] =>
        lazymatch x with
        | context [match _ with _ => _ end] => fail
        | _ => destruct x
        end
    end.

(** X17. [get_or_create_role] of [Agent/aws_setup.py] never deletes anything,
    whatever the services answer: it sends at most five requests, at most one
    of them a [create_role], and none that deletes a role or a policy. *)
Theorem agent_reconciler_never_deletes (E : env) (agent_name : string) :
  let sent := snd (AgentSetup.get_or_create_role E agent_name []) in
  existsb SetupSpec.is_destructive sent = false /\
  Observe.count Observe.is_create_role sent <= 1 /\
  length sent <= 5.
Proof.
  run_requests. unfold done_or_raise, Observe.count. simpl.
  split_cases; simpl; repeat split; lia.
Qed.

Lemma policy_deletions_create_nothing (role_name : string) (names : list string) :
  filter Observe.is_create_role (map (Delete_role_policy role_name) names) = [].
Proof. induction names as [|x l IH]; simpl; [reflexivity | exact IH]. Qed.

Lemma has_code_true (e : exn) (code : string) :
  has_code e code = true -> exists message, e = ClientError code message.
Proof.
  destruct e as [c m|m]; simpl; [| discriminate].
  intros H. apply String.eqb_eq in H. subst c. eauto.
Qed.

Ltac split_requests :=
  repeat (simpl;
    match goal with
    | |- context [match ?x with _ => _ end] =>
        lazymatch x with
        | context [match _ with _ => _ end] => fail
        | for_each _ _ _ =>
            let H := fresh "Hloop" in
            destruct x as [? ?] eqn:H; apply delete_policies_cases in H;
            destruct H as [(-> & -> & _) | (? & ? & ? & _ & _ & _ & -> & ->)]
        | _ => destruct x eqn:?
        end
    end).

(** X18. [get_or_create_role] of [MCP/aws_setup.py] sends [create_role] at
    most twice and [delete_role] at most once, whatever the services answer,
    and it deletes a policy or the role only in a run whose first
    [create_role] was answered "EntityAlreadyExists". *)
Theorem mcp_reconciler_deletes_only_on_already_exists
    (E : env) (support_arn agent_name : string) :
  let role_name := ROLE_NAME_TEMPLATE agent_name in
  let sent := snd (McpSetup.get_or_create_role support_arn E agent_name []) in
  Observe.count Observe.is_create_role sent <= 2 /\
  Observe.count Observe.is_delete_role sent <= 1 /\
  (existsb SetupSpec.is_destructive sent = true ->
   exists account message,
     get_caller_identity E 1 = Return account /\
     create_role E 2 role_name
       (McpSetup._get_assume_role_policy (region_name E) account) None
       = Raise (ClientError "EntityAlreadyExists" message)).
Proof.
  intros role_name. run_requests. unfold done_or_raise, Observe.count.
  fold role_name.
  split_requests;
    (split;
     [ repeat (simpl; rewrite ?filter_app, ?length_app,
                 ?policy_deletions_create_nothing); simpl; lia
     | split;
       [ repeat (simpl; rewrite ?filter_app, ?length_app,
                   ?policy_deletions_keep_role); simpl; lia
       | intros Hd;
         first [ simpl in Hd; discriminate Hd
               | match goal with
                 | H : has_code ?e _ = true |- _ =>
                     destruct (has_code_true _ _ H) as [message ->]
                 end; eauto ] ] ]).
Qed.

Lemma mcp_reconciler_deletes_only_on_already_exists_witness :
  let sent := snd (McpSetup.get_or_create_role SetupScenario.support_access
                     SetupScenario.raced SetupScenario.agent []) in
  existsb SetupSpec.is_destructive sent = true /\
  exists account message,
    get_caller_identity SetupScenario.raced 1 = Return account /\
    create_role SetupScenario.raced 2 SetupScenario.role_name
      (McpSetup._get_assume_role_policy (Some "us-east-1") account) None
      = Raise (ClientError "EntityAlreadyExists" message).
Proof.
  intros sent.
  assert (H : existsb SetupSpec.is_destructive sent = true) by (vm_compute; reflexivity).
  split; [exact H |].
  exact (proj2 (proj2 (mcp_reconciler_deletes_only_on_already_exists
                         SetupScenario.raced SetupScenario.support_access
                         SetupScenario.agent)) H).
Defined.

(** X19. In [MCP/aws_setup.py] a role that had to be created gets its inline
    policy and then the managed support policy: after a lookup that found
    nothing and a creation that went through, [put_role_policy] is sent with
    the document computed from (region, account, agent name) under the fixed
    policy name, the attached policies are listed, and the managed policy is
    attached when it is not among them; the ARN of the created role is
    returned when these calls succeed. *)
Theorem mcp_created_role_gets_both_policies
    (E : env) (support_arn agent_name account not_found : string)
    (created : role_response) (attached : list attached_policy) (response : json) :
  let role_name := ROLE_NAME_TEMPLATE agent_name in
  let assume := McpSetup._get_assume_role_policy (region_name E) account in
  let desired := McpSetup._get_role_policy (region_name E) account agent_name in
  get_role E 0 role_name = Raise (ClientError "NoSuchEntity" not_found) ->
  get_caller_identity E 1 = Return account ->
  create_role E 2 role_name assume None = Return created ->
  put_role_policy E 3 desired McpSetup.POLICY_NAME role_name = None ->
  list_attached_role_policies E 4 role_name = Return attached ->
  (forall policy, In policy attached -> PolicyArn policy <> support_arn) ->
  attach_role_policy E 5 role_name support_arn = Return response ->
  McpSetup.get_or_create_role support_arn E agent_name [] =
    (Return (Arn (Role created)),
     [Get_role role_name; Sts_get_caller_identity;
      Create_role role_name assume None;
      Put_role_policy desired McpSetup.POLICY_NAME role_name;
      List_attached_role_policies role_name;
      Attach_role_policy role_name support_arn]).
Proof.
  intros role_name assume desired Hl Hs Hc Hp Hlist Hnone Hattach.
  assert (Hex : existsb (fun p => String.eqb (PolicyArn p) support_arn) attached = false).
  { destruct (existsb _ attached) eqn:Hb; [| reflexivity].
    apply existsb_exists in Hb. destruct Hb as (p & Hin & Heq).
    apply String.eqb_eq in Heq. elim (Hnone p Hin Heq). }
  subst assume desired.
  run_requests. unfold done_or_raise. simpl. fold role_name. rewrite Hl. simpl.
  rewrite Hs. simpl. rewrite Hc. simpl. rewrite Hp. simpl. rewrite Hlist. simpl.
  rewrite Hex. simpl. rewrite Hattach. reflexivity.
Qed.

Lemma mcp_created_role_gets_both_policies_witness :
  McpSetup.get_or_create_role SetupScenario.support_access SetupScenario.fresh
    SetupScenario.agent [] =
    (Return (Arn (Role SetupScenario.the_role)),
     [Get_role SetupScenario.role_name; Sts_get_caller_identity;
      Create_role SetupScenario.role_name
        (McpSetup._get_assume_role_policy (Some "us-east-1") SetupScenario.account) None;
      Put_role_policy
        (McpSetup._get_role_policy (Some "us-east-1") SetupScenario.account
           SetupScenario.agent)
        McpSetup.POLICY_NAME SetupScenario.role_name;
      List_attached_role_policies SetupScenario.role_name;
      Attach_role_policy SetupScenario.role_name SetupScenario.support_access]).
Proof.
  apply (mcp_created_role_gets_both_policies SetupScenario.fresh
           SetupScenario.support_access SetupScenario.agent SetupScenario.account
           _ SetupScenario.the_role [] (JObj []) eq_refl eq_refl eq_refl eq_refl eq_refl).
  - intros policy [].
  - reflexivity.
Defined.

End SetupMoreFacts.

(** ** [MCP/aws_setup.py]: the Cognito user pool *)

Module CognitoFacts.
Import Py McpCognito.

Ltac open_cognito :=
  unfold setup_cognito_user_pool, cognito_client, _find_existing_pool,
    _create_user_pool, _authenticate_user, reauthenticate_user, request,
    try_except, bind, ret, raise, lift.

(** the search loop: what it returns and what it sends *)
Lemma find_pool_sound (E : env) (pools : list user_pool) (sent sent' : list call)
    (r : outcome (option string * option string)) :
  find_pool E pools sent = (r, sent') ->
  (exists d, sent' = sent ++ d /\ forallb Observe.is_listing d = true) /\
  match r with
  | Return (Some pool_id, Some client_id) =>
      exists pool t clients client,
        In pool pools /\ Name pool = POOL_NAME /\ Id pool = pool_id /\
        list_user_pool_clients E t pool_id = Return clients /\
        In client clients /\ ClientName client = CLIENT_NAME /\
        ClientId client = client_id
  | Return (None, None) => True
  | Return _ => False
  | Raise _ => True
  end.
Proof.
  revert sent; induction pools as [|pool pools IH]; intros sent; simpl.
  - unfold ret. intros H. injection H as <- <-.
    split; [exists []; rewrite app_nil_r; auto | exact I].
  - destruct (String.eqb (Name pool) POOL_NAME) eqn:Hname.
    + unfold bind, request.
      destruct (list_user_pool_clients E (length sent) (Id pool)) as [clients|e] eqn:Hc.
      * destruct (find_client clients) as [client_id|] eqn:Hf.
        -- unfold ret. intros H. injection H as <- <-.
           split; [eexists; split; [reflexivity | reflexivity] |].
           exists pool, (length sent), clients.
           assert (Hcl : exists client, In client clients /\
                           ClientName client = CLIENT_NAME /\ ClientId client = client_id).
           { clear Hc. induction clients as [|c clients IHc]; simpl in Hf; [discriminate |].
             destruct (String.eqb (ClientName c) CLIENT_NAME) eqn:Hcn.
             - injection Hf as <-. exists c. apply String.eqb_eq in Hcn.
               split; [left; reflexivity | auto].
             - destruct (IHc Hf) as (c' & Hin & Hrest). exists c'.
               split; [right; exact Hin | exact Hrest]. }
           destruct Hcl as (client & Hin & Hcn & Hid).
           exists client. apply String.eqb_eq in Hname.
           repeat split; auto.
        -- intros H. destruct (IH _ H) as [(d & -> & Hd) Hr]. split.
           ++ exists (List_user_pool_clients (Id pool) :: d).
              split; [rewrite <- app_assoc; reflexivity | exact Hd].
           ++ destruct r as [[[pid|] [cid|]]|e]; auto.
              destruct Hr as (p & t & cl & c & Hin & Hrest).
              exists p, t, cl, c. split; [right; exact Hin | exact Hrest].
      * intros H. injection H as <- <-.
        split; [eexists; split; [reflexivity | reflexivity] | exact I].
    + intros H. destruct (IH _ H) as [Hd Hr]. split; [exact Hd |].
      destruct r as [[[pid|] [cid|]]|e]; auto.
      destruct Hr as (p & t & cl & c & Hin & Hrest).
      exists p, t, cl, c. split; [right; exact Hin | exact Hrest].
Qed.

(** X20. What [_find_existing_pool] returns is either no pair at all or the
    id of a listed pool named [POOL_NAME] together with the id of a client of
    that pool named [CLIENT_NAME]; and every request the search sends is a
    listing, of the pools or of the clients of a pool: it creates nothing and
    authenticates nobody. *)
Theorem find_existing_pool_returns_matching_pair
    (E : env) (sent sent' : list call) (r : outcome (option string * option string)) :
  _find_existing_pool E sent = (r, sent') ->
  (exists d, sent' = sent ++ d /\ forallb Observe.is_listing d = true) /\
  match r with
  | Return (Some pool_id, Some client_id) =>
      exists pools pool t clients client,
        list_user_pools E (length sent) MAX_POOLS_TO_LIST = Return pools /\
        In pool pools /\ Name pool = POOL_NAME /\ Id pool = pool_id /\
        list_user_pool_clients E t pool_id = Return clients /\
        In client clients /\ ClientName client = CLIENT_NAME /\
        ClientId client = client_id
  | Return (None, None) => True
  | Return _ => False
  | Raise _ => True
  end.
Proof.
  unfold _find_existing_pool, bind, request.
  destruct (list_user_pools E (length sent) MAX_POOLS_TO_LIST) as [pools|e] eqn:Hl.
  - intros H. destruct (find_pool_sound _ _ _ _ _ H) as [(d & -> & Hd) Hr]. split.
    + exists (List_user_pools MAX_POOLS_TO_LIST :: d).
      split; [rewrite <- app_assoc; reflexivity | exact Hd].
    + destruct r as [[[pid|] [cid|]]|e]; auto.
      destruct Hr as (p & t & cl & c & Hrest). exists pools, p, t, cl, c. auto.
  - intros H. injection H as <- <-.
    split; [eexists; split; [reflexivity | reflexivity] | exact I].
Qed.

Lemma find_existing_pool_returns_matching_pair_witness :
  _find_existing_pool CognitoScenario.existing [] =
    (Return (Some "us-east-1_Ab12Cd34E", Some "4h57gqa2r1example"),
     [List_user_pools 60; List_user_pool_clients "us-east-1_Ab12Cd34E"]) /\
  exists pool, Name pool = POOL_NAME /\ Id pool = "us-east-1_Ab12Cd34E".
Proof.
  assert (H : _find_existing_pool CognitoScenario.existing [] =
    (Return (Some "us-east-1_Ab12Cd34E", Some "4h57gqa2r1example"),
     [List_user_pools 60; List_user_pool_clients "us-east-1_Ab12Cd34E"]))
    by reflexivity.
  split; [exact H |].
  destruct (find_existing_pool_returns_matching_pair _ _ _ _ H)
    as [_ (pools & pool & t & cl & c & _ & _ & Hn & Hi & _)].
  exists pool. auto.
Defined.

(** X21. Pools of another name are not looked into: when no listed pool is
    named [POOL_NAME], [_find_existing_pool] returns the empty pair after the
    one listing request, without listing any pool's clients. *)
Theorem find_existing_pool_skips_other_names
    (E : env) (sent : list call) (pools : list user_pool) :
  list_user_pools E (length sent) MAX_POOLS_TO_LIST = Return pools ->
  (forall pool, In pool pools -> Name pool <> POOL_NAME) ->
  _find_existing_pool E sent =
    (Return (None, None), sent ++ [List_user_pools MAX_POOLS_TO_LIST]).
Proof.
  intros Hl Hnone. unfold _find_existing_pool, bind, request. rewrite Hl.
  clear Hl. generalize (sent ++ [List_user_pools MAX_POOLS_TO_LIST]). revert Hnone.
  induction pools as [|pool pools IH]; intros Hnone sent0; simpl; [reflexivity |].
  destruct (String.eqb (Name pool) POOL_NAME) eqn:Hn.
  - apply String.eqb_eq in Hn. elim (Hnone pool (or_introl eq_refl) Hn).
  - apply IH. intros p Hp. apply Hnone. right. exact Hp.
Qed.

Lemma find_existing_pool_skips_other_names_witness :
  let E := CognitoScenario.make_env
             [{| Name := "SomeOtherPool"; Id := "us-east-1_Zz99Yy88X" |}]
             (fun _ => [{| ClientName := CLIENT_NAME; ClientId := "4h57gqa2r1example" |}]) in
  _find_existing_pool E [] = (Return (None, None), [List_user_pools 60]).
Proof.
  intros E.
  apply (find_existing_pool_skips_other_names E []
           [{| Name := "SomeOtherPool"; Id := "us-east-1_Zz99Yy88X" |}] eq_refl).
  intros pool [<- | []]. discriminate.
Defined.

(** the configuration document [setup_cognito_user_pool] builds *)
Lemma config_from_authentication (E : env) (pool_id client_id : string)
    (sent sent' : list call) (r : outcome (option json)) :
  bind (_authenticate_user E client_id) (fun bearer_token =>
    ret (Some (JObj [("pool_id", JStr pool_id);
                     ("client_id", JStr client_id);
                     ("bearer_token", bearer_token);
                     ("discovery_url",
                      JStr (COGNITO_DISCOVERY_URL_TEMPLATE (region_name E) pool_id));
                     ("AuthParameters",
                      JObj [("USERNAME", JStr USERNAME); ("PASSWORD", JStr PASSWORD)])])))
    sent = (r, sent') ->
  sent' = sent ++ [Initiate_auth client_id "USER_PASSWORD_AUTH" USERNAME PASSWORD] /\
  forall config, r = Return (Some config) ->
    exists auth_response authentication_result token,
      initiate_auth E (length sent) client_id USERNAME PASSWORD = Return auth_response /\
      subscript auth_response "AuthenticationResult" = Return authentication_result /\
      subscript authentication_result "AccessToken" = Return token /\
      config = JObj [("pool_id", JStr pool_id);
                     ("client_id", JStr client_id);
                     ("bearer_token", token);
                     ("discovery_url",
                      JStr (COGNITO_DISCOVERY_URL_TEMPLATE (region_name E) pool_id));
                     ("AuthParameters",
                      JObj [("USERNAME", JStr USERNAME); ("PASSWORD", JStr PASSWORD)])].
Proof.
  unfold _authenticate_user, bind, request, lift, ret.
  destruct (initiate_auth E (length sent) client_id USERNAME PASSWORD)
    as [auth_response|e].
  - destruct (subscript auth_response "AuthenticationResult")
      as [authentication_result|e] eqn:H1.
    + destruct (subscript authentication_result "AccessToken") as [token|e] eqn:H2.
      * intros H. injection H as <- <-. split; [reflexivity |].
        intros config Hc. injection Hc as <-.
        exists auth_response, authentication_result, token. auto.
      * intros H. injection H as <- <-. split; [reflexivity | discriminate].
    + intros H. injection H as <- <-. split; [reflexivity | discriminate].
  - intros H. injection H as <- <-. split; [reflexivity | discriminate].
Qed.

(** how [setup_cognito_user_pool] ends, in full *)
Lemma setup_outcome
    (E : env) (sent sent' : list call) (r : outcome (option json)) :
  setup_cognito_user_pool E sent = (r, sent') ->
  match region_name E with
  | None => r = Raise (PyError "You must specify a region.") /\ sent' = sent
  | Some _ =>
      exists result, r = Return result /\
      forall config, result = Some config ->
        exists pool_id client_id before auth_response authentication_result token,
          sent' = before ++ [Initiate_auth client_id "USER_PASSWORD_AUTH" USERNAME PASSWORD] /\
          initiate_auth E (length before) client_id USERNAME PASSWORD = Return auth_response /\
          subscript auth_response "AuthenticationResult" = Return authentication_result /\
          subscript authentication_result "AccessToken" = Return token /\
          config = JObj [("pool_id", JStr pool_id);
                         ("client_id", JStr client_id);
                         ("bearer_token", token);
                         ("discovery_url",
                          JStr (COGNITO_DISCOVERY_URL_TEMPLATE (region_name E) pool_id));
                         ("AuthParameters",
                          JObj [("USERNAME", JStr USERNAME); ("PASSWORD", JStr PASSWORD)])]
  end.
Proof.
  unfold setup_cognito_user_pool, cognito_client. unfold bind at 1.
  destruct (region_name E) as [region|] eqn:Hregion.
  2: { unfold raise. intros H. injection H as <- <-. split; reflexivity. }
  unfold ret at 1. unfold try_except.
  unfold bind at 1.
  destruct (_find_existing_pool E sent) as [[found|e] sent1].
  - unfold bind at 1.
    match goal with
    | |- context [(if ?c then ?a else ?b) sent1] =>
        destruct ((if c then a else b) sent1) as [[ids|e] sent2]
    end.
    + cbv zeta.
      match goal with
      | |- context [bind ?m ?k sent2] =>
          destruct (bind m k sent2) as [[result|e] sent3] eqn:Hauth
      end.
      * intros H. injection H as <- <-. exists result. split; [reflexivity |].
        intros config ->. rewrite <- Hregion in Hauth.
        destruct (config_from_authentication _ _ _ _ _ _ Hauth) as [-> Hc].
        destruct (Hc config eq_refl) as (resp & ar & tok & H1 & H2 & H3 & ->).
        rewrite Hregion.
        exists (fst ids), (snd ids), sent2, resp, ar, tok. auto.
      * unfold ret. intros H. injection H as <- <-.
        exists None. split; [reflexivity | discriminate].
    + unfold ret. intros H. injection H as <- <-.
      exists None. split; [reflexivity | discriminate].
  - unfold ret. intros H. injection H as <- <-.
    exists None. split; [reflexivity | discriminate].
Qed.

(** X22. [setup_cognito_user_pool] builds its Cognito client before the
    [try]: with no region configured that fails, and the error is raised to
    the caller with no request sent.  With a region configured it never
    raises: every failure on the way is turned into [None].  When it returns
    a configuration, the last request it sent is the authentication of the
    client named in it, and the document holds that client's id, the access
    token just issued as [bearer_token], the discovery URL of the pool and the
    fixed user name and password. *)
Theorem setup_returns_config_or_none
    (E : env) (sent sent' : list call) (r : outcome (option json)) :
  setup_cognito_user_pool E sent = (r, sent') ->
  match region_name E with
  | None => r = Raise (PyError "You must specify a region.") /\ sent' = sent
  | Some _ =>
      exists result, r = Return result /\
      forall config, result = Some config ->
        exists pool_id client_id before auth_response authentication_result token,
          sent' = before ++ [Initiate_auth client_id "USER_PASSWORD_AUTH" USERNAME PASSWORD] /\
          initiate_auth E (length before) client_id USERNAME PASSWORD = Return auth_response /\
          subscript auth_response "AuthenticationResult" = Return authentication_result /\
          subscript authentication_result "AccessToken" = Return token /\
          config = JObj [("pool_id", JStr pool_id);
                         ("client_id", JStr client_id);
                         ("bearer_token", token);
                         ("discovery_url",
                          JStr (COGNITO_DISCOVERY_URL_TEMPLATE (region_name E) pool_id));
                         ("AuthParameters",
                          JObj [("USERNAME", JStr USERNAME); ("PASSWORD", JStr PASSWORD)])]
  end.
Proof. apply setup_outcome. Qed.

Lemma setup_returns_config_or_none_witness :
  let res := setup_cognito_user_pool CognitoScenario.existing [] in
  let res' := setup_cognito_user_pool CognitoScenario.no_region [] in
  (res = (fst res, snd res) /\
   fst res =
     Return (Some (JObj
       [("pool_id", JStr "us-east-1_Ab12Cd34E");
        ("client_id", JStr "4h57gqa2r1example");
        ("bearer_token", JStr "token-setup");
        ("discovery_url", JStr "https://cognito-idp.us-east-1.amazonaws.com/us-east-1_Ab12Cd34E/.well-known/openid-configuration");
        ("AuthParameters",
         JObj [("USERNAME", JStr "testuser"); ("PASSWORD", JStr "MyPassword123!")])])) /\
   exists before, snd res = before ++ [Initiate_auth "4h57gqa2r1example"
                                         "USER_PASSWORD_AUTH" USERNAME PASSWORD]) /\
  (res' = (fst res', snd res') /\
   fst res' = Raise (PyError "You must specify a region.") /\ snd res' = []).
Proof.
  intros res res'.
  assert (H : res = (fst res, snd res)) by reflexivity.
  assert (H' : res' = (fst res', snd res')) by reflexivity.
  split.
  - split; [exact H |]. split; [reflexivity |].
    destruct (setup_returns_config_or_none CognitoScenario.existing [] (snd res) (fst res) H)
      as (result & Hr & Hconfig).
    destruct (Hconfig _ (f_equal (fun o => match o with Return x => x | Raise _ => None end) (eq_sym Hr)))
      as (pool_id & client_id & before & resp & ar & tok & Hsent & _ & _ & _ & Hc).
    injection Hc as _ <- _. exists before. exact Hsent.
  - split; [exact H' |].
    exact (setup_returns_config_or_none CognitoScenario.no_region [] (snd res') (fst res') H').
Defined.

(** X23. No duplicate pool: when the search returns a pool id and a client id
    (both non-empty), [setup_cognito_user_pool] creates nothing; what it has
    sent when it ends is what the search sent and then the authentication of
    that client, nothing else.  (A region is configured: without one nothing
    is sent at all.) *)
Theorem setup_reuses_existing_pool
    (E : env) (region : string) (sent sent1 : list call) (pool_id client_id : string) :
  region_name E = Some region ->
  _find_existing_pool E sent = (Return (Some pool_id, Some client_id), sent1) ->
  pool_id <> "" -> client_id <> "" ->
  snd (setup_cognito_user_pool E sent) =
    sent1 ++ [Initiate_auth client_id "USER_PASSWORD_AUTH" USERNAME PASSWORD].
Proof.
  intros Hregion Hfind Hp Hc.
  unfold setup_cognito_user_pool, cognito_client. unfold bind at 1.
  rewrite Hregion. unfold ret at 1. unfold try_except.
  unfold bind at 1. rewrite Hfind.
  unfold bind at 1. simpl fst. simpl snd.
  apply String.eqb_neq in Hp, Hc. rewrite Hp, Hc.
  simpl andb. cbv iota. unfold ret at 1. cbv zeta. simpl fst. simpl snd.
  match goal with
  | |- context [bind ?m ?k sent1] =>
      destruct (bind m k sent1) as [r0 sent2] eqn:Hauth
  end.
  rewrite <- Hregion in Hauth.
  destruct (config_from_authentication _ _ _ _ _ _ Hauth) as [-> _].
  destruct r0; reflexivity.
Qed.

Lemma setup_reuses_existing_pool_witness :
  let E := CognitoScenario.existing in
  _find_existing_pool E [] =
    (Return (Some "us-east-1_Ab12Cd34E", Some "4h57gqa2r1example"),
     [List_user_pools 60; List_user_pool_clients "us-east-1_Ab12Cd34E"]) /\
  snd (setup_cognito_user_pool E []) =
    [List_user_pools 60; List_user_pool_clients "us-east-1_Ab12Cd34E"] ++
    [Initiate_auth "4h57gqa2r1example" "USER_PASSWORD_AUTH" USERNAME PASSWORD].
Proof.
  intros E.
  assert (H : _find_existing_pool E [] =
    (Return (Some "us-east-1_Ab12Cd34E", Some "4h57gqa2r1example"),
     [List_user_pools 60; List_user_pool_clients "us-east-1_Ab12Cd34E"]))
    by reflexivity.
  split; [exact H |].
  assert (Hp : "us-east-1_Ab12Cd34E" <> "") by discriminate.
  assert (Hc : "4h57gqa2r1example" <> "") by discriminate.
  exact (setup_reuses_existing_pool E "us-east-1" [] _ _ _ eq_refl H Hp Hc).
Defined.

(** X24. When the search finds nothing, [setup_cognito_user_pool] creates the
    pool, then the client in that pool, then the user, sets the permanent
    password and authenticates the new client, in this order; with all five
    calls going through the configuration names the pool and the client just
    created.  (The Cognito client the calls go through exists only with a
    region configured.) *)
Theorem setup_creates_pool_client_user_in_order
    (E : env) (region : string) (sent1 : list call) (pool_id client_id : string)
    (auth_response authentication_result token : json) :
  let t := length sent1 in
  region_name E = Some region ->
  _find_existing_pool E [] = (Return (None, None), sent1) ->
  create_user_pool E t POOL_NAME 8 = Return pool_id ->
  create_user_pool_client E (t + 1) pool_id CLIENT_NAME = Return client_id ->
  admin_create_user E (t + 2) pool_id USERNAME = None ->
  admin_set_user_password E (t + 3) pool_id USERNAME PASSWORD = None ->
  initiate_auth E (t + 4) client_id USERNAME PASSWORD = Return auth_response ->
  subscript auth_response "AuthenticationResult" = Return authentication_result ->
  subscript authentication_result "AccessToken" = Return token ->
  setup_cognito_user_pool E [] =
    (Return (Some (JObj
       [("pool_id", JStr pool_id);
        ("client_id", JStr client_id);
        ("bearer_token", token);
        ("discovery_url", JStr (COGNITO_DISCOVERY_URL_TEMPLATE (region_name E) pool_id));
        ("AuthParameters",
         JObj [("USERNAME", JStr USERNAME); ("PASSWORD", JStr PASSWORD)])])),
     sent1 ++
     [Create_user_pool POOL_NAME 8;
      Create_user_pool_client pool_id CLIENT_NAME false
        ["ALLOW_USER_PASSWORD_AUTH"; "ALLOW_REFRESH_TOKEN_AUTH"];
      Admin_create_user pool_id USERNAME "Temp123!" "SUPPRESS";
      Admin_set_user_password pool_id USERNAME PASSWORD true;
      Initiate_auth client_id "USER_PASSWORD_AUTH" USERNAME PASSWORD]).
Proof.
  intros t Hregion Hfind Hpool Hclient Huser Hpass Hauth Hres Htok.
  unfold setup_cognito_user_pool, cognito_client. unfold bind at 1.
  destruct (region_name E) as [region'|]; [| discriminate Hregion].
  unfold ret at 1. unfold try_except. unfold bind at 1. rewrite Hfind.
  unfold _create_user_pool, _authenticate_user, bind, request, lift, ret,
    Iam.done_or_raise.
  cbn [fst snd Iam.truthy andb]. cbv beta iota.
  fold t. rewrite Hpool. cbv beta iota.
  rewrite !length_app. cbn [length]. fold t.
  rewrite Hclient. cbv beta iota.
  replace (t + 1 + 1) with (t + 2) by lia. rewrite Huser. cbv beta iota.
  replace (t + 2 + 1) with (t + 3) by lia. rewrite Hpass.
  cbn [fst snd]. cbv beta iota.
  rewrite !length_app. cbn [length]. fold t.
  replace (t + 1 + 1 + 1 + 1) with (t + 4) by lia. rewrite Hauth, Hres, Htok.
  rewrite <- !app_assoc. reflexivity.
Qed.

Lemma setup_creates_pool_client_user_in_order_witness :
  let E := CognitoScenario.nothing_yet in
  _find_existing_pool E [] = (Return (None, None), [List_user_pools 60]) /\
  snd (setup_cognito_user_pool E []) =
    [List_user_pools 60;
     Create_user_pool POOL_NAME 8;
     Create_user_pool_client "us-east-1_New000001" CLIENT_NAME false
       ["ALLOW_USER_PASSWORD_AUTH"; "ALLOW_REFRESH_TOKEN_AUTH"];
     Admin_create_user "us-east-1_New000001" USERNAME "Temp123!" "SUPPRESS";
     Admin_set_user_password "us-east-1_New000001" USERNAME PASSWORD true;
     Initiate_auth "7newclient0example" "USER_PASSWORD_AUTH" USERNAME PASSWORD].
Proof.
  intros E.
  assert (H : _find_existing_pool E [] = (Return (None, None), [List_user_pools 60]))
    by reflexivity.
  split; [exact H |].
  rewrite (setup_creates_pool_client_user_in_order E "us-east-1" [List_user_pools 60]
             "us-east-1_New000001" "7newclient0example" _ _ (JStr "token-setup")
             eq_refl H eq_refl eq_refl eq_refl eq_refl eq_refl eq_refl eq_refl).
  reflexivity.
Defined.

End CognitoFacts.

(** ** The bundle made by the MCP setup, used by the agent *)

Module BundleFacts.
Import Py.



End BundleFacts.
